(** * Hotel question-answer data quality filter: model and verified properties

    A shallow embedding of [src/data_quality/rules.py] and
    [src/data_quality/filter.py].  Records and judgment-service responses are
    JSON documents, so the Python values the code manipulates are modelled by
    one datatype [pyval]; Python [str] is a sequence of Unicode code points;
    exceptions are explicit ([result]); dictionaries keyed by record index
    are [gmap]s; the files a run writes go through the file operations of
    the interpreter ([TextFiles]), which thread the state of the file
    system. *)

From Stdlib Require Import ZArith NArith String Ascii List Lia Permutation.
From Stdlib Require Import DecimalString QArith_base.
From Stdlib Require Import Floats.PrimFloat Floats.SpecFloat Floats.FloatOps.
From Stdlib Require Import Sorted.
From stdpp Require Import base option list gmap.

Set Default Proof Using "Type".
Local Open Scope Z_scope.

(** ** Python strings *)

(** A Python [str] is a sequence of code points; [len] counts code points. *)
Definition pystr := list N.

(** Literals are written as UTF-8 text and decoded to their code points. *)
Fixpoint utf8_go (acc : N) (need : nat) (bs : list N) : pystr :=
  match bs with
  | [] => []
  | b :: r =>
      match need with
      | S k =>
          let acc' := (acc * 64 + b mod 64)%N in
          match k with
          | O => acc' :: utf8_go 0%N 0%nat r
          | S _ => utf8_go acc' k r
          end
      | O =>
          if (b <? 128)%N then b :: utf8_go 0%N 0%nat r
          else if (b <? 224)%N then utf8_go (b mod 32)%N 1%nat r
          else if (b <? 240)%N then utf8_go (b mod 16)%N 2%nat r
          else utf8_go (b mod 8)%N 3%nat r
      end
  end.

Definition py (s : string) : pystr :=
  utf8_go 0%N 0%nat (map N_of_ascii (list_ascii_of_string s)).
Arguments py : simpl never.

(** The double quote character (code point 34). *)
Definition dquote : pystr := [34%N].
(** [chr(10)] *)
Definition newline : pystr := [10%N].

Definition pystr_eqb (s t : pystr) : bool := bool_decide (s = t).

(** [s.startswith(p)] and the substring test [p in s]. *)
Fixpoint starts_with (p s : pystr) : bool :=
  match p, s with
  | [], _ => true
  | _ :: _, [] => false
  | x :: p', y :: s' => (x =? y)%N && starts_with p' s'
  end.

Fixpoint str_contains (p s : pystr) : bool :=
  starts_with p s ||
  match s with
  | [] => false
  | _ :: s' => str_contains p s'
  end.

(** [ch.isspace()]: the code points CPython treats as whitespace. *)
Definition is_space (c : N) : bool :=
  ((9 <=? c) && (c <=? 13) || (28 <=? c) && (c <=? 32) ||
   (c =? 133) || (c =? 160) || (c =? 5760) ||
   (8192 <=? c) && (c <=? 8202) || (c =? 8232) || (c =? 8233) ||
   (c =? 8239) || (c =? 8287) || (c =? 12288))%N.

Fixpoint lstrip (s : pystr) : pystr :=
  match s with
  | [] => []
  | c :: r => if is_space c then lstrip r else s
  end.

(** [s.strip()] *)
Definition strip (s : pystr) : pystr := rev (lstrip (rev (lstrip s))).

(** [sep.join(items)] *)
Fixpoint join (sep : pystr) (items : list pystr) : pystr :=
  match items with
  | [] => []
  | [x] => x
  | x :: rest => x ++ sep ++ join sep rest
  end.

(** [s.replace(old, new)] for a non-empty [old]: every occurrence of [old]
    met from left to right, the characters of a replaced occurrence being
    skipped, becomes [new]. *)
Fixpoint replace_from (old new : pystr) (skip : nat) (s : pystr) : pystr :=
  match s with
  | [] => []
  | c :: r =>
      match skip with
      | S k => replace_from old new k r
      | O =>
          if starts_with old s then new ++ replace_from old new (length old - 1) r
          else c :: replace_from old new 0 r
      end
  end.

Definition py_replace (old new s : pystr) : pystr := replace_from old new 0 s.

(** [str(z)] for an integer: its decimal numeral. *)
Definition str_of_Z (z : Z) : pystr :=
  map N_of_ascii (list_ascii_of_string (NilZero.string_of_int (Z.to_int z))).

Definition str_of_nat (n : nat) : pystr := str_of_Z (Z.of_nat n).

(** ** Python values *)

(** The values [json.loads] can produce. A dictionary keeps its items in
    insertion order; its keys are distinct and lookup finds the item of a key. *)
#[warnings="-register-all"]
Inductive pyval :=
| VNone
| VBool (b : bool)
| VInt (z : Z)
| VFloat (f : float)
| VStr (s : pystr)
| VList (l : list pyval)
| VDict (d : list (pystr * pyval)).

Definition pydict := list (pystr * pyval).

Fixpoint dict_lookup (d : pydict) (k : pystr) : option pyval :=
  match d with
  | [] => None
  | (k', v) :: r => if pystr_eqb k' k then Some v else dict_lookup r k
  end.

(** [d.get(k, dflt)] *)
Definition dict_get (d : pydict) (k : pystr) (dflt : pyval) : pyval :=
  default dflt (dict_lookup d k).

(** [d[k] = v]: replaces the item in place, or appends a new one. *)
Fixpoint dict_set (d : pydict) (k : pystr) (v : pyval) : pydict :=
  match d with
  | [] => [(k, v)]
  | (k', v') :: r =>
      if pystr_eqb k' k then (k', v) :: r else (k', v') :: dict_set r k v
  end.

Definition type_name (v : pyval) : pystr :=
  match v with
  | VNone => py "NoneType"
  | VBool _ => py "bool"
  | VInt _ => py "int"
  | VFloat _ => py "float"
  | VStr _ => py "str"
  | VList _ => py "list"
  | VDict _ => py "dict"
  end.

(** ** Exceptions *)

Inductive exn_class :=
| AttributeError | TypeError | KeyError | IndexError | ValueError
| ZeroDivisionError | JSONDecodeError | RuntimeError | UnicodeEncodeError
| OSError | OtherError.

(** An exception: its class and [str(e)]. *)
Record exn := Exn { exn_cls : exn_class; exn_str : pystr }.

Inductive result (A : Type) :=
| Ok (a : A)
| Raise (e : exn).
Arguments Ok {A} a.
Arguments Raise {A} e.

#[global] Instance result_ret : MRet result := fun A a => Ok a.
#[global] Instance result_bind : MBind result := fun A B f m =>
  match m with
  | Ok a => f a
  | Raise e => Raise e
  end.
#[global] Instance result_fmap : FMap result := fun A B f m =>
  match m with
  | Ok a => Ok (f a)
  | Raise e => Raise e
  end.

(** Message texts are those of CPython 3.11. *)
Definition attribute_error (v : pyval) (attr : string) : exn :=
  Exn AttributeError
    (py "'" ++ type_name v ++ py "' object has no attribute '" ++ py attr ++ py "'").

Definition not_subscriptable (v : pyval) : exn :=
  Exn TypeError (py "'" ++ type_name v ++ py "' object is not subscriptable").

(** ** Operations on Python values *)

(** [len(v)] *)
Definition py_len (v : pyval) : result nat :=
  match v with
  | VStr s => Ok (length s)
  | VList l => Ok (length l)
  | VDict d => Ok (length d)
  | _ => Raise (Exn TypeError
                  (py "object of type '" ++ type_name v ++ py "' has no len()"))
  end.

(** [v.get(k, dflt)]: only dictionaries have the method. *)
Definition py_get (v : pyval) (k : string) (dflt : pyval) : result pyval :=
  match v with
  | VDict d => Ok (dict_get d (py k) dflt)
  | _ => Raise (attribute_error v "get")
  end.

(** [v[i]] for a literal index [i] (0 or 1 in the source). *)
Definition py_index (v : pyval) (i : nat) : result pyval :=
  match v with
  | VList l =>
      match l !! i with
      | Some x => Ok x
      | None => Raise (Exn IndexError (py "list index out of range"))
      end
  | VStr s =>
      match s !! i with
      | Some c => Ok (VStr [c])
      | None => Raise (Exn IndexError (py "string index out of range"))
      end
  | VDict d => Raise (Exn KeyError (str_of_nat i))
  | _ => Raise (not_subscriptable v)
  end.

(** [v[k]] for a literal string key [k] ('parts', 'text' in the source). *)
Definition py_item (v : pyval) (k : string) : result pyval :=
  match v with
  | VDict d =>
      match dict_lookup d (py k) with
      | Some x => Ok x
      | None => Raise (Exn KeyError (py "'" ++ py k ++ py "'"))
      end
  | VList _ =>
      Raise (Exn TypeError (py "list indices must be integers or slices, not str"))
  | VStr _ =>
      Raise (Exn TypeError (py "string indices must be integers, not 'str'"))
  | _ => Raise (not_subscriptable v)
  end.

(** [needle in v] for a string [needle]: substring of a string, element of a
    list, key of a dictionary. *)
Definition py_contains (needle : pystr) (v : pyval) : result bool :=
  match v with
  | VStr s => Ok (str_contains needle s)
  | VList l =>
      Ok (existsb (fun x => match x with
                            | VStr s => pystr_eqb s needle
                            | _ => false
                            end) l)
  | VDict d => Ok (existsb (fun kv => pystr_eqb kv.1 needle) d)
  | _ => Raise (Exn TypeError
                  (py "argument of type '" ++ type_name v ++ py "' is not iterable"))
  end.

(** [v + s] where the right operand [s] is a string. *)
Definition py_add_str (v : pyval) (s : pystr) : result pystr :=
  match v with
  | VStr q => Ok (q ++ s)
  | VList _ =>
      Raise (Exn TypeError
               (py "can only concatenate list (not " ++ dquote ++ py "str" ++
                dquote ++ py ") to list"))
  | _ =>
      Raise (Exn TypeError
               (py "unsupported operand type(s) for +: '" ++ type_name v ++
                py "' and 'str'"))
  end.

(** Exact comparison [f >= z] of a binary64 float with an integer. *)
Definition float_ge_int (f : float) (z : Z) : bool :=
  match Prim2SF f with
  | S754_zero _ => z <=? 0
  | S754_infinity s => negb s
  | S754_nan => false
  | S754_finite s m e =>
      let v := if s then Z.neg m else Z.pos m in
      if 0 <=? e then z <=? v * 2 ^ e else z * 2 ^ (- e) <=? v
  end.

(** [v >= z] for an integer [z]; [bool] is a subclass of [int]. *)
Definition py_ge_int (v : pyval) (z : Z) : result bool :=
  match v with
  | VInt x => Ok (z <=? x)
  | VBool b => Ok (z <=? (if b then 1 else 0))
  | VFloat f => Ok (float_ge_int f z)
  | _ => Raise (Exn TypeError
                  (py "'>=' not supported between instances of '" ++
                   type_name v ++ py "' and 'int'"))
  end.

(** Truth value of [v], as used by [if v], [not v], [v and w]. *)
Definition py_truthy (v : pyval) : bool :=
  match v with
  | VNone => false
  | VBool b => b
  | VInt z => negb (z =? 0)
  | VFloat f => negb (PrimFloat.eqb f PrimFloat.zero)
  | VStr s => negb (bool_decide (s = []))
  | VList l => negb (bool_decide (length l = 0%nat))
  | VDict d => negb (bool_decide (length d = 0%nat))
  end.

(** [float(n)] for a length [n] (exact below 2^53), and the true division
    [a / b] of two lengths with a non-zero divisor: the quotient of the two
    floats, which is how CPython divides integers of that size. *)
Definition float_of_nat (n : nat) : float :=
  PrimFloat.of_uint63 (Uint63Axioms.of_Z (Z.of_nat n)).

Definition float_div_nat (a b : nat) : float :=
  PrimFloat.div (float_of_nat a) (float_of_nat b).

(** [a / b] *)
Definition py_truediv (a b : nat) : result float :=
  if (b =? 0)%nat then Raise (Exn ZeroDivisionError (py "division by zero"))
  else Ok (float_div_nat a b).

(** Exact comparison [f == z] of a binary64 float with an integer. *)
Definition float_eq_int (f : float) (z : Z) : bool :=
  match Prim2SF f with
  | S754_zero _ => z =? 0
  | S754_finite s m e =>
      let v := if s then Z.neg m else Z.pos m in
      if 0 <=? e then z =? v * 2 ^ e else z * 2 ^ (- e) =? v
  | _ => false
  end.

(** Dictionary keys.  Lists and dictionaries cannot be hashed; two keys are
    the same when they are equal ([True == 1 == 1.0], a string only equals a
    string, [None] only itself) or are one object.  The one NaN a run meets is
    the constant [json] hands out for every NaN literal, found again by
    identity. *)
Definition py_hashable (v : pyval) : bool :=
  match v with
  | VList _ | VDict _ => false
  | _ => true
  end.

Definition int_of_bool (b : bool) : Z := if b then 1 else 0.

Definition py_key_eqb (a b : pyval) : bool :=
  match a, b with
  | VNone, VNone => true
  | VStr s, VStr t => pystr_eqb s t
  | VBool x, VBool y => int_of_bool x =? int_of_bool y
  | VBool x, VInt y | VInt y, VBool x => int_of_bool x =? y
  | VInt x, VInt y => x =? y
  | VBool x, VFloat f | VFloat f, VBool x => float_eq_int f (int_of_bool x)
  | VInt x, VFloat f | VFloat f, VInt x => float_eq_int f x
  | VFloat f, VFloat g =>
      PrimFloat.eqb f g || PrimFloat.is_nan f && PrimFloat.is_nan g
  | _, _ => false
  end.

(** [d[k] = d.get(k, 0) + 1] on a dictionary of counts kept in insertion
    order; an existing item keeps its key object. *)
Fixpoint count_key {K} (same : K -> K -> bool) (d : list (K * nat)) (k : K)
  : list (K * nat) :=
  match d with
  | [] => [(k, 1%nat)]
  | (k', n) :: r =>
      if same k' k then (k', S n) :: r else (k', n) :: count_key same r k
  end.

(** [sorted(items, key=lambda x: x[1], reverse=True)]: by decreasing count,
    items of equal count in their original order (the sort is stable). *)
Fixpoint insert_by_count {K} (x : K * nat) (l : list (K * nat)) : list (K * nat) :=
  match l with
  | [] => [x]
  | y :: r => if (y.2 <=? x.2)%nat then x :: l else y :: insert_by_count x r
  end.

Definition sorted_by_count {K} (items : list (K * nat)) : list (K * nat) :=
  foldr insert_by_count [] items.

(** [min(l) if l else 0], [max(l) if l else 0], [sum(l) / len(l) if l else 0] *)
Definition min_or_zero (l : list nat) : nat :=
  match l with
  | [] => 0%nat
  | x :: r => foldl Nat.min x r
  end.

Definition max_or_zero (l : list nat) : nat :=
  match l with
  | [] => 0%nat
  | x :: r => foldl Nat.max x r
  end.

Definition avg_or_zero (l : list nat) : pyval :=
  match l with
  | [] => VInt 0
  | _ :: _ => VFloat (float_div_nat (foldl Nat.add 0%nat l) (length l))
  end.

(** ** rules.py *)

Record FilterStats := mkFilterStats {
  question_length : nat;
  answer_length : nat;
  has_question_mark : bool;
  is_hotel_related : bool;
  hotel_keywords_found : list pystr
}.

(** The fields [is_kept], [score] and [reason] receive whatever the
    evaluation dictionaries hold, so they are Python values. *)
Record FilterResult := mkFilterResult {
  index : nat;
  is_kept : pyval;
  score : pyval;
  reason : pyval;
  stage : pystr;
  stats : FilterStats
}.

Record ProcessingConfig := mkProcessingConfig {
  min_score : Z;
  batch_size : Z;
  max_workers : Z;
  sample_size : option Z
}.

Definition default_config : ProcessingConfig := mkProcessingConfig 7 12 6 None.

(** The dictionary returned by [get_quality_summary]: the entries
    ['question_length'] and ['answer_length'] are [{'min', 'max', 'avg'}]
    dictionaries; ['top_keywords'] and ['score_distribution'] list their
    items in order. *)
Record LengthSummary := mkLengthSummary {
  len_min : nat;
  len_max : nat;
  len_avg : pyval
}.

Record QualitySummary := mkQualitySummary {
  total_entries : nat;
  kept_entries : nat;
  retention_rate : pyval;
  question_length_summary : LengthSummary;
  answer_length_summary : LengthSummary;
  top_keywords : list (pystr * nat);
  score_distribution : list (pyval * nat)
}.

Module DataQualityRules.

Definition HOTEL_KEYWORDS : list pystr :=
  [ py "酒店"; py "宾馆"; py "客房"; py "房间"; py "前台"; py "服务"; py "入住"; py "退房";
    py "预订"; py "预定"; py "餐厅"; py "客人"; py "顾客"; py "住客"; py "管家"; py "清洁";
    py "维修"; py "设施"; py "早餐"; py "会议"; py "活动"; py "投诉"; py "建议"; py "接待";
    py "登记"; py "结账"; py "房卡"; py "钥匙"; py "毛巾"; py "床单"; py "空调"; py "电视";
    py "浴室"; py "洗漱"; py "毛巾"; py "拖鞋"; py "礼宾"; py "行李"; py "叫醒"; py "续住" ].

Definition MIN_QUESTION_LENGTH : nat := 8.
Definition MAX_QUESTION_LENGTH : nat := 120.
Definition MIN_ANSWER_LENGTH : nat := 30.
Definition MAX_ANSWER_LENGTH : nat := 1200.
Definition MIN_ANSWER_CONTENT_LENGTH : nat := 20.

Definition zero_stats : FilterStats := mkFilterStats 0 0 false false [].

(** [contents[i]['parts'][0]['text']] *)
Definition turn_text (contents : pyval) (i : nat) : result pyval :=
  turn ← py_index contents i;
  parts ← py_item turn "parts";
  part ← py_index parts 0;
  py_item part "text".

(** The four checks other than relevance, in source order; each yields its
    diagnostic when it fails. *)
Definition length_issues (qlen alen : nat) (has_mark : bool) (a : pystr)
  : list pystr :=
  (if negb ((MIN_QUESTION_LENGTH <=? qlen)%nat && (qlen <=? MAX_QUESTION_LENGTH)%nat)
   then [py "问题长度异常(" ++ str_of_nat qlen ++ py "字符)"] else []) ++
  (if negb ((MIN_ANSWER_LENGTH <=? alen)%nat && (alen <=? MAX_ANSWER_LENGTH)%nat)
   then [py "回答长度异常(" ++ str_of_nat alen ++ py "字符)"] else []) ++
  (if negb has_mark then [py "问题缺少疑问标记"] else []) ++
  (if (length (strip a) <? MIN_ANSWER_CONTENT_LENGTH)%nat
   then [py "回答内容过短"] else []).

(** The checks of [validate_entry] on the extracted question and answer
    (from the creation of [stats] to the [return]). *)
Definition check_texts (question answer : pyval)
  : result (bool * pystr * FilterStats) :=
  qlen ← py_len question;
  alen ← py_len answer;
  mark1 ← py_contains (py "？") question;
  has_mark ← (if (mark1 : bool) then Ok true else py_contains (py "?") question);
  match answer with
  | VStr a =>
      let issues := length_issues qlen alen has_mark a in
      combined_text ← py_add_str question a;
      let found_keywords :=
        filter (fun kw => str_contains kw combined_text = true) HOTEL_KEYWORDS in
      let related := (0 <? length found_keywords)%nat in
      let stats := mkFilterStats qlen alen has_mark related found_keywords in
      let issues := issues ++ (if negb related then [py "与酒店服务不相关"] else []) in
      let is_valid := (length issues <=? 1)%nat && related in
      let reason :=
        if bool_decide (issues = []) then py "通过规则检查"
        else join (py "; ") issues in
      Ok (is_valid, reason, stats)
  | _ => Raise (attribute_error answer "strip")
  end.

(** The body of the [try] block of [validate_entry]. *)
Definition validate_body (entry : pyval) : result (bool * pystr * FilterStats) :=
  contents ← py_get entry "contents" (VList []);
  n ← py_len contents;
  if ((n : nat) <? 2)%nat then
    Ok (false, py "数据格式错误：缺少问答内容", zero_stats)
  else
    question ← turn_text contents 0;
    answer ← turn_text contents 1;
    check_texts question answer.

(** [DataQualityRules.validate_entry] (rules.py, lines 62-125): any exception
    of the body becomes an invalid verdict. *)
Definition validate_entry (entry : pyval) : bool * pystr * FilterStats :=
  match validate_body entry with
  | Ok r => r
  | Raise e => (false, py "处理错误: " ++ exn_str e, zero_stats)
  end.

(** The loop [score_distribution[r.score] = score_distribution.get(r.score, 0) + 1]. *)
Fixpoint count_scores (score_distribution : list (pyval * nat))
    (results : list FilterResult) : result (list (pyval * nat)) :=
  match results with
  | [] => Ok score_distribution
  | r :: rest =>
      if py_hashable (score r) then
        count_scores (count_key py_key_eqb score_distribution (score r)) rest
      else
        Raise (Exn TypeError (py "unhashable type: '" ++ type_name (score r) ++ py "'"))
  end.

(** [DataQualityRules.get_quality_summary] (rules.py, lines 127-178): [None]
    is the empty dictionary returned for an empty list. *)
Definition get_quality_summary (results : list FilterResult)
  : result (option QualitySummary) :=
  if bool_decide (results = []) then Ok None
  else
    let total_count := length results in
    let kept_count := length (filter (fun r => py_truthy (is_kept r) = true) results) in
    let question_lengths := map (fun r => question_length (stats r)) results in
    let answer_lengths := map (fun r => answer_length (stats r)) results in
    let all_keywords := concat (map (fun r => hotel_keywords_found (stats r)) results) in
    let keyword_counts := foldl (count_key pystr_eqb) [] all_keywords in
    score_distribution ← count_scores [] results;
    Ok (Some
      {| total_entries := total_count;
         kept_entries := kept_count;
         retention_rate :=
           if (0 <? total_count)%nat then VFloat (float_div_nat kept_count total_count)
           else VInt 0;
         question_length_summary :=
           mkLengthSummary (min_or_zero question_lengths)
             (max_or_zero question_lengths) (avg_or_zero question_lengths);
         answer_length_summary :=
           mkLengthSummary (min_or_zero answer_lengths)
             (max_or_zero answer_lengths) (avg_or_zero answer_lengths);
         top_keywords := take 10 (sorted_by_count keyword_counts);
         score_distribution := score_distribution |}).

End DataQualityRules.

(** ** The Python runtime used by filter.py *)

(** [json.loads] and [repr] belong to the interpreter, not to this
    repository: the model is parametric in them.  [json_loads] returns the
    decoded value or the exception it raises; [py_repr] is what an f-string
    prints for floats and containers. *)
Class PythonRuntime := {
  json_loads : pystr -> result pyval;
  py_repr : pyval -> pystr
}.

(** The judgment service: [generate_content(prompt)] returns text or raises. *)
Definition content_generator := pystr -> result pystr.

(** [f'{v}'] *)
Definition py_format `{PythonRuntime} (v : pyval) : pystr :=
  match v with
  | VStr s => s
  | VInt z => str_of_Z z
  | VBool true => py "True"
  | VBool false => py "False"
  | VNone => py "None"
  | _ => py_repr v
  end.

(** [v[:n] if len(v) > n else v] *)
Definition py_truncate (n : nat) (v : pyval) : result pyval :=
  l ← py_len v;
  if (n <? (l : nat))%nat then
    match v with
    | VStr s => Ok (VStr (take n s))
    | VList xs => Ok (VList (take n xs))
    | _ => Raise (Exn TypeError (py "unhashable type: 'slice'"))
        (* a dictionary cannot be sliced *)
    end
  else Ok v.

(** [re.search(r'\[.*?\]', text, re.DOTALL)]: the match starts at the first
    opening bracket that has a closing bracket after it and, the pattern being
    lazy, ends at the first closing bracket that follows. *)
Fixpoint until_close (s : pystr) : option pystr :=
  match s with
  | [] => None
  | c :: r =>
      if (c =? 93)%N then Some [c]
      else m ← until_close r; Some (c :: m)
  end.

Fixpoint re_search_array (s : pystr) : option pystr :=
  match s with
  | [] => None
  | c :: r =>
      if (c =? 91)%N then
        match until_close r with
        | Some m => Some (c :: m)
        | None => re_search_array r
        end
      else re_search_array r
  end.

(** Monadic map over a list, stopping at the first exception. *)
Fixpoint result_mapM {A B} (f : A -> result B) (l : list A) : result (list B) :=
  match l with
  | [] => Ok []
  | x :: r => y ← f x; ys ← result_mapM f r; Ok (y :: ys)
  end.

(** The evaluation dictionary [{'score': s, 'keep': k, 'reason': r}]. *)
Definition mk_evaluation (s k : pyval) (r : pystr) : pydict :=
  [(py "score", s); (py "keep", k); (py "reason", VStr r)].

Module AIQualityEvaluator.
Section Evaluator.
Context `{PythonRuntime}.

(** One item of the prompt: [f"[{idx+1}] Q: {question[:100]}\nA: {answer[:300]}"]. *)
Definition prompt_item (idx : nat) (qa : pyval * pyval) : result pystr :=
  truncated_question ← py_truncate 100 qa.1;
  truncated_answer ← py_truncate 300 qa.2;
  Ok (py "[" ++ str_of_nat (idx + 1) ++ py "] Q: " ++ py_format truncated_question ++
      newline ++ py "A: " ++ py_format truncated_answer).

(** [create_evaluation_prompt] (filter.py, lines 33-64). *)
Definition create_evaluation_prompt (entries_data : list (pyval * pyval))
  : result pystr :=
  batch_items ← result_mapM (fun iq => prompt_item iq.1 iq.2)
                  (imap (fun i qa => (i, qa)) entries_data);
  Ok (py "请评估以下" ++ str_of_nat (length batch_items) ++
      py "个酒店服务问答对的质量。
评分标准：1-10分，7分及以上为高质量数据。

评估要点：
1. 问题是否清晰具体且与酒店服务相关？
2. 回答是否专业准确且有实用价值？
3. 问答是否匹配且逻辑合理？

" ++ join newline batch_items ++ py "

请严格按照JSON数组格式回复：
[{" ++ dquote ++ py "score" ++ dquote ++ py ":8," ++ dquote ++ py "keep" ++ dquote ++
      py ":true},{" ++ dquote ++ py "score" ++ dquote ++ py ":6," ++ dquote ++
      py "keep" ++ dquote ++ py ":false}...]").

(** The reason template [f'AI评估(分数:{score})']. *)
Definition ai_reason (score : pyval) : pystr :=
  py "AI评估(分数:" ++ py_format score ++ py ")".

(** One iteration of the standardisation loop of [parse_ai_response]. *)
Definition standardize_item (evaluations : pyval) (i : nat) : result pydict :=
  n ← py_len evaluations;
  '(score, keep) ←
    (if (i <? (n : nat))%nat then
       eval_result ← py_index evaluations i;
       score ← py_get eval_result "score" (VInt 7);
       dflt ← py_ge_int score 7;
       keep ← py_get eval_result "keep" (VBool dflt);
       Ok (score, keep)
     else Ok (VInt 7, VBool true));
  Ok (mk_evaluation score keep (ai_reason score)).

(** The body of the [try] block of [parse_ai_response]. *)
Definition parse_body (response_text : pystr) (entry_count : nat)
  : result (list pydict) :=
  evaluations ←
    match re_search_array response_text with
    | Some matched => json_loads matched
    | None =>
        Ok (VList (replicate entry_count
                     (VDict [(py "score", VInt 7); (py "keep", VBool true)])))
    end;
  result_mapM (standardize_item evaluations) (seq 0 entry_count).

Definition parse_failure (e : exn) : pydict :=
  mk_evaluation (VInt 7) (VBool true) (py "解析失败: " ++ exn_str e).

(** [parse_ai_response] (filter.py, lines 66-110): any exception of the body
    becomes the uniform fallback. *)
Definition parse_ai_response (response_text : pystr) (entry_count : nat)
  : list pydict :=
  match parse_body response_text entry_count with
  | Ok standardized_results => standardized_results
  | Raise e => replicate entry_count (parse_failure e)
  end.

(** The extraction step of [evaluate_batch] for one entry: [None] when the
    entry is skipped ([continue], either branch). *)
Definition extract_texts (entry : pyval) : option (pyval * pyval) :=
  match
    (contents ← py_get entry "contents" (VList []);
     n ← py_len contents;
     if ((n : nat) <? 2)%nat then Ok None
     else
       question ← DataQualityRules.turn_text contents 0;
       answer ← DataQualityRules.turn_text contents 1;
       Ok (Some (question, answer)))
  with
  | Ok r => r
  | Raise _ => None
  end.

(** [valid_entries] paired with [entries_data]. *)
Definition valid_entries (entries : list (nat * pyval))
  : list ((nat * pyval) * (pyval * pyval)) :=
  omap (fun ie => qa ← extract_texts ie.2; Some (ie, qa)) entries.

Definition batch_reason (batch_id : nat) (score : pyval) : pystr :=
  py "AI评估-批次" ++ str_of_nat batch_id ++ py "(分数:" ++ py_format score ++ py ")".

Definition batch_failure (batch_id : nat) (e : exn) : pydict :=
  mk_evaluation (VInt 6) (VBool true)
    (py "评估失败-批次" ++ str_of_nat batch_id ++ py ": " ++ exn_str e).

Definition format_error : pydict :=
  mk_evaluation (VInt 5) (VBool true) (py "数据格式错误").

(** The result-building loop inside the [try] block of [evaluate_batch]. *)
Definition build_results (batch_id : nat) (valid : list (nat * pyval))
    (evaluations : list pydict) : result (list (nat * pydict)) :=
  result_mapM
    (fun ie : nat * (nat * pyval) =>
       match evaluations !! ie.1 with
       | None => Raise (Exn IndexError (py "list index out of range"))
       | Some evaluation =>
           match dict_lookup evaluation (py "score") with
           | None => Raise (Exn KeyError (py "'score'"))
           | Some s =>
               Ok (ie.2.1, dict_set evaluation (py "reason")
                             (VStr (batch_reason batch_id s)))
           end
       end)
    (imap (fun i e => (i, e)) valid).

(** [evaluate_batch] (filter.py, lines 112-172): the results, and the prompts
    sent to the service. *)
Definition evaluate_batch (ai_manager : content_generator)
    (entries : list (nat * pyval)) (batch_id : nat)
  : list (nat * pydict) * list pystr :=
  if bool_decide (entries = []) then ([], [])
  else
    let valid := valid_entries entries in
    let entries_data := valid.*2 in
    if bool_decide (entries_data = []) then
      (map (fun ie => (ie.1, format_error)) entries, [])
    else
      let failed e := map (fun ie => (ie.1, batch_failure batch_id e)) valid.*1 in
      match create_evaluation_prompt entries_data with
      | Raise e => (failed e, [])
      | Ok prompt =>
          match ai_manager prompt with
          | Raise e => (failed e, [prompt])
          | Ok response_text =>
              let evaluations := parse_ai_response response_text (length valid) in
              match build_results batch_id valid.*1 evaluations with
              | Ok results => (results, [prompt])
              | Raise e => (failed e, [prompt])
              end
          end
      end.

End Evaluator.
End AIQualityEvaluator.

(** The report of [generate_report]: its ['summary'], ['configuration'] (the
    processing configuration and the model information of the service
    client), ['stage_statistics'] and ['quality_analysis'] entries. *)
Record ReportSummary := mkReportSummary {
  summary_total_entries : nat;
  high_quality_entries : nat;
  low_quality_entries : nat;
  retention_rate_percent : float;
  processing_time_seconds : float;
  processing_speed_per_second : float
}.

Record StageStatistics := mkStageStatistics {
  rule_filter_failed : nat;
  ai_evaluation_failed : nat;
  rule_filter_passed : Z;
  ai_evaluation_passed : nat
}.

Record QualityReport := mkQualityReport {
  summary : ReportSummary;
  configuration : ProcessingConfig * pyval;
  stage_statistics : StageStatistics;
  quality_analysis : option QualitySummary
}.

(** ** The files a run writes *)

(** The built-in [open], [json.dump] and the methods of a text file belong
    to the interpreter and the operating system: the model is parametric in
    them, over the state [disk] of the file system.  An operation returns
    the state it leaves and its value or the exception it raises (an OSError
    of the system, the UnicodeEncodeError of the file's codec on a lone
    surrogate, an error of the encoder); [path] names the file the
    operation writes to. *)
Class TextFiles (disk : Type) := {
  (** [open(path, 'w', encoding='utf-8')] *)
  open_write : disk -> pystr -> disk * result unit;
  (** [json.dump(obj, file, ensure_ascii=False)] *)
  json_dump : disk -> pystr -> pyval -> disk * result unit;
  (** [json.dump(report, file, ensure_ascii=False, indent=2)] *)
  json_dump_report : disk -> pystr -> QualityReport -> disk * result unit;
  (** [file.write(text)] *)
  file_write : disk -> pystr -> pystr -> disk * result unit;
  (** the closing of the file when its [with] block is left *)
  file_close : disk -> pystr -> disk * result unit
}.

(** [with open(path, 'w', encoding='utf-8') as file: body].  The file is
    closed when the block is left, also when it is left by an exception; an
    exception of the closing replaces the one of the block. *)
Definition with_open {disk : Type} `{!TextFiles disk} {A : Type}
    (fs : disk) (path : pystr) (body : disk -> disk * result A)
  : disk * result A :=
  match open_write fs path with
  | (fs, Raise e) => (fs, Raise e)
  | (fs, Ok _) =>
      let '(fs, r) := body fs in
      match file_close fs path with
      | (fs, Raise e) => (fs, Raise e)
      | (fs, Ok _) => (fs, r)
      end
  end.

Module HotelDataQualityFilter.
Section Filter.
Context `{PythonRuntime} {disk : Type} `{!TextFiles disk}.

(** A batch: rule-passed entries with their original indices. *)
Definition batch := list (nat * pyval).

(** What [self.ai_evaluator.evaluate_batch] does when a future runs it:
    the value or exception [future.result()] gives, and the prompts sent. *)
Definition batch_evaluator := batch -> nat -> result (list (nat * pydict)) * list pystr.

Definition default_evaluator (ai_manager : content_generator) : batch_evaluator :=
  fun entries batch_id =>
    let r := AIQualityEvaluator.evaluate_batch ai_manager entries batch_id in
    (Ok r.1, r.2).

(** The loop of [load_data] over the lines of the input file. *)
Fixpoint load_loop (sample_size : option Z) (lines : list pystr)
    (data_entries : list pyval) : result (list pyval) :=
  match lines with
  | [] => Ok data_entries
  | line :: rest =>
      match json_loads (strip line) with
      | Ok entry =>
          let data_entries := data_entries ++ [entry] in
          let stop :=
            match sample_size with
            | Some k => negb (k =? 0) && (k <=? Z.of_nat (length data_entries))
            | None => false
            end in
          if stop then Ok data_entries else load_loop sample_size rest data_entries
      | Raise e =>
          match exn_cls e with
          | JSONDecodeError => load_loop sample_size rest data_entries
          | _ => Raise e
          end
      end
  end.

(** [load_data] (filter.py, lines 209-239), on the lines of the file. *)
Definition load_data (lines : list pystr) (sample_size : option Z)
  : result (list pyval) :=
  load_loop sample_size lines [].

(** The loop of [apply_rule_filtering], from position [index] on. *)
Fixpoint rule_loop (index : nat) (data_entries : list pyval)
  : list (nat * pyval) * list FilterResult :=
  match data_entries with
  | [] => ([], [])
  | entry :: rest =>
      let '(is_valid, reason, stats) := DataQualityRules.validate_entry entry in
      let result :=
        mkFilterResult index (VBool is_valid) (VInt (if negb is_valid then 0 else 5))
          (VStr reason) (py "rule_filter") stats in
      let '(passed_entries, all_results) := rule_loop (S index) rest in
      ((if is_valid then [(index, entry)] else []) ++ passed_entries,
       result :: all_results)
  end.

(** True division [a / b * 100] of two lengths; the quotient is exact here,
    the code's float is only printed in a log line. *)
Definition percent (a b : nat) : result Q :=
  if (b =? 0)%nat then Raise (Exn ZeroDivisionError (py "division by zero"))
  else Ok (Qmult (Qmake (Z.of_nat a) (Pos.of_nat b)) (Qmake 100 1)).

(** [apply_rule_filtering] (filter.py, lines 241-280). *)
Definition apply_rule_filtering (data_entries : list pyval)
  : result (list (nat * pyval) * list FilterResult) :=
  let '(passed_entries, all_results) := rule_loop 0 data_entries in
  pass_rate ← percent (length passed_entries) (length data_entries);
  Ok (passed_entries, all_results).

(** [range(0, stop, step)] for a positive step. *)
Definition range_step (stop step : nat) : list nat :=
  map (fun k => k * step)%nat (seq 0 ((stop + step - 1) / step)).

(** [[passed_entries[i:i + batch_size] for i in range(0, len(passed_entries), batch_size)]] *)
Definition make_batches (passed_entries : batch) (batch_size : Z)
  : result (list batch) :=
  if batch_size =? 0 then
    Raise (Exn ValueError (py "range() arg 3 must not be zero"))
  else if batch_size <? 0 then Ok []
  else
    let bs := Z.to_nat batch_size in
    Ok (map (fun i => take bs (drop i passed_entries))
          (range_step (length passed_entries) bs)).

(** [ThreadPoolExecutor(max_workers=...)] refuses a non-positive count. *)
Definition thread_pool (max_workers : Z) : result unit :=
  if max_workers <=? 0 then
    Raise (Exn ValueError (py "max_workers must be greater than 0"))
  else Ok ().

(** [future_to_batch]: the submitted batches with their identifiers. *)
Definition submit_all (batches : list batch) : list (nat * batch) :=
  imap (fun batch_id b => (batch_id, b)) batches.

Definition future_failure (batch_id : nat) : pydict :=
  mk_evaluation (VInt 6) (VBool true)
    (py "批次" ++ str_of_nat batch_id ++ py "处理失败").

(** [for original_index, evaluation in batch_results:
       all_evaluations[original_index] = evaluation] *)
Definition store_all (all_evaluations : gmap nat pydict)
    (batch_results : list (nat * pydict)) : gmap nat pydict :=
  foldl (fun m ie => <[ie.1 := ie.2]> m) all_evaluations batch_results.

(** The body of the collecting loop for one completed future. *)
Definition collect_one (evaluator : batch_evaluator)
    (st : gmap nat pydict * list pystr) (fut : nat * batch)
  : gmap nat pydict * list pystr :=
  let '(batch_id, b) := fut in
  let '(outcome, sent) := evaluator b batch_id in
  match outcome with
  | Ok batch_results => (store_all st.1 batch_results, st.2 ++ sent)
  | Raise _ =>
      (store_all st.1 (map (fun ie => (ie.1, future_failure batch_id)) b),
       st.2 ++ sent)
  end.

(** [apply_ai_evaluation] (filter.py, lines 282-340).  [as_completed] yields
    the futures in the order they finish, which is some rearrangement of the
    submitted ones.  The result is the evaluation dictionary and the prompts
    sent to the service (listed by batch completion).  The progress counter
    and the log lines are observability only and are left out. *)
Definition apply_ai_evaluation (evaluator : batch_evaluator)
    (as_completed : list (nat * batch) -> list (nat * batch))
    (passed_entries : batch) (config : ProcessingConfig)
  : result (gmap nat pydict * list pystr) :=
  if bool_decide (passed_entries = []) then Ok (∅, [])
  else
    batches ← make_batches passed_entries (batch_size config);
    _ ← thread_pool (max_workers config);
    Ok (foldl (collect_one evaluator) (∅, [])
          (as_completed (submit_all batches))).

Definition not_evaluated : pydict :=
  mk_evaluation (VInt 5) (VBool true) (py "未进行AI评估").

(** [keep and score >= min_score]: the left operand when it is false,
    else the comparison. *)
Definition keep_and_score (ai_evaluation : pydict) (min_score : Z) : result pyval :=
  let keep := dict_get ai_evaluation (py "keep") (VBool true) in
  if py_truthy keep then
    b ← py_ge_int (dict_get ai_evaluation (py "score") (VInt 5)) min_score;
    Ok (VBool b)
  else Ok keep.

(** The body of the loop of [merge_results] for the record at [index]:
    whether its result joins the high-quality list, and the result. *)
Definition merge_one (index : nat) (rule_result : FilterResult)
    (ai_evaluations : gmap nat pydict) (config : ProcessingConfig)
  : result (bool * FilterResult) :=
  if negb (py_truthy (is_kept rule_result)) then Ok (false, rule_result)
  else
    let ai_evaluation := default not_evaluated (ai_evaluations !! index) in
    kept ← keep_and_score ai_evaluation (min_score config);
    let final_result :=
      mkFilterResult index kept
        (dict_get ai_evaluation (py "score") (VInt 5))
        (dict_get ai_evaluation (py "reason") (VStr []))
        (py "ai_evaluation") (stats rule_result) in
    Ok (py_truthy (is_kept final_result), final_result).

(** The loop of [merge_results], from position [index] on. *)
Fixpoint merge_loop (index : nat) (data_entries : list pyval)
    (rule_results : list FilterResult) (ai_evaluations : gmap nat pydict)
    (config : ProcessingConfig) (high low : list FilterResult)
  : result (list FilterResult * list FilterResult) :=
  match data_entries with
  | [] => Ok (high, low)
  | entry :: rest =>
      match rule_results !! index with
      | None => Raise (Exn IndexError (py "list index out of range"))
      | Some rule_result =>
          '(is_high, res) ← merge_one index rule_result ai_evaluations config;
          if (is_high : bool) then
            merge_loop (S index) rest rule_results ai_evaluations config
              (high ++ [res]) low
          else
            merge_loop (S index) rest rule_results ai_evaluations config
              high (low ++ [res])
      end
  end.

(** [merge_results] (filter.py, lines 342-389). *)
Definition merge_results (data_entries : list pyval)
    (rule_results : list FilterResult) (ai_evaluations : gmap nat pydict)
    (config : ProcessingConfig)
  : result (list FilterResult * list FilterResult) :=
  merge_loop 0 data_entries rule_results ai_evaluations config [] [].

(** The loop of [save_results] over the high-quality results, inside the
    [with] block: the documents written so far are in the file when a step
    raises. *)
Fixpoint save_loop (fs : disk) (output_file : pystr) (data_entries : list pyval)
    (high_quality_results : list FilterResult) : disk * result (list pyval) :=
  match high_quality_results with
  | [] => (fs, Ok [])
  | result :: rest =>
      match data_entries !! index result with
      | None => (fs, Raise (Exn IndexError (py "list index out of range")))
      | Some entry_data =>
          match json_dump fs output_file entry_data with
          | (fs, Raise e) => (fs, Raise e)
          | (fs, Ok _) =>
              match file_write fs output_file newline with
              | (fs, Raise e) => (fs, Raise e)
              | (fs, Ok _) =>
                  match save_loop fs output_file data_entries rest with
                  | (fs, Raise e) => (fs, Raise e)
                  | (fs, Ok saved) => (fs, Ok (entry_data :: saved))
                  end
              end
          end
      end
  end.

(** [save_results] (filter.py, lines 391-410): the output file is opened for
    writing and gets one line per high-quality result, the document at the
    index of the result.  The value is the list of the documents written
    (the method itself returns nothing). *)
Definition save_results (fs : disk) (data_entries : list pyval)
    (high_quality_results : list FilterResult) (output_file : pystr)
  : disk * result (list pyval) :=
  with_open fs output_file
    (fun fs => save_loop fs output_file data_entries high_quality_results).

(** [generate_report] (filter.py, lines 412-475), up to the report it builds
    (lines 430-467); its last lines, which write the report to the report
    file, are [save_report] below.  [total_processing_time] is the reading
    [time.time() - self.start_time] of the clock and [model_info] what the
    service client reports about itself. *)
Definition generate_report (total_processing_time : float) (model_info : pyval)
    (data_entries : list pyval) (high_quality_results low_quality_results : list FilterResult)
    (config : ProcessingConfig) : result QualityReport :=
  let total_count := length data_entries in
  let high_quality_count := length high_quality_results in
  ratio ← py_truediv high_quality_count total_count;
  let retention_rate := PrimFloat.mul ratio (float_of_nat 100) in
  processing_speed ←
    (if PrimFloat.eqb total_processing_time PrimFloat.zero then
       Raise (Exn ZeroDivisionError (py "float division by zero"))
     else Ok (PrimFloat.div (float_of_nat total_count) total_processing_time));
  let rule_failed_count :=
    length (filter (fun r => stage r = py "rule_filter") low_quality_results) in
  let ai_failed_count :=
    length (filter (fun r => stage r = py "ai_evaluation") low_quality_results) in
  let all_results := high_quality_results ++ low_quality_results in
  quality_summary ← DataQualityRules.get_quality_summary all_results;
  Ok {| summary :=
          mkReportSummary total_count high_quality_count (length low_quality_results)
            retention_rate total_processing_time processing_speed;
        configuration := (config, model_info);
        stage_statistics :=
          mkStageStatistics rule_failed_count ai_failed_count
            (Z.of_nat total_count - Z.of_nat rule_failed_count) high_quality_count;
        quality_analysis := quality_summary |}.

(** The end of [generate_report] (filter.py, lines 469-475): the report is
    written to the report file, named after the output file. *)
Definition save_report (fs : disk) (report : QualityReport) (output_file : pystr)
  : disk * result unit :=
  let report_file := py_replace (py ".jsonl") (py "_quality_report.json") output_file in
  with_open fs report_file (fun fs => json_dump_report fs report_file report).

(** How a run of [filter_data] ends. *)
Inductive run_outcome :=
| Aborted (e : exn)
    (* the exception is logged and re-raised *)
| NoRulePass
    (* 'no data passed rule filtering' is reported and the run returns *)
| Completed (high low : list FilterResult) (saved : list pyval).

(** [filter_data] (filter.py, lines 477-529) on the lines of the input file:
    how the run ends, and the prompts sent to the judgment service.
    [ai_manager] and [model_info] are [generate_content] and
    [get_model_info()] of the client the filter was constructed with,
    [total_processing_time] the reading of the clock in step 6, [fs] the
    file system when the run starts.  Step 7 logs figures of the report and
    raises nothing; the file system the run leaves is not part of the
    outcome. *)
Definition filter_data (ai_manager : content_generator) (model_info : pyval)
    (as_completed : list (nat * batch) -> list (nat * batch))
    (total_processing_time : float) (fs : disk)
    (lines : list pystr) (output_file : pystr) (config : ProcessingConfig)
  : run_outcome * list pystr :=
  match load_data lines (sample_size config) with
  | Raise e => (Aborted e, [])
  | Ok data_entries =>
      match apply_rule_filtering data_entries with
      | Raise e => (Aborted e, [])
      | Ok (passed_entries, rule_results) =>
          if bool_decide (passed_entries = []) then (NoRulePass, [])
          else
            match apply_ai_evaluation (default_evaluator ai_manager) as_completed
                    passed_entries config with
            | Raise e => (Aborted e, [])
            | Ok (ai_evaluations, sent) =>
                match merge_results data_entries rule_results ai_evaluations config with
                | Raise e => (Aborted e, sent)
                | Ok (high, low) =>
                    match save_results fs data_entries high output_file with
                    | (_, Raise e) => (Aborted e, sent)
                    | (fs, Ok saved) =>
                        match generate_report total_processing_time model_info
                                data_entries high low config with
                        | Raise e => (Aborted e, sent)
                        | Ok report =>
                            match save_report fs report output_file with
                            | (_, Raise e) => (Aborted e, sent)
                            | (_, Ok _) => (Completed high low saved, sent)
                            end
                        end
                    end
                end
            end
      end
  end.

End Filter.
End HotelDataQualityFilter.

(** ** utils/vertexai_manager.py *)

Module VertexAIManager.

(** [VertexAIManager.generate_content] (vertexai_manager.py, lines 91-105).
    [model_text prompt] stands for [self.model.generate_content(prompt).text]
    of the service's client library: the text of the response, or the
    exception raised by the call or by reading the text. *)
Definition generate_content (model_text : pystr -> result pystr) : content_generator :=
  fun prompt =>
    match model_text prompt with
    | Ok text => Ok (strip text)
    | Raise e => Raise (Exn RuntimeError (py "内容生成失败: " ++ exn_str e))
    end.

End VertexAIManager.

(** ** scripts/filter_data.py *)

(** The functions of [os] and [os.path] the script calls, over the state
    [disk] of the file system: [os.makedirs(path, exist_ok=True)] returns the
    new state or raises. *)
Class OperatingSystem (disk : Type) := {
  path_exists : disk -> pystr -> bool;
  path_dirname : pystr -> pystr;
  makedirs : disk -> pystr -> result disk
}.

(** The namespace [argparse] returns: [--credentials], [--project-id] and
    [--sample-size] are [None] when absent, the numbers are [int]s. *)
Record Namespace := mkNamespace {
  arg_input : pystr;
  arg_output : pystr;
  arg_credentials : option pystr;
  arg_project_id : option pystr;
  arg_model_name : pystr;
  arg_min_score : Z;
  arg_batch_size : Z;
  arg_max_workers : Z;
  arg_sample_size : option Z;
  arg_log_level : pystr
}.

Module FilterDataScript.
Section Script.
Context `{PythonRuntime} {disk : Type} `{!OperatingSystem disk} `{!TextFiles disk}.

(** [validate_arguments] (scripts/filter_data.py, lines 99-131): the error
    messages, and the file system after the output directory was created. *)
Definition validate_arguments (fs : disk) (args : Namespace) : list pystr * disk :=
  let errors1 :=
    if negb (path_exists fs (arg_input args))
    then [py "输入文件不存在: " ++ arg_input args] else [] in
  let output_dir := path_dirname (arg_output args) in
  let '(errors2, fs) :=
    if negb (bool_decide (output_dir = [])) && negb (path_exists fs output_dir) then
      match makedirs fs output_dir with
      | Ok fs' => ([], fs')
      | Raise e => ([py "无法创建输出目录: " ++ exn_str e], fs)
      end
    else ([], fs) in
  let errors3 :=
    match arg_credentials args with
    | Some credentials =>
        if negb (bool_decide (credentials = [])) && negb (path_exists fs credentials)
        then [py "凭证文件不存在: " ++ credentials] else []
    | None => []
    end in
  let errors4 :=
    if negb ((1 <=? arg_min_score args) && (arg_min_score args <=? 10))
    then [py "最低分数必须在1-10之间"] else [] in
  let errors5 :=
    if arg_batch_size args <=? 0 then [py "批处理大小必须大于0"] else [] in
  let errors6 :=
    if arg_max_workers args <=? 0 then [py "最大并发数必须大于0"] else [] in
  let errors7 :=
    match arg_sample_size args with
    | Some sample_size => if sample_size <=? 0 then [py "样本大小必须大于0"] else []
    | None => []
    end in
  (errors1 ++ errors2 ++ errors3 ++ errors4 ++ errors5 ++ errors6 ++ errors7, fs).

(** The configuration [main] builds from the arguments. *)
Definition processing_config (args : Namespace) : ProcessingConfig :=
  mkProcessingConfig (arg_min_score args) (arg_batch_size args)
    (arg_max_workers args) (arg_sample_size args).

(** How [main] ends: [sys.exit(1)] after printing the validation errors, or
    the run of the filter. *)
Inductive exit :=
| ArgumentErrors (errors : list pystr)
| Ran (outcome : HotelDataQualityFilter.run_outcome) (sent : list pystr).

(** [main] (scripts/filter_data.py, lines 134-179), from the parsed arguments
    on; [lines] are the lines of the input file, [ai_manager] and
    [model_info] belong to the client the filter was constructed with and
    [total_processing_time] is the reading of the clock for the report.  The
    filter runs on the file system the validation leaves. *)
Definition main (fs : disk) (args : Namespace) (ai_manager : content_generator)
    (model_info : pyval)
    (as_completed : list (nat * HotelDataQualityFilter.batch) ->
                    list (nat * HotelDataQualityFilter.batch))
    (total_processing_time : float) (lines : list pystr) : exit :=
  let '(errors, fs) := validate_arguments fs args in
  if negb (bool_decide (errors = [])) then ArgumentErrors errors
  else
    let config := processing_config args in
    let '(outcome, sent) :=
      HotelDataQualityFilter.filter_data ai_manager model_info as_completed
        total_processing_time fs lines (arg_output args) config in
    Ran outcome sent.

End Script.
End FilterDataScript.

(** ** A reference runtime

    A decoder for the integer fragment of JSON (no fractions, exponents,
    string escapes or non-finite literals), used to instantiate
    [PythonRuntime] on concrete inputs.  On its fragment it decodes as
    [json.loads] does; its error texts omit the position. *)
Module Reference.

Definition json_error (msg : string) : exn := Exn JSONDecodeError (py msg).
Definition outside_fragment : exn :=
  Exn OtherError (py "outside the integer fragment of JSON").

Definition is_ws (c : N) : bool :=
  ((c =? 32) || (c =? 9) || (c =? 10) || (c =? 13))%N.

Fixpoint skip_ws (s : pystr) : pystr :=
  match s with
  | [] => []
  | c :: r => if is_ws c then skip_ws r else s
  end.

Definition is_digit (c : N) : bool := ((48 <=? c) && (c <=? 57))%N.

Fixpoint take_digits (s : pystr) : pystr * pystr :=
  match s with
  | [] => ([], [])
  | c :: r =>
      if is_digit c then let '(ds, rest) := take_digits r in (c :: ds, rest)
      else ([], s)
  end.

Definition digits_value (ds : pystr) : Z :=
  fold_left (fun a d => a * 10 + (Z.of_N d - 48)) ds 0.

(** Whether a fraction ([.] and a digit) or an exponent ([e] or [E], an
    optional sign, a digit) follows an integer part. *)
Definition is_fraction_or_exponent (rest : pystr) : bool :=
  match rest with
  | c :: d :: r =>
      if (c =? 46)%N then is_digit d
      else if ((c =? 101) || (c =? 69))%N then
        is_digit d ||
        (((d =? 43) || (d =? 45))%N &&
         match r with
         | x :: _ => is_digit x
         | [] => false
         end)
      else false
  | _ => false
  end.

(** An optional minus sign and a decimal numeral without leading zeros; a
    number with a fraction or an exponent is a float, outside the fragment. *)
Definition decode_number (s : pystr) : result (pyval * pystr) :=
  let '(neg, s1) := match s with
                    | c :: r => if (c =? 45)%N then (true, r) else (false, s)
                    | [] => (false, s)
                    end in
  let finish (z : Z) (rest : pystr) : result (pyval * pystr) :=
    if is_fraction_or_exponent rest then Raise outside_fragment
    else Ok (VInt (if neg then - z else z), rest) in
  match s1 with
  | c :: r =>
      if (c =? 48)%N then finish 0 r
      else if is_digit c then
        let '(ds, rest) := take_digits s1 in finish (digits_value ds) rest
      else if neg && starts_with (py "Infinity") s1 then Raise outside_fragment
      else Raise (json_error "Expecting value")
  | [] => Raise (json_error "Expecting value")
  end.

(** The text of a string, after its opening quote. *)
Fixpoint decode_string (s : pystr) : result (pystr * pystr) :=
  match s with
  | [] => Raise (json_error "Unterminated string starting at")
  | c :: r =>
      if (c =? 34)%N then Ok ([], r)
      else if (c =? 92)%N then Raise outside_fragment
      else if (c <? 32)%N then Raise (json_error "Invalid control character at")
      else '(t, rest) ← decode_string r; Ok (c :: t, rest)
  end.

Definition expect_literal (lit : string) (v : pyval) (s : pystr)
  : result (pyval * pystr) :=
  if starts_with (py lit) s then Ok (v, drop (length (py lit)) s)
  else Raise (json_error "Expecting value").

Fixpoint decode_value (fuel : nat) (s : pystr) {struct fuel}
  : result (pyval * pystr) :=
  match fuel with
  | O => Raise outside_fragment
  | S fuel' =>
      match s with
      | [] => Raise (json_error "Expecting value")
      | c :: r =>
          if (c =? 34)%N then
            '(t, rest) ← decode_string r; Ok (VStr t, rest)
          else if (c =? 91)%N then
            match skip_ws r with
            | c' :: r' =>
                if (c' =? 93)%N then Ok (VList [], r')
                else decode_elements fuel' (c' :: r') []
            | [] => Raise (json_error "Expecting value")
            end
          else if (c =? 123)%N then
            match skip_ws r with
            | c' :: r' =>
                if (c' =? 125)%N then Ok (VDict [], r')
                else decode_members fuel' (c' :: r') []
            | [] =>
                Raise (json_error
                         "Expecting property name enclosed in double quotes")
            end
          else if (c =? 110)%N then expect_literal "null" VNone s
          else if (c =? 116)%N then expect_literal "true" (VBool true) s
          else if (c =? 102)%N then expect_literal "false" (VBool false) s
          else if (c =? 78)%N || (c =? 73)%N then
            if starts_with (py "NaN") s || starts_with (py "Infinity") s
            then Raise outside_fragment
            else Raise (json_error "Expecting value")
          else decode_number s
      end
  end
with decode_elements (fuel : nat) (s : pystr) (acc : list pyval) {struct fuel}
  : result (pyval * pystr) :=
  match fuel with
  | O => Raise outside_fragment
  | S fuel' =>
      '(v, rest) ← decode_value fuel' s;
      match skip_ws rest with
      | c :: r =>
          if (c =? 44)%N then decode_elements fuel' (skip_ws r) (acc ++ [v])
          else if (c =? 93)%N then Ok (VList (acc ++ [v]), r)
          else Raise (json_error "Expecting ',' delimiter")
      | [] => Raise (json_error "Expecting ',' delimiter")
      end
  end
with decode_members (fuel : nat) (s : pystr) (acc : pydict) {struct fuel}
  : result (pyval * pystr) :=
  match fuel with
  | O => Raise outside_fragment
  | S fuel' =>
      match s with
      | c :: r =>
          if (c =? 34)%N then
            '(k, rest) ← decode_string r;
            match skip_ws rest with
            | c1 :: r1 =>
                if (c1 =? 58)%N then
                  '(v, rest2) ← decode_value fuel' (skip_ws r1);
                  match skip_ws rest2 with
                  | c2 :: r2 =>
                      if (c2 =? 44)%N then
                        decode_members fuel' (skip_ws r2) (dict_set acc k v)
                      else if (c2 =? 125)%N then Ok (VDict (dict_set acc k v), r2)
                      else Raise (json_error "Expecting ',' delimiter")
                  | [] => Raise (json_error "Expecting ',' delimiter")
                  end
                else Raise (json_error "Expecting ':' delimiter")
            | [] => Raise (json_error "Expecting ':' delimiter")
            end
          else Raise (json_error
                        "Expecting property name enclosed in double quotes")
      | [] => Raise (json_error
                       "Expecting property name enclosed in double quotes")
      end
  end.

Definition loads (s : pystr) : result pyval :=
  '(v, rest) ← decode_value (2 * length s + 2) (skip_ws s);
  match skip_ws rest with
  | [] => Ok v
  | _ :: _ => Raise (json_error "Extra data")
  end.

(** A placeholder rendering of floats and containers; the sample data
    never print one. *)
Definition repr (v : pyval) : pystr := py "<" ++ type_name v ++ py ">".

Definition runtime : PythonRuntime := {| json_loads := loads; py_repr := repr |}.

(** A record document with the two turns [q] and [a]. *)
Definition turn (text : pyval) : pyval :=
  VDict [(py "parts", VList [VDict [(py "text", text)]])].

Definition record (q a : string) : pyval :=
  VDict [(py "contents", VList [turn (VStr (py q)); turn (VStr (py a))])].

End Reference.

(** ** Vocabulary of the properties *)

Import DataQualityRules AIQualityEvaluator HotelDataQualityFilter.

(** The question and answer texts of a record, when it has two readable
    turns whose texts are strings. *)
Definition record_texts (entry : pyval) : option (pystr * pystr) :=
  match extract_texts entry with
  | Some (VStr q, VStr a) => Some (q, a)
  | _ => None
  end.

(** The acceptance policy as the specification words it: a domain keyword
    occurs in the concatenation of question and answer ... *)
Definition domain_relevant (q a : pystr) : bool :=
  existsb (fun kw => str_contains kw (q ++ a)) HOTEL_KEYWORDS.

Definition has_marker (q : pystr) : bool :=
  str_contains (py "？") q || str_contains (py "?") q.

(** ... and the number of failed checks among: question length in [8,120],
    answer length in [30,1200], question marker present, trimmed answer of at
    least 20 characters. *)
Definition failed_checks (q a : pystr) : nat :=
  ((if (8 <=? length q) && (length q <=? 120) then 0 else 1) +
   (if (30 <=? length a) && (length a <=? 1200) then 0 else 1) +
   (if has_marker q then 0 else 1) +
   (if 20 <=? length (strip a) then 0 else 1))%nat.

(** The verdict of the rule stage. *)
Definition accepted (entry : pyval) : bool := (validate_entry entry).1.1.

(** The rule-stage result of the record [entry] at position [i]. *)
Definition rule_result_of (i : nat) (entry : pyval) : FilterResult :=
  mkFilterResult i (VBool (accepted entry))
    (VInt (if negb (accepted entry) then 0 else 5))
    (VStr (validate_entry entry).1.2) (py "rule_filter")
    (validate_entry entry).2.

(** The score of an evaluation is a number ([int], [bool] or [float]). *)
Definition numeric_score (ev : pydict) : Prop :=
  match dict_get ev (py "score") (VInt 5) with
  | VInt _ | VBool _ | VFloat _ => True
  | _ => False
  end.

(** The per-record decisions taken by [merge_results] from position [k] on,
    in record order, and the two lists they produce. *)
Definition merge_decisions (k : nat) (rule_results : list FilterResult)
    (ai_evaluations : gmap nat pydict) (config : ProcessingConfig)
    (decisions : list (bool * FilterResult)) : Prop :=
  forall j d, decisions !! j = Some d ->
    exists r, rule_results !! (k + j)%nat = Some r /\
              merge_one (k + j) r ai_evaluations config = Ok d.

Definition high_of (decisions : list (bool * FilterResult)) : list FilterResult :=
  (filter (fun d => d.1 = true) decisions).*2.
Definition low_of (decisions : list (bool * FilterResult)) : list FilterResult :=
  (filter (fun d => d.1 = false) decisions).*2.

(** What a completed future writes into the evaluation dictionary. *)
Definition writes (evaluator : batch_evaluator) (fut : nat * batch)
  : list (nat * pydict) :=
  match (evaluator fut.2 fut.1).1 with
  | Ok batch_results => batch_results
  | Raise _ => map (fun ie => (ie.1, future_failure fut.1)) fut.2
  end.

(** The diagnostics of a question and an answer, in the order the checks
    run: the four checks on lengths and the question marker, then relevance. *)
Definition diagnostics (q a : pystr) : list pystr :=
  length_issues (length q) (length a) (has_marker q) a ++
  (if domain_relevant q a then [] else [py "与酒店服务不相关"]).

(** The documents of the lines that decode, in file order. *)
Definition decoded_lines `{PythonRuntime} (lines : list pystr) : list pyval :=
  omap (fun line => match json_loads (strip line) with
                    | Ok entry => Some entry
                    | Raise _ => None
                    end) lines.

(** The part of the decoded documents a sample size lets through. *)
Definition sample_of (sample_size : option Z) (entries : list pyval) : list pyval :=
  match sample_size with
  | None => entries
  | Some k => if (k =? 0)%Z then entries
              else if (k <? 0)%Z then take 1 entries
              else take (Z.to_nat k) entries
  end.

(** [int], [bool] and [float] values. *)
Definition is_number (v : pyval) : bool :=
  match v with
  | VInt _ | VBool _ | VFloat _ => true
  | _ => false
  end.

(** An item of the decoded array the parser can score: an object whose
    score, 7 when absent, is a number. *)
Definition scorable (v : pyval) : bool :=
  match v with
  | VDict d => is_number (dict_get d (py "score") (VInt 7))
  | _ => false
  end.

(** The keywords found in the records of a list of results, with
    repetitions, and the number of occurrences of one of them. *)
Definition found_keywords (results : list FilterResult) : list pystr :=
  concat (map (fun r => hotel_keywords_found (stats r)) results).

Definition occurrences (kw : pystr) (l : list pystr) : nat :=
  length (filter (fun x => x = kw) l).

(** The count a dictionary of counts stores for a key, 0 when absent. *)
Fixpoint count_get (d : list (pystr * nat)) (k : pystr) : nat :=
  match d with
  | [] => 0%nat
  | (k', n) :: r => if pystr_eqb k' k then n else count_get r k
  end.

(** Items ordered by non-increasing count. *)
Definition by_count {K} (x y : K * nat) : Prop := (y.2 <= x.2)%nat.

(** The keys of a dictionary are pairwise different. *)
Definition distinct_keys (keys : list pyval) : Prop :=
  forall i j ki kj, (i < j)%nat -> keys !! i = Some ki -> keys !! j = Some kj ->
    py_key_eqb ki kj = false.

(** What the merge decides for one record: a rejected record keeps its
    rule-stage result, an accepted one gets a judgment-stage result whose
    score is the one of some evaluation or the default. *)
Definition decided (evals : gmap nat pydict) (entry : pyval)
    (d : bool * FilterResult) : Prop :=
  if accepted entry then
    stage d.2 = py "ai_evaluation" /\ d.1 = py_truthy (is_kept d.2) /\
    exists j, score d.2 =
                dict_get (default not_evaluated (evals !! j)) (py "score") (VInt 5)
  else
    d.1 = false /\ stage d.2 = py "rule_filter" /\ is_kept d.2 = VBool false /\
    score d.2 = VInt 0.

(** How a run ends once its results are merged (steps 5 and 6 of
    [filter_data]): by the exception of writing the output file, by
    ZeroDivisionError at a clock reading of zero, by the exception of writing
    the report file, or by completing with the documents written. *)
Inductive ends_after_merge {disk : Type} `{!TextFiles disk} (fs : disk)
    (total_processing_time : float) (model_info : pyval) (data_entries : list pyval)
    (high low : list FilterResult) (config : ProcessingConfig) (output_file : pystr)
  : run_outcome -> Prop :=
| output_file_fails fs1 e :
    save_results fs data_entries high output_file = (fs1, Raise e) ->
    ends_after_merge fs total_processing_time model_info data_entries high low
      config output_file (Aborted e)
| clock_reads_zero fs1 saved :
    save_results fs data_entries high output_file = (fs1, Ok saved) ->
    PrimFloat.eqb total_processing_time PrimFloat.zero = true ->
    ends_after_merge fs total_processing_time model_info data_entries high low
      config output_file (Aborted (Exn ZeroDivisionError (py "float division by zero")))
| report_file_fails fs1 saved report fs2 e :
    save_results fs data_entries high output_file = (fs1, Ok saved) ->
    generate_report total_processing_time model_info data_entries high low config =
      Ok report ->
    save_report fs1 report output_file = (fs2, Raise e) ->
    ends_after_merge fs total_processing_time model_info data_entries high low
      config output_file (Aborted e)
| run_completes fs1 saved report fs2 :
    save_results fs data_entries high output_file = (fs1, Ok saved) ->
    generate_report total_processing_time model_info data_entries high low config =
      Ok report ->
    save_report fs1 report output_file = (fs2, Ok ()) ->
    ends_after_merge fs total_processing_time model_info data_entries high low
      config output_file (Completed high low saved).

(** ** Sample data *)

(** The record of the repository's first test. *)
Definition breakfast_record : pyval :=
  Reference.record "酒店的早餐时间是什么时候？"
    "我们酒店的早餐供应时间是每天早上6:30到10:00，周末延长到10:30。早餐在一楼餐厅提供，包含中西式各种选择。".

Definition weather_record : pyval :=
  Reference.record "今天天气怎么样？" "今天天气晴朗，温度适宜，是个出门的好日子。".

Definition short_record : pyval := Reference.record "好？" "好的".

Definition towel_record : pyval :=
  Reference.record "请问可以多给我一条毛巾吗？"
    "可以的，我们会马上安排工作人员为您送去一条全新的毛巾，请您稍等几分钟。".

(** A record about breakfast whose question is one character short. *)
Definition short_question_record : pyval :=
  Reference.record "早餐几点开始？"
    "我们酒店的早餐供应时间是每天早上6:30到10:00，周末延长到10:30。早餐在一楼餐厅提供，包含中西式各种选择。".

(** A record with a single turn. *)
Definition one_turn_record : pyval :=
  VDict [(py "contents", VList [Reference.turn (VStr (py "只有一个问题？"))])].

(** The example response of the specification. *)
Definition example_response : pystr :=
  py "[{" ++ dquote ++ py "score" ++ dquote ++ py ":8," ++ dquote ++ py "keep" ++
  dquote ++ py ":true},{" ++ dquote ++ py "score" ++ dquote ++ py ":3," ++ dquote ++
  py "keep" ++ dquote ++ py ":false}]".





Definition quota_error : exn := Exn RuntimeError (py "内容生成失败: quota exceeded").

(** A judgment service that raises on every call, and one that always
    answers with the example response. *)
Definition failing_service : content_generator := fun _ => Raise quota_error.
Definition scoring_service : content_generator := fun _ => Ok example_response.

Definition sample_entries : list pyval :=
  [breakfast_record; weather_record; towel_record].

Definition sample_evaluations : gmap nat pydict :=
  {[ 0%nat := mk_evaluation (VInt 8) (VBool true) (py "AI评估-批次0(分数:8)") ]}.

(** The line of the input file holding the record with turns [q] and [a]. *)
Definition quoted (k : string) : pystr := dquote ++ py k ++ dquote.

Definition turn_text_json (t : string) : pystr :=
  py "{" ++ quoted "parts" ++ py ":[{" ++ quoted "text" ++ py ":" ++ quoted t ++ py "}]}".

Definition record_line (q a : string) : pystr :=
  py "{" ++ quoted "contents" ++ py ":[" ++ turn_text_json q ++ py "," ++
  turn_text_json a ++ py "]}" ++ newline.

Definition sample_lines : list pystr :=
  [ record_line "酒店的早餐时间是什么时候？"
      "我们酒店的早餐供应时间是每天早上6:30到10:00，周末延长到10:30。早餐在一楼餐厅提供，包含中西式各种选择。";
    py "this line is not JSON" ++ newline;
    record_line "今天天气怎么样？" "今天天气晴朗，温度适宜，是个出门的好日子。";
    record_line "请问可以多给我一条毛巾吗？"
      "可以的，我们会马上安排工作人员为您送去一条全新的毛巾，请您稍等几分钟。" ].

Definition sample_passed : batch :=
  [(0%nat, breakfast_record); (2%nat, towel_record); (5%nat, breakfast_record)].

(** A file system given by the list of its existing paths, with the POSIX
    [os.path.dirname]: the path up to its last slash, without trailing
    slashes unless it consists of slashes only. *)
Fixpoint drop_while (p : N -> bool) (s : pystr) : pystr :=
  match s with
  | [] => []
  | c :: r => if p c then drop_while p r else s
  end.

Definition posix_dirname (p : pystr) : pystr :=
  let head := rev (drop_while (fun c => negb (c =? 47)%N) (rev p)) in
  if forallb (fun c => (c =? 47)%N) head then head
  else rev (drop_while (fun c => (c =? 47)%N) (rev head)).

#[local] Instance sample_os : OperatingSystem (list pystr) := {|
  path_exists fs p := bool_decide (p ∈ fs);
  path_dirname := posix_dirname;
  makedirs fs p := Ok (p :: fs)
|}.

Definition sample_disk : list pystr := [py "data/train.jsonl"].

(** Writing on that file system: a file can be opened in the current
    directory or in an existing one; a document holding a lone surrogate
    (code points D800 to DFFF) cannot be encoded as UTF-8; nothing else
    fails.  The error texts omit the position. *)
Definition is_surrogate (c : N) : bool := ((55296 <=? c) && (c <=? 57343))%N.

Fixpoint has_surrogate (v : pyval) : bool :=
  match v with
  | VStr s => existsb is_surrogate s
  | VList l => existsb has_surrogate l
  | VDict d =>
      existsb (fun kv => let '(k, x) := kv in existsb is_surrogate k || has_surrogate x) d
  | _ => false
  end.

#[local] Instance sample_files : TextFiles (list pystr) := {|
  open_write fs path :=
    if bool_decide (posix_dirname path = []) || bool_decide (posix_dirname path ∈ fs)
    then (path :: fs, Ok ())
    else (fs, Raise (Exn OSError (py "[Errno 2] No such file or directory: '" ++
                                  path ++ py "'")));
  json_dump fs path obj :=
    if has_surrogate obj
    then (fs, Raise (Exn UnicodeEncodeError
                       (py "'utf-8' codec can't encode character: surrogates not allowed")))
    else (fs, Ok ());
  json_dump_report fs path report := (fs, Ok ());
  file_write fs path text := (fs, Ok ());
  file_close fs path := (fs, Ok ())
|}.

(** What the service client of the sample runs reports about itself, the
    output file of these runs and the file system they start on (the one
    the script's validation leaves: the output directory exists). *)
Definition sample_model_info : pyval :=
  VDict [(py "project_id", VNone); (py "location", VStr (py "us-central1"));
         (py "model_name", VStr (py "gemini-2.5-flash"))].

Definition sample_output : pystr := py "out/filtered.jsonl".

Definition run_disk : list pystr := [py "out"; py "data/train.jsonl"].

(** The run of the filter on the sample file system, with a clock reading
    of 2.5 seconds. *)
Definition sample_run (ai_manager : content_generator)
    (as_completed : list (nat * batch) -> list (nat * batch))
    (lines : list pystr) (config : ProcessingConfig) : run_outcome * list pystr :=
  @filter_data Reference.runtime (list pystr) sample_files ai_manager sample_model_info
    as_completed 2.5%float run_disk lines sample_output config.

Definition sample_arguments : Namespace :=
  mkNamespace (py "data/train.jsonl") (py "out/filtered.jsonl") None None
    (py "gemini-2.5-flash") 7 12 6 None (py "INFO").

(** * Properties *)

Local Open Scope nat_scope.

(** ** The result monad *)

Lemma result_mapM_length {A B} (f : A -> result B) l ys :
  result_mapM f l = Ok ys -> length ys = length l.
Proof.
  revert ys. induction l as [|x l IH]; intros ys; simpl.
  - intros [= <-]. reflexivity.
  - destruct (f x) as [y|e]; simpl; [|discriminate].
    destruct (result_mapM f l) as [ys'|e]; simpl; [|discriminate].
    intros [= <-]. simpl. f_equal. apply IH. reflexivity.
Qed.

Lemma result_mapM_lookup {A B} (f : A -> result B) l ys i y :
  result_mapM f l = Ok ys -> ys !! i = Some y ->
  exists x, l !! i = Some x /\ f x = Ok y.
Proof.
  revert ys i. induction l as [|x l IH]; intros ys i; simpl.
  - intros [= <-]. discriminate.
  - destruct (f x) as [y'|e] eqn:Hx; simpl; [|discriminate].
    destruct (result_mapM f l) as [ys'|e]; simpl; [|discriminate].
    intros [= <-]. destruct i as [|i]; simpl.
    + intros [= <-]. eauto.
    + intros Hy. eapply IH; eauto.
Qed.

Lemma result_mapM_ext_Ok {A B} (f : A -> result B) (g : A -> B) l :
  (forall x, x ∈ l -> f x = Ok (g x)) -> result_mapM f l = Ok (map g l).
Proof.
  induction l as [|x l IH]; intros Hf; simpl; [reflexivity|].
  rewrite Hf by left. simpl. rewrite IH; [reflexivity|].
  intros y Hy. apply Hf. by right.
Qed.

Lemma result_mapM_total {A B} (f : A -> result B) l :
  (forall x, x ∈ l -> exists y, f x = Ok y) -> exists ys, result_mapM f l = Ok ys.
Proof.
  induction l as [|x l IH]; intros Hf; simpl; [eauto|].
  destruct (Hf x) as [y ->]; [left|]. simpl.
  destruct IH as [ys ->]; [|simpl; eauto].
  intros z Hz. apply Hf. by right.
Qed.

Lemma result_mapM_Raise {A B} (f : A -> result B) l x e :
  x ∈ l -> f x = Raise e -> exists e', result_mapM f l = Raise e'.
Proof.
  induction l as [|y l IH]; [by intros ?%elem_of_nil|].
  intros [->|Hx]%elem_of_cons Hf; simpl.
  - rewrite Hf. eauto.
  - destruct (f y); simpl; [|eauto].
    destruct (IH Hx Hf) as [e' ->]. eauto.
Qed.

Lemma fst_map_pair {A B C} (g : A * B -> C) (l : list (A * B)) :
  (map (fun ie => (ie.1, g ie)) l).*1 = l.*1.
Proof. induction l as [|x l IH]; simpl; [reflexivity|]. f_equal. exact IH. Qed.

(** ** Python values *)

(** Scores may be floats or booleans; anything else cannot be compared. *)
Example score_comparisons :
  py_ge_int (VFloat 7.5%float) 7 = Ok true /\
  py_ge_int (VFloat 6.5%float) 7 = Ok false /\
  py_ge_int (VBool true) 7 = Ok false /\
  py_ge_int (VStr (py "8")) 7 =
    Raise (Exn TypeError (py "'>=' not supported between instances of 'str' and 'int'")).
Proof. repeat split; vm_compute; reflexivity. Qed.

(** The lazy pattern stops at the first closing bracket. *)
Example re_search_array_lazy :
  re_search_array (py "x [1, [2] ] y") = Some (py "[1, [2]") /\
  re_search_array (py "] no [ closing") = None.
Proof. split; vm_compute; reflexivity. Qed.

(** ** RuleValidator *)

Lemma existsb_filter_length {A} (p : A -> bool) (l : list A) :
  (0 <? length (filter (fun x => p x = true) l)) = existsb p l.
Proof.
  induction l as [|x l IH]; [reflexivity|].
  rewrite filter_cons. simpl. destruct (decide (p x = true)) as [E|E].
  - rewrite E. reflexivity.
  - apply not_true_is_false in E. rewrite E. exact IH.
Qed.

(** The code's list of diagnostics has one entry per failed check. *)
Lemma length_issues_count q a :
  length (length_issues (length q) (length a) (has_marker q) a) = failed_checks q a.
Proof.
  unfold length_issues, failed_checks,
    MIN_QUESTION_LENGTH, MAX_QUESTION_LENGTH, MIN_ANSWER_LENGTH,
    MAX_ANSWER_LENGTH, MIN_ANSWER_CONTENT_LENGTH.
  rewrite !length_app, Nat.ltb_antisym.
  destruct ((8 <=? length q) && (length q <=? 120)),
           ((30 <=? length a) && (length a <=? 1200)),
           (has_marker q), (20 <=? length (strip a)); reflexivity.
Qed.

(** On two strings the checks never raise, and the verdict is the policy. *)
Lemma check_texts_str q a :
  exists reason st,
    check_texts (VStr q) (VStr a) =
      Ok (domain_relevant q a && (failed_checks q a <=? 1), reason, st)
    /\ hotel_keywords_found st =
         filter (fun kw => str_contains kw (q ++ a) = true) HOTEL_KEYWORDS
    /\ is_hotel_related st = domain_relevant q a.
Proof.
  unfold check_texts. simpl.
  assert (Hm : (if str_contains (py "？") q then Ok true
                else Ok (str_contains (py "?") q)) = Ok (has_marker q)).
  { unfold has_marker. destruct (str_contains (py "？") q); reflexivity. }
  rewrite Hm. simpl.
  rewrite existsb_filter_length. fold (domain_relevant q a).
  eexists _, _. split.
  - do 3 f_equal.
    rewrite length_app, length_issues_count.
    destruct (domain_relevant q a); simpl.
    + rewrite Nat.add_0_r, andb_true_r. reflexivity.
    + rewrite andb_false_r. reflexivity.
  - split; reflexivity.
Qed.

(** Anything but two strings makes the checks raise. *)
Lemma check_texts_accepts_str question answer r :
  check_texts question answer = Ok r -> r.1.1 = true ->
  exists q a, question = VStr q /\ answer = VStr a.
Proof.
  unfold check_texts. intros Hc Hb.
  destruct answer; try (destruct question; simpl in Hc; try discriminate;
     repeat match type of Hc with
       | context [if ?b then _ else _] => destruct b; simpl in Hc
       end; discriminate).
  destruct question; simpl in Hc; try discriminate; eauto.
  - destruct (existsb _ l); simpl in Hc; discriminate.
  - destruct (existsb _ d); simpl in Hc; discriminate.
Qed.

(** [validate_entry] and [evaluate_batch] read the two turns the same way. *)
Lemma validate_body_texts entry :
  match extract_texts entry with
  | Some (question, answer) => validate_body entry = check_texts question answer
  | None => forall r, validate_body entry = Ok r -> r.1.1 = false
  end.
Proof.
  unfold extract_texts, validate_body.
  destruct (py_get entry "contents" (VList [])) as [contents|e]; simpl; [|discriminate].
  destruct (py_len contents) as [n|e]; simpl; [|discriminate].
  destruct (n <? 2).
  - intros r [= <-]. reflexivity.
  - destruct (turn_text contents 0) as [question|e]; simpl; [|discriminate].
    destruct (turn_text contents 1) as [answer|e]; simpl; [|discriminate].
    reflexivity.
Qed.

Lemma accepted_texts entry q a :
  record_texts entry = Some (q, a) ->
  accepted entry = domain_relevant q a && (failed_checks q a <=? 1).
Proof.
  intros Ht. unfold record_texts in Ht. unfold accepted, validate_entry.
  pose proof (validate_body_texts entry) as Hb.
  destruct (extract_texts entry) as [[question answer]|]; [|discriminate].
  destruct question; try discriminate. destruct answer; try discriminate.
  injection Ht as -> ->. rewrite Hb.
  destruct (check_texts_str q a) as (reason & st & -> & _). reflexivity.
Qed.

Lemma accepted_has_texts entry :
  accepted entry = true -> exists q a, record_texts entry = Some (q, a).
Proof.
  intros Hacc. unfold accepted, validate_entry in Hacc.
  pose proof (validate_body_texts entry) as Hb. unfold record_texts.
  destruct (extract_texts entry) as [[question answer]|].
  - rewrite Hb in Hacc.
    destruct (check_texts question answer) as [r|e] eqn:Hc; [|discriminate].
    destruct (check_texts_accepts_str _ _ _ Hc Hacc) as (q & a & -> & ->). eauto.
  - destruct (validate_body entry) as [r|e] eqn:Hv; [|discriminate].
    rewrite (Hb r eq_refl) in Hacc. discriminate.
Qed.

(** C1: for every record, [validate_entry] accepts it if and only if it is
    domain-relevant (a domain keyword occurs in question + answer) and at
    most one of the four other checks failed.  A record without two string
    turns has no question and answer and is rejected.  In particular a
    record matching no keyword is rejected whatever the other checks say,
    and a relevant record with exactly one other failed check is accepted. *)
Theorem validate_entry_acceptance (entry : pyval) :
  (accepted entry = true <->
   exists q a, record_texts entry = Some (q, a) /\
               domain_relevant q a = true /\ failed_checks q a <= 1)
  /\ (forall q a, record_texts entry = Some (q, a) ->
        domain_relevant q a = false -> accepted entry = false)
  /\ (forall q a, record_texts entry = Some (q, a) ->
        domain_relevant q a = true -> failed_checks q a = 1 ->
        accepted entry = true).
Proof.
  split; [split|split].
  - intros Hacc. destruct (accepted_has_texts entry Hacc) as (q & a & Ht).
    exists q, a. split; [exact Ht|].
    rewrite (accepted_texts entry q a Ht) in Hacc.
    apply andb_true_iff in Hacc as [? ?%Nat.leb_le]. done.
  - intros (q & a & Ht & Hrel & Hf). rewrite (accepted_texts entry q a Ht), Hrel.
    apply Nat.leb_le in Hf. rewrite Hf. reflexivity.
  - intros q a Ht Hrel. rewrite (accepted_texts entry q a Ht), Hrel. reflexivity.
  - intros q a Ht Hrel Hf. rewrite (accepted_texts entry q a Ht), Hrel, Hf. reflexivity.
Qed.

Lemma validate_entry_acceptance_witness :
  accepted (Reference.record "酒店早餐几点？"
              "早餐在一楼餐厅供应，时间是每天早上六点半到十点，周末会延长到十点半。") = true
  /\ accepted weather_record = false.
Proof.
  split.
  - apply (proj2 (proj2 (validate_entry_acceptance _))
             (py "酒店早餐几点？")
             (py "早餐在一楼餐厅供应，时间是每天早上六点半到十点，周末会延长到十点半。"));
      vm_compute; reflexivity.
  - apply (proj1 (proj2 (validate_entry_acceptance _))
             (py "今天天气怎么样？") (py "今天天气晴朗，温度适宜，是个出门的好日子。"));
      vm_compute; reflexivity.
Defined.

(** The repository's tests of [validate_entry]. *)
Example test_validate_entry_valid :
  let '(is_valid, reason, st) := validate_entry breakfast_record in
  is_valid = true /\ reason = py "通过规则检查" /\
  has_question_mark st = true /\ is_hotel_related st = true /\
  py "酒店" ∈ hotel_keywords_found st.
Proof. vm_compute. repeat split; left. Qed.

Example test_validate_entry_not_hotel_related :
  validate_entry weather_record =
    (false, py "回答长度异常(21字符); 与酒店服务不相关",
     mkFilterStats 8 21 true false []).
Proof. vm_compute. reflexivity. Qed.

Example test_validate_entry_too_short :
  validate_entry short_record =
    (false, py "问题长度异常(2字符); 回答长度异常(2字符); 回答内容过短; 与酒店服务不相关",
     mkFilterStats 2 2 true false []).
Proof. vm_compute. reflexivity. Qed.

(** The vocabulary lists one term twice. *)
Lemma HOTEL_KEYWORDS_repeats : HOTEL_KEYWORDS !! 28 = Some (py "毛巾") /\
                               HOTEL_KEYWORDS !! 34 = Some (py "毛巾").
Proof. split; vm_compute; reflexivity. Qed.

(** C9 (fails on the code): the matched-keyword list of a record that
    mentions the term listed twice holds that term twice. *)
Theorem towel_keyword_found_twice :
  accepted towel_record = true /\
  hotel_keywords_found (validate_entry towel_record).2 = [py "毛巾"; py "毛巾"] /\
  ~ NoDup (hotel_keywords_found (validate_entry towel_record).2).
Proof.
  split; [vm_compute; reflexivity|].
  split; [vm_compute; reflexivity|].
  replace (hotel_keywords_found (validate_entry towel_record).2)
    with [py "毛巾"; py "毛巾"] by (vm_compute; reflexivity).
  intros Hnd. apply NoDup_cons_1_1 in Hnd. apply Hnd. left.
Qed.

(** ** ResponseParser *)

Section Parser.
Context `{PythonRuntime}.

Lemma parse_ai_response_length text n : length (parse_ai_response text n) = n.
Proof.
  unfold parse_ai_response.
  destruct (parse_body text n) as [l|e] eqn:Hb.
  - unfold parse_body in Hb.
    destruct (match re_search_array text with Some m => json_loads m | None => _ end);
      simpl in Hb; [|discriminate].
    apply result_mapM_length in Hb. by rewrite Hb, length_seq.
  - apply length_replicate.
Qed.

(** Without a bracketed array every item is the default evaluation. *)
Lemma parse_body_no_match text n :
  re_search_array text = None ->
  parse_body text n =
    Ok (replicate n (mk_evaluation (VInt 7) (VBool true) (ai_reason (VInt 7)))).
Proof.
  intros Hm. unfold parse_body. rewrite Hm. simpl.
  rewrite (result_mapM_ext_Ok _
             (fun _ => mk_evaluation (VInt 7) (VBool true) (ai_reason (VInt 7)))).
  - f_equal. clear. generalize 0. induction n as [|n IH]; intros k; simpl; [reflexivity|].
    f_equal. apply IH.
  - intros i Hi. apply elem_of_seq in Hi as [_ Hi]. simpl in Hi.
    unfold standardize_item. simpl. rewrite length_replicate.
    destruct (i <? n) eqn:E; [|apply Nat.ltb_ge in E; lia].
    simpl. rewrite lookup_replicate_2 by lia. reflexivity.
Qed.

Lemma standardize_item_reason evaluations i item :
  standardize_item evaluations i = Ok item ->
  exists s k, item = mk_evaluation s k (ai_reason s).
Proof.
  unfold standardize_item.
  destruct (py_len evaluations) as [n|e]; simpl; [|discriminate].
  destruct (if i <? n then _ else _) as [[s k]|e]; simpl; [|discriminate].
  intros [= <-]. eauto.
Qed.

(** An item of a successful parse comes from one iteration of the loop. *)
Lemma parse_body_item text n out i item :
  parse_body text n = Ok out -> out !! i = Some item ->
  exists evaluations,
    match re_search_array text with
    | Some m => json_loads m
    | None => Ok (VList (replicate n
                (VDict [(py "score", VInt 7); (py "keep", VBool true)])))
    end = Ok evaluations /\
    i < n /\ standardize_item evaluations i = Ok item.
Proof.
  unfold parse_body. intros Hb Hi.
  destruct (match re_search_array text with Some m => json_loads m | None => _ end)
    as [evaluations|e]; simpl in Hb; [|discriminate].
  exists evaluations. split; [reflexivity|].
  destruct (result_mapM_lookup _ _ _ _ _ Hb Hi) as (x & Hx & Hf).
  apply lookup_seq in Hx as [-> Hlt]. simpl in Hf. done.
Qed.


(** An item of the array standardises exactly when it is scorable. *)
Lemma standardize_item_scorable items i v :
  items !! i = Some v ->
  if scorable v then exists item, standardize_item (VList items) i = Ok item
  else exists e, standardize_item (VList items) i = Raise e.
Proof.
  intros Hi. unfold standardize_item. simpl.
  rewrite (proj2 (Nat.ltb_lt _ _) (lookup_lt_Some _ _ _ Hi)), Hi. simpl.
  destruct v as [|b|z|f|s|l|d]; simpl; eauto.
  destruct (dict_get d (py "score") (VInt 7)); simpl; eauto.
Qed.

(** Every item of the output has one of two shapes. *)
Lemma parse_items_shape text n item :
  item ∈ parse_ai_response text n ->
  (exists out s k, parse_body text n = Ok out /\
                   item = mk_evaluation s k (ai_reason s)) \/
  (exists e, parse_body text n = Raise e /\ item = parse_failure e).
Proof.
  unfold parse_ai_response. intros Hin.
  destruct (parse_body text n) as [out|e] eqn:Hb.
  - left. apply list_elem_of_lookup in Hin as [i Hi].
    destruct (parse_body_item _ _ _ _ _ Hb Hi) as (evaluations & _ & _ & Hs).
    destruct (standardize_item_reason _ _ _ Hs) as (s & k & ->). eauto.
  - right. apply elem_of_replicate in Hin as [-> _]. eauto.
Qed.

Lemma parse_items_have_score text n :
  Forall (fun ev => is_Some (dict_lookup ev (py "score"))) (parse_ai_response text n).
Proof.
  apply Forall_forall. intros item Hin.
  destruct (parse_items_shape text n item Hin)
    as [(out & s & k & _ & ->) | (e & _ & ->)]; by eexists.
Qed.

(** C4: [parse_ai_response] is total (it returns a list, whatever the
    text) and the list has exactly [n] items; when no bracketed array is
    found, or the array found fails to decode, each item has score 7 and
    keep true. *)
Theorem parse_ai_response_fallback (response_text : pystr) (n : nat) :
  length (parse_ai_response response_text n) = n /\
  ((re_search_array response_text = None \/
    exists matched e, re_search_array response_text = Some matched /\
                      json_loads matched = Raise e) ->
   forall item, item ∈ parse_ai_response response_text n ->
     dict_lookup item (py "score") = Some (VInt 7) /\
     dict_lookup item (py "keep") = Some (VBool true)).
Proof.
  split; [apply parse_ai_response_length|].
  intros [Hnone | (matched & e & Hm & He)] item Hin.
  - unfold parse_ai_response in Hin. rewrite parse_body_no_match in Hin by done.
    apply elem_of_replicate in Hin as [-> _]. split; reflexivity.
  - unfold parse_ai_response, parse_body in Hin. rewrite Hm, He in Hin. simpl in Hin.
    apply elem_of_replicate in Hin as [-> _]. split; reflexivity.
Qed.




(** C8 (as amended): when the [try] block completes, every item's reason
    is the template around its resolved score, and nothing else of the
    service's item survives; when it raises, every item is score 7, keep
    true with the reason 'parse failed: <error>'.  Without a bracketed
    array the block completes. *)
Theorem parse_ai_response_reason (response_text : pystr) (n : nat) :
  (forall out, parse_body response_text n = Ok out ->
     parse_ai_response response_text n = out /\
     forall item, item ∈ out ->
       exists s k, item = mk_evaluation s k (py "AI评估(分数:" ++ py_format s ++ py ")")) /\
  (forall e, parse_body response_text n = Raise e ->
     forall item, item ∈ parse_ai_response response_text n ->
       item = mk_evaluation (VInt 7) (VBool true) (py "解析失败: " ++ exn_str e)) /\
  (re_search_array response_text = None ->
     exists out, parse_body response_text n = Ok out).
Proof.
  split; [|split].
  - intros out Hb. unfold parse_ai_response. rewrite Hb. split; [reflexivity|].
    intros item Hin. apply list_elem_of_lookup in Hin as [i Hi].
    destruct (parse_body_item _ _ _ _ _ Hb Hi) as (evaluations & _ & _ & Hs).
    exact (standardize_item_reason _ _ _ Hs).
  - intros e Hb item Hin. unfold parse_ai_response in Hin. rewrite Hb in Hin.
    apply elem_of_replicate in Hin as [-> _]. reflexivity.
  - intros Hnone. eexists. apply parse_body_no_match. exact Hnone.
Qed.

End Parser.

Lemma parse_ai_response_fallback_witness :
  (re_search_array (py "sorry, no scores") = None /\
   @parse_ai_response Reference.runtime (py "sorry, no scores") 2 =
     [mk_evaluation (VInt 7) (VBool true) (py "AI评估(分数:7)");
      mk_evaluation (VInt 7) (VBool true) (py "AI评估(分数:7)")]) /\
  (forall item, item ∈ @parse_ai_response Reference.runtime (py "see [abc] above") 3 ->
     dict_lookup item (py "score") = Some (VInt 7) /\
     dict_lookup item (py "keep") = Some (VBool true)).
Proof.
  split; [split; vm_compute; reflexivity|].
  apply (proj2 (@parse_ai_response_fallback Reference.runtime (py "see [abc] above") 3)).
  right. exists (py "[abc]"), (Reference.json_error "Expecting value").
  split; vm_compute; reflexivity.
Defined.



Lemma parse_ai_response_reason_witness :
  (forall item,
     item ∈ @parse_ai_response Reference.runtime (py "scores: [{}]") 2 ->
     exists s k, item = mk_evaluation s k
                          (py "AI评估(分数:" ++ @py_format Reference.runtime s ++ py ")")) /\
  (forall item,
     item ∈ @parse_ai_response Reference.runtime (py "[abc]") 2 ->
     item = mk_evaluation (VInt 7) (VBool true) (py "解析失败: Expecting value")).
Proof.
  split.
  - destruct (proj1 (@parse_ai_response_reason Reference.runtime (py "scores: [{}]") 2)
                _ ltac:(vm_compute; reflexivity)) as [E Hall].
    rewrite E. exact Hall.
  - apply (proj1 (proj2 (@parse_ai_response_reason Reference.runtime (py "[abc]") 2))
             (Reference.json_error "Expecting value")).
    vm_compute. reflexivity.
Defined.

(** C8 as first stated fails: on a text whose array does not decode, the
    item has score 7 but its reason is the failure message, which does not
    embed the score. *)
Lemma parse_ai_response_reason_counterexample :
  exists item,
    item ∈ @parse_ai_response Reference.runtime (py "[abc]") 1 /\
    dict_lookup item (py "score") = Some (VInt 7) /\
    dict_lookup item (py "reason") = Some (VStr (py "解析失败: Expecting value")) /\
    dict_lookup item (py "reason") <>
      Some (VStr (@ai_reason Reference.runtime (VInt 7))) /\
    str_contains (str_of_Z 7) (py "解析失败: Expecting value") = false.
Proof.
  exists (mk_evaluation (VInt 7) (VBool true) (py "解析失败: Expecting value")).
  split; [vm_compute; left|].
  split; [reflexivity|]. split; [reflexivity|].
  split; [vm_compute; discriminate|vm_compute; reflexivity].
Qed.

(** ** BatchEvaluator *)

Lemma valid_entries_readable entries ie qa :
  (ie, qa) ∈ valid_entries entries -> ie ∈ entries /\ extract_texts ie.2 = Some qa.
Proof.
  unfold valid_entries. intros Hin.
  apply list_elem_of_omap in Hin as (ie' & Hin & Hf).
  destruct (extract_texts ie'.2) as [qa'|] eqn:E; simpl in Hf; [|discriminate].
  injection Hf as <- <-. done.
Qed.

(** When every record of the batch is readable, none is skipped. *)
Lemma valid_entries_all entries :
  Forall (fun ie => is_Some (extract_texts ie.2)) entries ->
  (valid_entries entries).*1 = entries.
Proof.
  unfold valid_entries. induction 1 as [|ie entries [qa Hqa] _ IH]; [reflexivity|].
  simpl. rewrite Hqa. simpl. f_equal. exact IH.
Qed.

(** A rule-accepted record is readable by the batch evaluator. *)
Lemma accepted_readable entry :
  accepted entry = true -> is_Some (extract_texts entry).
Proof.
  intros Hacc. destruct (accepted_has_texts entry Hacc) as (q & a & Ht).
  unfold record_texts in Ht. destruct (extract_texts entry); [eauto|discriminate].
Qed.

Section Batch.
Context `{PythonRuntime}.

(** The result-building loop cannot fail on the parser's output. *)
Lemma build_results_ok batch_id (valid : list (nat * pyval)) evaluations :
  length evaluations = length valid ->
  Forall (fun ev => is_Some (dict_lookup ev (py "score"))) evaluations ->
  exists results, build_results batch_id valid evaluations = Ok results /\
                  results.*1 = valid.*1.
Proof.
  unfold build_results. intros Hlen Hall.
  assert (Hgen : forall k (valid : list (nat * pyval)),
    k + length valid <= length evaluations ->
    exists results,
      result_mapM
        (fun ie : nat * (nat * pyval) =>
           match evaluations !! ie.1 with
           | None => Raise (Exn IndexError (py "list index out of range"))
           | Some evaluation =>
               match dict_lookup evaluation (py "score") with
               | None => Raise (Exn KeyError (py "'score'"))
               | Some s =>
                   Ok (ie.2.1, dict_set evaluation (py "reason")
                                 (VStr (batch_reason batch_id s)))
               end
           end)
        (imap (fun i e => (k + i, e)) valid) = Ok results /\
      results.*1 = valid.*1).
  { clear valid Hlen. intros k valid. revert k.
    induction valid as [|v valid IH]; intros k Hk; simpl.
    - eexists. split; reflexivity.
    - simpl in Hk. rewrite Nat.add_0_r.
      assert (Hlt : k < length evaluations) by lia.
      destruct (lookup_lt_is_Some_2 evaluations k Hlt) as [ev Hev].
      rewrite Hev.
      destruct (proj1 (Forall_lookup _ _) Hall k ev Hev) as [s Hs]. rewrite Hs. simpl.
      destruct (IH (S k) ltac:(lia)) as (results & Hr & Hfst).
      rewrite (imap_ext _ (fun i e => (S k + i, e))) by (intros; simpl; f_equal; lia).
      rewrite Hr. simpl. eexists. split; [reflexivity|].
      rewrite !fmap_cons, Hfst. reflexivity. }
  apply (Hgen 0 valid). lia.
Qed.

(** The indices of the results of a batch are indices of the batch. *)
Lemma evaluate_batch_indices ai_manager entries batch_id :
  (evaluate_batch ai_manager entries batch_id).1.*1 ⊆ entries.*1.
Proof.
  assert (Hvalid : (valid_entries entries).*1.*1 ⊆ entries.*1).
  { intros i Hi. apply list_elem_of_fmap in Hi as (ie & -> & Hie).
    apply list_elem_of_fmap in Hie as ([ie' qa] & -> & Hin).
    apply valid_entries_readable in Hin as [Hin _].
    apply list_elem_of_fmap. eauto. }
  assert (Hfailed : forall e,
    (map (fun ie : nat * pyval => (ie.1, batch_failure batch_id e))
       (valid_entries entries).*1).*1 ⊆ entries.*1).
  { intros e. rewrite (fst_map_pair (fun _ => batch_failure batch_id e)).
    exact Hvalid. }
  unfold evaluate_batch.
  case_bool_decide; [simpl; apply list_subseteq_nil|].
  case_bool_decide.
  { cbn [fst]. by rewrite (fst_map_pair (fun _ => format_error)). }
  destruct (create_evaluation_prompt _) as [prompt|e]; [|apply Hfailed].
  destruct (ai_manager prompt) as [text|e]; [|apply Hfailed].
  destruct (build_results_ok batch_id (valid_entries entries).*1
              (parse_ai_response text (length (valid_entries entries))))
    as (results & -> & Hfst).
  - by rewrite parse_ai_response_length, !length_fmap.
  - apply parse_items_have_score.
  - simpl. rewrite Hfst. exact Hvalid.
Qed.

(** Parsing never fails a batch: once the service has answered, the
    results are built from the parser's output. *)
Lemma evaluate_batch_answered ai_manager entries batch_id prompt text :
  valid_entries entries <> [] ->
  create_evaluation_prompt (valid_entries entries).*2 = Ok prompt ->
  ai_manager prompt = Ok text ->
  exists results,
    build_results batch_id (valid_entries entries).*1
      (parse_ai_response text (length (valid_entries entries))) = Ok results /\
    evaluate_batch ai_manager entries batch_id = (results, [prompt]).
Proof.
  intros Hne Hp Ha.
  destruct (build_results_ok batch_id (valid_entries entries).*1
              (parse_ai_response text (length (valid_entries entries))))
    as (results & Hr & Hfst).
  - by rewrite parse_ai_response_length, !length_fmap.
  - apply parse_items_have_score.
  - exists results. split; [exact Hr|]. unfold evaluate_batch.
    rewrite bool_decide_eq_false_2 by (intros ->; apply Hne; reflexivity).
    rewrite bool_decide_eq_false_2
      by (intros E; apply fmap_nil_inv in E; done).
    rewrite Hp, Ha, Hr. reflexivity.
Qed.

(** A batch without a readable record is answered without the service. *)
Lemma evaluate_batch_unreadable ai_manager entries batch_id :
  valid_entries entries = [] ->
  evaluate_batch ai_manager entries batch_id =
    (map (fun ie => (ie.1, format_error)) entries, []).
Proof.
  intros Hv. unfold evaluate_batch. rewrite Hv. case_bool_decide; [by subst|].
  reflexivity.
Qed.

(** C6 (as amended): in a batch with at least one readable record, when
    building the prompt or calling the service raises [e], the result is
    the fallback score 6, keep true, reason 'evaluation failed-batch
    <id>: <e>' for every record whose text was extracted, in batch order;
    when every record of the batch is readable, that is every record of
    the batch. *)
Theorem evaluate_batch_failure (ai_manager : content_generator)
    (entries : list (nat * pyval)) (batch_id : nat) (e : exn) :
  valid_entries entries <> [] ->
  (create_evaluation_prompt (valid_entries entries).*2 = Raise e \/
   exists prompt, create_evaluation_prompt (valid_entries entries).*2 = Ok prompt /\
                  ai_manager prompt = Raise e) ->
  (evaluate_batch ai_manager entries batch_id).1 =
    map (fun ie => (ie.1, mk_evaluation (VInt 6) (VBool true)
                            (py "评估失败-批次" ++ str_of_nat batch_id ++ py ": " ++
                             exn_str e)))
      (valid_entries entries).*1
  /\ (Forall (fun ie => is_Some (extract_texts ie.2)) entries ->
      (evaluate_batch ai_manager entries batch_id).1 =
        map (fun ie => (ie.1, mk_evaluation (VInt 6) (VBool true)
                                (py "评估失败-批次" ++ str_of_nat batch_id ++ py ": " ++
                                 exn_str e)))
          entries).
Proof.
  intros Hne Hraise.
  assert (Hmain : (evaluate_batch ai_manager entries batch_id).1 =
    map (fun ie => (ie.1, batch_failure batch_id e)) (valid_entries entries).*1).
  { unfold evaluate_batch.
    rewrite bool_decide_eq_false_2 by (intros ->; apply Hne; reflexivity).
    rewrite bool_decide_eq_false_2
      by (intros E; apply fmap_nil_inv in E; done).
    destruct Hraise as [-> | (prompt & -> & ->)]; reflexivity. }
  split; [exact Hmain|].
  intros Hall. rewrite Hmain, valid_entries_all by done. reflexivity.
Qed.

End Batch.

Lemma evaluate_batch_failure_witness :
  (@evaluate_batch Reference.runtime failing_service
     [(4, breakfast_record); (9, towel_record)] 2).1 =
    [(4, mk_evaluation (VInt 6) (VBool true)
           (py "评估失败-批次2: 内容生成失败: quota exceeded"));
     (9, mk_evaluation (VInt 6) (VBool true)
           (py "评估失败-批次2: 内容生成失败: quota exceeded"))].
Proof.
  destruct (@evaluate_batch_failure Reference.runtime failing_service
              [(4, breakfast_record); (9, towel_record)] 2 quota_error) as [_ Hall].
  - vm_compute. discriminate.
  - right. eexists. split; [vm_compute; reflexivity|reflexivity].
  - rewrite Hall; [vm_compute; reflexivity|].
    repeat constructor; vm_compute; eauto.
Defined.

(** C6 as first stated fails: with a failing service, the record that
    could not be read gets no entry at all, and a batch without a readable
    record gets score 5, not 6. *)
Lemma evaluate_batch_failure_counterexample :
  (@evaluate_batch Reference.runtime failing_service
     [(0, breakfast_record); (1, one_turn_record)] 3).1 =
    [(0, mk_evaluation (VInt 6) (VBool true)
           (py "评估失败-批次3: 内容生成失败: quota exceeded"))]
  /\ ~ (1 ∈ (@evaluate_batch Reference.runtime failing_service
               [(0, breakfast_record); (1, one_turn_record)] 3).1.*1)
  /\ (@evaluate_batch Reference.runtime failing_service
        [(1, one_turn_record)] 3).1 =
       [(1, mk_evaluation (VInt 5) (VBool true) (py "数据格式错误"))].
Proof.
  split; [vm_compute; reflexivity|]. split; [|vm_compute; reflexivity].
  replace ((@evaluate_batch Reference.runtime failing_service
            [(0, breakfast_record); (1, one_turn_record)] 3).1.*1) with [0]
    by (vm_compute; reflexivity).
  intros Hin. apply list_elem_of_singleton in Hin. discriminate.
Qed.

(** ** ConcurrencyCoordinator *)

(** *** Storing batch results in the shared dictionary *)

Lemma store_all_notin (m : gmap nat pydict) l i :
  i ∉ l.*1 -> store_all m l !! i = m !! i.
Proof.
  unfold store_all. revert m. induction l as [|[j ev] l IH]; intros m Hi; [reflexivity|].
  simpl. rewrite IH.
  - apply lookup_insert_ne. intros ->. apply Hi. simpl. left.
  - intros Hin. apply Hi. simpl. by right.
Qed.

Lemma store_all_in (m m' : gmap nat pydict) l i :
  i ∈ l.*1 -> store_all m l !! i = store_all m' l !! i.
Proof.
  unfold store_all. revert m m'. induction l as [|[j ev] l IH]; intros m m' Hi.
  - by apply elem_of_nil in Hi.
  - simpl. destruct (decide (i ∈ l.*1)) as [Hin|Hnin].
    + by apply IH.
    + fold (store_all (<[j:=ev]> m) l). fold (store_all (<[j:=ev]> m') l).
      rewrite !store_all_notin by done.
      simpl in Hi. apply elem_of_cons in Hi as [->|Hi]; [|done].
      by rewrite !lookup_insert_eq.
Qed.

(** Two batches of results over disjoint indices can be stored in either
    order. *)
Lemma store_all_comm (m : gmap nat pydict) l1 l2 :
  (forall i, i ∈ l1.*1 -> i ∈ l2.*1 -> False) ->
  store_all (store_all m l1) l2 = store_all (store_all m l2) l1.
Proof.
  intros Hdisj. apply map_eq. intros i.
  destruct (decide (i ∈ l2.*1)) as [H2|H2].
  - assert (H1 : i ∉ l1.*1) by (intros H1; exact (Hdisj i H1 H2)).
    rewrite (store_all_notin _ l1) by done. by apply store_all_in.
  - rewrite (store_all_notin _ l2) by done.
    destruct (decide (i ∈ l1.*1)) as [H1|H1].
    + by apply store_all_in.
    + by rewrite !store_all_notin.
Qed.

Lemma collect_one_writes evaluator st fut :
  (collect_one evaluator st fut).1 = store_all st.1 (writes evaluator fut).
Proof.
  unfold collect_one, writes. destruct fut as [batch_id b]. simpl.
  destruct (evaluator b batch_id) as [[results|e] sent]; reflexivity.
Qed.

Lemma collect_writes evaluator st futs :
  (foldl (collect_one evaluator) st futs).1 =
  foldl (fun m fut => store_all m (writes evaluator fut)) st.1 futs.
Proof.
  revert st. induction futs as [|fut futs IH]; intros st; [reflexivity|].
  simpl. rewrite IH, collect_one_writes. reflexivity.
Qed.

Lemma writes_indices evaluator fut :
  (forall b batch_id results,
     (evaluator b batch_id).1 = Ok results -> results.*1 ⊆ b.*1) ->
  (writes evaluator fut).*1 ⊆ fut.2.*1.
Proof.
  intros Hev. unfold writes.
  destruct ((evaluator fut.2 fut.1).1) as [results|e] eqn:E.
  - eapply Hev, E.
  - by rewrite (fst_map_pair (fun _ => future_failure fut.1)).
Qed.

(** A left fold over a duplicate-free list does not depend on the order
    when the steps of distinct elements commute. *)
Lemma foldl_commute_permutation {A B} (f : A -> B -> A) (l1 l2 : list B) :
  l1 ≡ₚ l2 -> NoDup l1 ->
  (forall x y a, x ∈ l1 -> y ∈ l1 -> x <> y -> f (f a x) y = f (f a y) x) ->
  forall a, foldl f a l1 = foldl f a l2.
Proof.
  induction 1 as [|x l1 l2 Hp IH|x y l|l1 l2 l3 Hp1 IH1 Hp2 IH2]; intros Hnd Hc a.
  - reflexivity.
  - simpl. apply IH.
    + by apply NoDup_cons_1_2 in Hnd.
    + intros ? ? ? ? ?. apply Hc; by right.
  - simpl. f_equal. apply Hc.
    + left.
    + right. left.
    + apply NoDup_cons_1_1 in Hnd. intros ->. apply Hnd. left.
  - rewrite IH1 by done. apply IH2.
    + by rewrite <- Hp1.
    + intros x y b Hx Hy. apply Hc; by rewrite Hp1.
Qed.

(** *** Batches are disjoint slices *)

Lemma range_step_lookup stop step k i :
  range_step stop step !! k = Some i -> i = k * step.
Proof.
  unfold range_step. rewrite list_lookup_fmap.
  destruct (seq 0 _ !! k) as [k'|] eqn:E; [|discriminate].
  apply lookup_seq in E as [-> _]. simpl. by intros [= <-].
Qed.

Lemma make_batches_lookup passed bs batches k b :
  make_batches passed bs = Ok batches -> batches !! k = Some b ->
  b = take (Z.to_nat bs) (drop (k * Z.to_nat bs) passed) /\ 0 < Z.to_nat bs.
Proof.
  unfold make_batches.
  destruct (bs =? 0)%Z eqn:E0; [discriminate|].
  destruct (bs <? 0)%Z eqn:E1; [intros [= <-]; discriminate|].
  intros [= <-]. rewrite list_lookup_fmap.
  destruct (range_step _ _ !! k) as [i|] eqn:E; [|discriminate].
  apply range_step_lookup in E as ->. intros [= <-]. split; [reflexivity|].
  apply Z.eqb_neq in E0. apply Z.ltb_ge in E1. lia.
Qed.

Lemma batch_member_position (passed : batch) bs k i :
  i ∈ (take bs (drop (k * bs) passed)).*1 ->
  exists p, passed.*1 !! p = Some i /\ k * bs <= p < k * bs + bs.
Proof.
  intros Hin. apply list_elem_of_lookup in Hin as [j Hj].
  rewrite list_lookup_fmap in Hj.
  destruct (take bs (drop (k * bs) passed) !! j) as [ie|] eqn:E; [|discriminate].
  apply lookup_take_Some in E as [E Hlt]. rewrite lookup_drop in E.
  exists (k * bs + j). split; [|lia].
  rewrite list_lookup_fmap, E. exact Hj.
Qed.

Lemma submit_all_elem batches batch_id b :
  (batch_id, b) ∈ submit_all batches <-> batches !! batch_id = Some b.
Proof.
  unfold submit_all. rewrite list_elem_of_lookup. split.
  - intros [j Hj]. rewrite list_lookup_imap in Hj.
    destruct (batches !! j) as [b'|] eqn:E; [|discriminate].
    simpl in Hj. by injection Hj as <- <-.
  - intros Hb. exists batch_id. by rewrite list_lookup_imap, Hb.
Qed.

Lemma submit_all_NoDup batches : NoDup (submit_all batches).
Proof.
  apply NoDup_alt. intros i j [batch_id b] Hi Hj.
  unfold submit_all in *. rewrite list_lookup_imap in Hi, Hj.
  destruct (batches !! i); [|discriminate]. destruct (batches !! j); [|discriminate].
  simpl in *. congruence.
Qed.

(** Each original index belongs to exactly one batch. *)
Lemma futures_disjoint passed bs batches f1 f2 i :
  NoDup passed.*1 ->
  make_batches passed bs = Ok batches ->
  f1 ∈ submit_all batches -> f2 ∈ submit_all batches -> f1 <> f2 ->
  i ∈ f1.2.*1 -> i ∈ f2.2.*1 -> False.
Proof.
  intros Hnd Hb H1 H2 Hne Hi1 Hi2.
  destruct f1 as [k1 b1], f2 as [k2 b2]. simpl in *.
  apply submit_all_elem in H1, H2.
  destruct (make_batches_lookup _ _ _ _ _ Hb H1) as [-> Hpos].
  destruct (make_batches_lookup _ _ _ _ _ Hb H2) as [-> _].
  apply batch_member_position in Hi1 as (p1 & Hp1 & Hr1).
  apply batch_member_position in Hi2 as (p2 & Hp2 & Hr2).
  assert (p1 = p2) by (eapply NoDup_lookup; eauto). subst p2.
  assert (k1 = k2) by nia. subst k2. by apply Hne.
Qed.

(** The dictionary collected from futures completing in the order
    [completed] is the one collected in submission order. *)
Lemma collect_in_any_order evaluator passed bs batches completed :
  NoDup passed.*1 ->
  (forall b batch_id results,
     (evaluator b batch_id).1 = Ok results -> results.*1 ⊆ b.*1) ->
  make_batches passed bs = Ok batches ->
  completed ≡ₚ submit_all batches ->
  (foldl (collect_one evaluator) (∅, []) completed).1 =
  (foldl (collect_one evaluator) (∅, []) (submit_all batches)).1.
Proof.
  intros Hnd Hev Hb Hperm. rewrite !collect_writes. simpl.
  apply foldl_commute_permutation; [exact Hperm| |].
  - rewrite Hperm. apply submit_all_NoDup.
  - intros f1 f2 m Hf1 Hf2 Hne. rewrite Hperm in Hf1, Hf2.
    apply store_all_comm. intros i Hi1 Hi2.
    apply (writes_indices evaluator f1 Hev) in Hi1.
    apply (writes_indices evaluator f2 Hev) in Hi2.
    exact (futures_disjoint _ _ _ f1 f2 i Hnd Hb Hf1 Hf2 Hne Hi1 Hi2).
Qed.

(** The rule stage hands over distinct indices. *)
Lemma imap_filter_indices_NoDup {A} (P : nat * A -> bool) (l : list A) :
  NoDup (filter (fun ie => P ie = true) (imap (fun j e => (j, e)) l)).*1.
Proof.
  apply NoDup_fmap_fst.
  - intros i x y Hx Hy.
    apply list_elem_of_filter in Hx as [_ Hx]. apply list_elem_of_filter in Hy as [_ Hy].
    apply list_elem_of_lookup in Hx as [jx Hx]. apply list_elem_of_lookup in Hy as [jy Hy].
    rewrite list_lookup_imap in Hx, Hy.
    destruct (l !! jx) as [ex|] eqn:Ex; [|discriminate].
    destruct (l !! jy) as [ey|] eqn:Ey; [|discriminate].
    simpl in Hx, Hy. injection Hx as <- <-. injection Hy as -> <-. congruence.
  - apply NoDup_filter, NoDup_alt. intros i j [k e] Hi Hj.
    rewrite list_lookup_imap in Hi, Hj.
    destruct (l !! i); [|discriminate]. destruct (l !! j); [|discriminate].
    simpl in *. congruence.
Qed.

(** C7: the evaluation dictionary does not depend on the order in which
    the batches complete, nor on the worker count.  For rule-passed records
    (distinct original indices), an evaluator whose results for a batch
    carry indices of that batch (it gives the same outcome for the same
    batch in both runs), two completion orders and two positive worker
    counts, both runs end the same way, with the same dictionary. *)
Theorem apply_ai_evaluation_order_independent (evaluator : batch_evaluator)
    (completion1 completion2 : list (nat * batch) -> list (nat * batch))
    (passed_entries : batch) (config1 config2 : ProcessingConfig) :
  NoDup passed_entries.*1 ->
  (forall b batch_id results,
     (evaluator b batch_id).1 = Ok results -> results.*1 ⊆ b.*1) ->
  (forall futures, completion1 futures ≡ₚ futures) ->
  (forall futures, completion2 futures ≡ₚ futures) ->
  batch_size config1 = batch_size config2 ->
  (0 < max_workers config1)%Z -> (0 < max_workers config2)%Z ->
  fst <$> apply_ai_evaluation evaluator completion1 passed_entries config1 =
  fst <$> apply_ai_evaluation evaluator completion2 passed_entries config2.
Proof.
  intros Hnd Hev Hc1 Hc2 Hbs Hw1 Hw2. unfold apply_ai_evaluation.
  case_bool_decide; [reflexivity|]. rewrite <- Hbs.
  destruct (make_batches passed_entries (batch_size config1)) as [batches|e] eqn:Hb;
    simpl; [|reflexivity].
  unfold thread_pool.
  rewrite !(proj2 (Z.leb_gt _ _)) by lia. simpl. f_equal.
  rewrite (collect_in_any_order evaluator _ _ _ (completion1 _) Hnd Hev Hb (Hc1 _)).
  rewrite (collect_in_any_order evaluator _ _ _ (completion2 _) Hnd Hev Hb (Hc2 _)).
  reflexivity.
Qed.

(** The repository's evaluator meets the hypothesis on indices. *)
Lemma default_evaluator_indices `{PythonRuntime} ai_manager b batch_id results :
  (default_evaluator ai_manager b batch_id).1 = Ok results -> results.*1 ⊆ b.*1.
Proof.
  unfold default_evaluator. simpl. intros [= <-]. apply evaluate_batch_indices.
Qed.

Lemma apply_ai_evaluation_order_independent_witness :
  fst <$> apply_ai_evaluation (@default_evaluator Reference.runtime scoring_service)
            id sample_passed (mkProcessingConfig 7 2 1 None) =
  fst <$> apply_ai_evaluation (@default_evaluator Reference.runtime scoring_service)
            reverse sample_passed (mkProcessingConfig 7 2 8 None).
Proof.
  apply apply_ai_evaluation_order_independent.
  - apply (bool_decide_unpack _). vm_compute. exact I.
  - apply default_evaluator_indices.
  - reflexivity.
  - intros futures. apply reverse_Permutation.
  - reflexivity.
  - simpl. lia.
  - simpl. lia.
Defined.

(** ** ResultMerger *)

Lemma high_of_cons d ds :
  high_of (d :: ds) = (if d.1 then [d.2] else []) ++ high_of ds.
Proof. unfold high_of. rewrite filter_cons. destruct d as [[] r]; reflexivity. Qed.

Lemma low_of_cons d ds :
  low_of (d :: ds) = (if d.1 then [] else [d.2]) ++ low_of ds.
Proof. unfold low_of. rewrite filter_cons. destruct d as [[] r]; reflexivity. Qed.

(** The loop takes one decision per record and appends it to one list. *)
Lemma merge_loop_decisions k entries rr evals cfg high low high' low' :
  merge_loop k entries rr evals cfg high low = Ok (high', low') ->
  exists decisions,
    length decisions = length entries /\
    merge_decisions k rr evals cfg decisions /\
    high' = high ++ high_of decisions /\ low' = low ++ low_of decisions.
Proof.
  revert k high low. induction entries as [|entry rest IH]; intros k high low.
  - simpl. intros [= <- <-]. exists []. unfold merge_decisions.
    rewrite !app_nil_r. repeat split; [|done..]. intros j d Hj. discriminate.
  - simpl. destruct (rr !! k) as [r|] eqn:Hr; [|discriminate].
    destruct (merge_one k r evals cfg) as [[is_high res]|e] eqn:Hm;
      simpl; [|discriminate].
    intros Hloop.
    assert (Hrest : exists decisions,
      length decisions = length rest /\
      merge_decisions (S k) rr evals cfg decisions /\
      high' = (if is_high then high ++ [res] else high) ++ high_of decisions /\
      low' = (if is_high then low else low ++ [res]) ++ low_of decisions).
    { destruct is_high; apply IH in Hloop; exact Hloop. }
    destruct Hrest as (ds & Hlen & Hds & -> & ->).
    exists ((is_high, res) :: ds). split; [simpl; by rewrite Hlen|]. split.
    + intros [|j] d Hj; simpl in Hj.
      * injection Hj as <-. exists r. by rewrite Nat.add_0_r.
      * destruct (Hds j d Hj) as (r' & Hr' & Hm').
        exists r'. by rewrite <- Nat.add_succ_comm.
    + rewrite high_of_cons, low_of_cons. simpl.
      destruct is_high; rewrite <- ?app_assoc; done.
Qed.

(** With enough rule results and numeric scores the loop returns. *)
Lemma merge_loop_total k entries rr evals cfg high low :
  k + length entries <= length rr ->
  (forall i ev, evals !! i = Some ev -> numeric_score ev) ->
  exists high' low', merge_loop k entries rr evals cfg high low = Ok (high', low').
Proof.
  intros Hlen Hnum. revert k high low Hlen.
  induction entries as [|entry rest IH]; intros k high low Hlen; simpl.
  - eauto.
  - simpl in Hlen.
    assert (Hlt : k < length rr) by lia.
    destruct (lookup_lt_is_Some_2 rr k Hlt) as [r Hr]. rewrite Hr.
    assert (Hone : exists d, merge_one k r evals cfg = Ok d).
    { unfold merge_one. destruct (negb (py_truthy (is_kept r))); [eauto|].
      unfold keep_and_score.
      destruct (py_truthy (dict_get _ (py "keep") _)); simpl; [|eauto].
      assert (Hn : numeric_score (default not_evaluated (evals !! k))).
      { destruct (evals !! k) as [ev|] eqn:E; [exact (Hnum _ _ E)|exact I]. }
      unfold numeric_score in Hn.
      destruct (dict_get _ (py "score") _); try done; simpl; eauto. }
    destruct Hone as [[is_high res] ->]. simpl.
    destruct is_high; apply IH; lia.
Qed.

Lemma merge_one_index k r evals cfg d :
  (negb (py_truthy (is_kept r)) = true -> index r = k) ->
  merge_one k r evals cfg = Ok d -> index d.2 = k.
Proof.
  unfold merge_one. intros Hidx.
  destruct (negb (py_truthy (is_kept r))).
  - intros [= <-]. by apply Hidx.
  - destruct (keep_and_score _ _) as [kept|e]; simpl; [|discriminate].
    intros [= <-]. reflexivity.
Qed.

Lemma decisions_indices k rr evals cfg decisions :
  (forall i r, rr !! i = Some r -> index r = i) ->
  merge_decisions k rr evals cfg decisions ->
  index <$> decisions.*2 = seq k (length decisions).
Proof.
  intros Hidx. revert k. induction decisions as [|d ds IH]; intros k Hds.
  - reflexivity.
  - simpl. f_equal.
    + destruct (Hds 0 d eq_refl) as (r & Hr & Hm). rewrite Nat.add_0_r in Hr, Hm.
      eapply merge_one_index; [|exact Hm]. intros _. by apply Hidx.
    + apply IH. intros j d' Hj. destruct (Hds (S j) d' Hj) as (r & Hr & Hm).
      exists r. by rewrite Nat.add_succ_comm.
Qed.

Lemma high_low_permutation decisions :
  high_of decisions ++ low_of decisions ≡ₚ decisions.*2.
Proof.
  induction decisions as [|[[] r] ds IH].
  - reflexivity.
  - rewrite high_of_cons, low_of_cons. simpl. by rewrite IH.
  - rewrite high_of_cons, low_of_cons. simpl.
    rewrite <- Permutation_middle. by rewrite IH.
Qed.

(** The indices of the two lists together are 0, ..., N-1, each once. *)
Lemma merge_results_decisions entries rr evals cfg high low :
  (forall i r, rr !! i = Some r -> index r = i) ->
  merge_results entries rr evals cfg = Ok (high, low) ->
  exists decisions,
    length decisions = length entries /\
    merge_decisions 0 rr evals cfg decisions /\
    high = high_of decisions /\ low = low_of decisions /\
    (index <$> high) ++ (index <$> low) ≡ₚ seq 0 (length entries).
Proof.
  intros Hidx Hm. unfold merge_results in Hm.
  apply merge_loop_decisions in Hm as (ds & Hdl & Hds & -> & ->). simpl.
  exists ds. repeat split; try done.
  rewrite <- fmap_app, high_low_permutation.
  rewrite (decisions_indices 0 rr evals cfg) by done. by rewrite Hdl.
Qed.

Lemma decision_member (decisions : list (bool * FilterResult)) j
    (d : bool * FilterResult) :
  decisions !! j = Some d ->
  if d.1 then d.2 ∈ high_of decisions else d.2 ∈ low_of decisions.
Proof.
  intros Hj. apply list_elem_of_lookup_2 in Hj.
  destruct d as [[] r]; simpl; unfold high_of, low_of; apply list_elem_of_fmap.
  - exists (true, r). split; [reflexivity|]. by apply list_elem_of_filter.
  - exists (false, r). split; [reflexivity|]. by apply list_elem_of_filter.
Qed.

(** C2: for records, a full rule-stage result list of the same length and
    any evaluation mapping, the two lists [merge_results] returns have sizes
    that sum to the number of records; and, the rule-stage result at each
    position carrying that position as its index, every original index is
    the index of exactly one result, in exactly one of the two lists.  The
    function does return when the scores in the mapping are numbers. *)
Theorem merge_results_partition (data_entries : list pyval)
    (rule_results : list FilterResult) (ai_evaluations : gmap nat pydict)
    (config : ProcessingConfig) :
  length rule_results = length data_entries ->
  (forall high low,
     merge_results data_entries rule_results ai_evaluations config = Ok (high, low) ->
     length high + length low = length data_entries /\
     ((forall i r, rule_results !! i = Some r -> index r = i) ->
      (index <$> high) ++ (index <$> low) ≡ₚ seq 0 (length data_entries) /\
      (forall i, i ∈ index <$> high -> i ∈ index <$> low -> False) /\
      (forall i, i < length data_entries <->
                 i ∈ index <$> high \/ i ∈ index <$> low)))
  /\ ((forall i ev, ai_evaluations !! i = Some ev -> numeric_score ev) ->
      exists high low,
        merge_results data_entries rule_results ai_evaluations config = Ok (high, low)).
Proof.
  intros Hlen. split.
  - intros high low Hm. split.
    + unfold merge_results in Hm.
      apply merge_loop_decisions in Hm as (ds & Hdl & _ & -> & ->). simpl.
      rewrite <- Hdl, <- (length_fmap snd ds), <- high_low_permutation.
      by rewrite length_app.
    + intros Hidx.
      apply merge_results_decisions in Hm as (ds & _ & _ & _ & _ & Hperm); [|exact Hidx].
      split; [exact Hperm|split].
      * intros i Hh Hl.
        assert (Hnd : NoDup ((index <$> high) ++ (index <$> low))).
        { rewrite Hperm. apply NoDup_seq. }
        apply NoDup_app in Hnd as (_ & Hdisj & _). exact (Hdisj i Hh Hl).
      * intros i. rewrite <- elem_of_app, Hperm, elem_of_seq. lia.
  - intros Hnum. apply merge_loop_total; [lia|exact Hnum].
Qed.

Lemma merge_results_partition_witness :
  exists high low,
    merge_results sample_entries (imap rule_result_of sample_entries)
      sample_evaluations default_config = Ok (high, low) /\
    length high + length low = 3 /\
    (index <$> high) ++ (index <$> low) ≡ₚ [0; 1; 2].
Proof.
  destruct (merge_results_partition sample_entries (imap rule_result_of sample_entries)
              sample_evaluations default_config) as [Hpart Htotal].
  - reflexivity.
  - destruct Htotal as (high & low & Hm).
    + intros i ev Hi. unfold sample_evaluations in Hi.
      apply lookup_singleton_Some in Hi as [_ <-]. exact I.
    + exists high, low. split; [exact Hm|].
      destruct (Hpart high low Hm) as (Hlen & Hidx). split; [exact Hlen|].
      apply Hidx. intros [|[|[|i]]] r; simpl; intros [= <-]; reflexivity.
Defined.

(** *** The rule stage feeding the merger *)

Lemma rule_loop_results k entries :
  (rule_loop k entries).2 = imap (fun j e => rule_result_of (k + j) e) entries.
Proof.
  revert k. induction entries as [|entry rest IH]; intros k; [reflexivity|].
  simpl. unfold rule_result_of at 1, accepted.
  destruct (validate_entry entry) as [[is_valid reason] st] eqn:Hv.
  specialize (IH (S k)).
  destruct (rule_loop (S k) rest) as [passed all]. simpl in *.
  rewrite Nat.add_0_r. f_equal. rewrite IH.
  apply imap_ext. intros j e _. simpl. f_equal. lia.
Qed.

Lemma rule_loop_passed k entries :
  (rule_loop k entries).1 =
    filter (fun ie => accepted ie.2 = true) (imap (fun j e => (k + j, e)) entries).
Proof.
  revert k. induction entries as [|entry rest IH]; intros k; [reflexivity|].
  simpl. rewrite filter_cons.
  specialize (IH (S k)).
  destruct (rule_loop (S k) rest) as [passed all]. simpl in IH. subst passed.
  rewrite (imap_ext (fun j e => (S k + j, e)) ((fun j e => (k + j, e)) ∘ S))
    by (intros; simpl; f_equal; lia).
  rewrite Nat.add_0_r. simpl.
  assert (Ha : accepted entry = (validate_entry entry).1.1) by reflexivity.
  destruct (validate_entry entry) as [[v reason] st]. simpl in Ha. rewrite Ha.
  destruct v; reflexivity.
Qed.

(** What the rule stage returns, when it returns. *)
Lemma apply_rule_filtering_Ok entries passed rr :
  apply_rule_filtering entries = Ok (passed, rr) ->
  entries <> [] /\
  passed = filter (fun ie => accepted ie.2 = true) (imap (fun j e => (j, e)) entries) /\
  rr = imap rule_result_of entries.
Proof.
  unfold apply_rule_filtering.
  pose proof (rule_loop_results 0 entries) as Hr.
  pose proof (rule_loop_passed 0 entries) as Hp.
  destruct (rule_loop 0 entries) as [p a]. simpl in *.
  unfold percent. destruct entries as [|e entries]; [discriminate|].
  simpl. intros [= <- <-]. done.
Qed.

(** The results of the rule stage are one per record and carry their
    positions. *)
Lemma rule_results_indexed entries passed rr :
  apply_rule_filtering entries = Ok (passed, rr) ->
  length rr = length entries /\ forall i r, rr !! i = Some r -> index r = i.
Proof.
  intros Hr. apply apply_rule_filtering_Ok in Hr as (_ & _ & ->). split.
  - apply length_imap.
  - intros i r Hi. rewrite list_lookup_imap in Hi.
    destruct (entries !! i); [|discriminate]. by injection Hi as <-.
Qed.

(** The rule-passed entries carry distinct indices and are readable. *)
Lemma apply_rule_filtering_passed entries passed rr :
  apply_rule_filtering entries = Ok (passed, rr) ->
  NoDup passed.*1 /\ Forall (fun ie => is_Some (extract_texts ie.2)) passed.
Proof.
  intros Hr. apply apply_rule_filtering_Ok in Hr as (_ & -> & _). split.
  - apply (imap_filter_indices_NoDup (fun ie => accepted ie.2)).
  - apply Forall_forall. intros ie Hin. apply list_elem_of_filter in Hin as [Hacc _].
    by apply accepted_readable.
Qed.

Lemma keep_and_score_truthy ev min_score kept :
  keep_and_score ev min_score = Ok kept ->
  (py_truthy kept = true <->
   py_truthy (dict_get ev (py "keep") (VBool true)) = true /\
   py_ge_int (dict_get ev (py "score") (VInt 5)) min_score = Ok true).
Proof.
  unfold keep_and_score.
  destruct (py_truthy (dict_get ev (py "keep") (VBool true))) eqn:Hk.
  - destruct (py_ge_int _ _) as [b|e]; simpl; [|discriminate].
    intros [= <-]. simpl. split; [intros ->; done|]. by intros [_ [= ->]].
  - intros [= <-]. rewrite Hk. split; [discriminate|]. by intros [? _].
Qed.

(** C3: over the results of the rule stage, [merge_results] puts a
    rule-accepted record in the high-quality list if and only if its
    evaluation has a true keep and a score >= [min_score]; the evaluation of
    a record absent from the mapping is score 5, keep true, reason 'not
    evaluated'; the result carries the evaluation's score and reason; a
    rule-rejected record is in the low-quality list with its rule-stage
    result, score 0.  The function returns when the scores are numbers. *)
Theorem merge_results_placement (data_entries : list pyval)
    (ai_evaluations : gmap nat pydict) (config : ProcessingConfig)
    (passed_entries : list (nat * pyval)) (rule_results : list FilterResult) :
  apply_rule_filtering data_entries = Ok (passed_entries, rule_results) ->
  ((forall i ev, ai_evaluations !! i = Some ev -> numeric_score ev) ->
   exists high low,
     merge_results data_entries rule_results ai_evaluations config = Ok (high, low)) /\
  forall high low,
    merge_results data_entries rule_results ai_evaluations config = Ok (high, low) ->
    forall i entry, data_entries !! i = Some entry ->
      (accepted entry = true ->
         let ev :=
           default (mk_evaluation (VInt 5) (VBool true) (py "未进行AI评估"))
             (ai_evaluations !! i) in
         let keep := dict_get ev (py "keep") (VBool true) in
         let s := dict_get ev (py "score") (VInt 5) in
         ((exists r, r ∈ high /\ index r = i) <->
            py_truthy keep = true /\ py_ge_int s (min_score config) = Ok true) /\
         (exists r, r ∈ high ++ low /\ index r = i /\ score r = s /\
                    reason r = dict_get ev (py "reason") (VStr []) /\
                    stage r = py "ai_evaluation" /\
                    stats r = (validate_entry entry).2)) /\
      (accepted entry = false ->
         (exists r, r ∈ low /\ index r = i /\ is_kept r = VBool false /\
                    score r = VInt 0 /\ stage r = py "rule_filter" /\
                    reason r = VStr (validate_entry entry).1.2 /\
                    stats r = (validate_entry entry).2) /\
         (forall r, r ∈ high -> index r <> i)).
Proof.
  intros Hrule.
  destruct (rule_results_indexed _ _ _ Hrule) as [Hlen Hidx].
  apply apply_rule_filtering_Ok in Hrule as (_ & _ & ->).
  split.
  { intros Hnum. apply merge_loop_total; [|exact Hnum]. by rewrite Hlen. }
  intros high low Hmerge i entry Hentry.
  apply merge_results_decisions in Hmerge as (ds & Hdl & Hds & -> & -> & Hperm);
    [|exact Hidx].
  assert (Hnd : NoDup ((index <$> high_of ds) ++ (index <$> low_of ds))).
  { rewrite Hperm. apply NoDup_seq. }
  destruct (lookup_lt_is_Some_2 ds i) as [d Hd].
  { rewrite Hdl. by eapply lookup_lt_Some. }
  destruct (Hds i d Hd) as (r & Hr & Hone). simpl in Hr, Hone.
  rewrite list_lookup_imap, Hentry in Hr. injection Hr as <-.
  pose proof (decision_member ds i d Hd) as Hmem.
  apply NoDup_app in Hnd as (_ & Hdisj & _).
  unfold merge_one in Hone. simpl in Hone.
  split.
  - intros Hacc. rewrite Hacc in Hone. simpl in Hone.
    fold not_evaluated.
    destruct (keep_and_score (default not_evaluated (ai_evaluations !! i))
                (min_score config)) as [kept|e] eqn:Hk; simpl in Hone; [|discriminate].
    injection Hone as <-. simpl in Hmem.
    apply keep_and_score_truthy in Hk. split.
    + rewrite <- Hk. split.
      * intros (r & Hr & Hri). destruct (py_truthy kept) eqn:E; [done|].
        exfalso. apply (Hdisj i).
        -- apply list_elem_of_fmap. eauto.
        -- apply list_elem_of_fmap. eexists. split; [|exact Hmem]. reflexivity.
      * intros E. rewrite E in Hmem. eexists. split; [exact Hmem|reflexivity].
    + eexists. split.
      { apply elem_of_app. destruct (py_truthy kept); [left|right]; exact Hmem. }
      repeat split.
  - intros Hacc. rewrite Hacc in Hone. simpl in Hone. injection Hone as <-.
    simpl in Hmem. split.
    + eexists. split; [exact Hmem|]. unfold rule_result_of. rewrite Hacc. done.
    + intros r Hr Hri. apply (Hdisj i).
      * apply list_elem_of_fmap. eauto.
      * apply list_elem_of_fmap. eexists. split; [|exact Hmem]. reflexivity.
Qed.

Lemma merge_results_placement_witness :
  exists high low,
    merge_results sample_entries (imap rule_result_of sample_entries)
      sample_evaluations default_config = Ok (high, low) /\
    (exists r, r ∈ high /\ index r = 0) /\
    (forall r, r ∈ high -> index r <> 1) /\
    (forall r, r ∈ high -> index r <> 2).
Proof.
  destruct (merge_results_placement sample_entries sample_evaluations default_config
              [(0, breakfast_record); (2, towel_record)]
              (imap rule_result_of sample_entries)) as [Htotal Hplace].
  - vm_compute. reflexivity.
  - destruct Htotal as (high & low & Hm).
    + intros i ev Hi. unfold sample_evaluations in Hi.
      apply lookup_singleton_Some in Hi as [_ <-]. exact I.
    + exists high, low. split; [exact Hm|].
      destruct (Hplace high low Hm 0 breakfast_record eq_refl) as [H0 _].
      destruct (Hplace high low Hm 1 weather_record eq_refl) as [_ H1].
      destruct (Hplace high low Hm 2 towel_record eq_refl) as [H2 _].
      specialize (H0 ltac:(vm_compute; reflexivity)).
      specialize (H1 ltac:(vm_compute; reflexivity)).
      specialize (H2 ltac:(vm_compute; reflexivity)).
      split; [|split].
      * apply (proj1 H0). split; vm_compute; reflexivity.
      * exact (proj2 H1).
      * intros r Hr Hri.
        assert (Hex : exists r, r ∈ high /\ index r = 2) by eauto.
        apply (proj1 H2) in Hex as [_ Hge]. vm_compute in Hge. discriminate.
Defined.

(** ** The pipeline *)

Section Pipeline.
Context `{PythonRuntime} {disk : Type} `{!TextFiles disk}.

(** C10: when no record was loaded, [apply_rule_filtering] raises
    ZeroDivisionError while computing the pass rate; [filter_data] ends by
    re-raising it, not by the 'no data passed rule filtering' report, and
    no prompt was sent to the judgment service. *)
Theorem filter_data_empty_input (ai_manager : content_generator) (model_info : pyval)
    (as_completed : list (nat * batch) -> list (nat * batch))
    (total_processing_time : float) (fs : disk)
    (lines : list pystr) (output_file : pystr) (config : ProcessingConfig) :
  load_data lines (sample_size config) = Ok [] ->
  apply_rule_filtering [] = Raise (Exn ZeroDivisionError (py "division by zero")) /\
  filter_data ai_manager model_info as_completed total_processing_time fs lines
      output_file config =
    (Aborted (Exn ZeroDivisionError (py "division by zero")), []) /\
  (filter_data ai_manager model_info as_completed total_processing_time fs lines
      output_file config).1 <> NoRulePass.
Proof.
  intros Hload. split; [reflexivity|].
  unfold filter_data. rewrite Hload. simpl. split; [reflexivity|discriminate].
Qed.

(** With records loaded but none accepted, the run halts with the report
    and the service is not invoked either. *)
Lemma filter_data_none_passed ai_manager model_info as_completed
    total_processing_time (fs : disk) lines output_file config data_entries :
  load_data lines (sample_size config) = Ok data_entries ->
  data_entries <> [] ->
  Forall (fun e => accepted e = false) data_entries ->
  filter_data ai_manager model_info as_completed total_processing_time fs lines
      output_file config = (NoRulePass, []).
Proof.
  intros Hload Hne Hall. unfold filter_data. rewrite Hload.
  unfold apply_rule_filtering.
  pose proof (rule_loop_passed 0 data_entries) as Hp.
  destruct (rule_loop 0 data_entries) as [passed all]. simpl in Hp.
  assert (passed = []) as ->.
  { subst passed.
    destruct (filter _ _) as [|[j e] l] eqn:Ef; [reflexivity|exfalso].
    assert (Hin : (j, e) ∈ (j, e) :: l) by left. rewrite <- Ef in Hin.
    apply list_elem_of_filter in Hin as [Hacc Hin]. simpl in Hacc.
    apply list_elem_of_lookup in Hin as [k Hk]. rewrite list_lookup_imap in Hk.
    destruct (data_entries !! k) as [e'|] eqn:E; [|discriminate].
    injection Hk as <- <-.
    rewrite (proj1 (Forall_lookup _ _) Hall k e' E) in Hacc. discriminate. }
  unfold percent. destruct data_entries as [|e rest]; [done|]. reflexivity.
Qed.

(** X10: the outcome of a run (how it ends, and the results and saved
    documents) does not depend on the order in which the batches complete:
    the rule stage hands the coordinator distinct indices, and the evaluator
    answers each batch with indices of that batch. *)
Lemma filter_data_order_independent ai_manager model_info
    (completion1 completion2 : list (nat * batch) -> list (nat * batch))
    total_processing_time (fs : disk) lines output_file config :
  (forall futures, completion1 futures ≡ₚ futures) ->
  (forall futures, completion2 futures ≡ₚ futures) ->
  (filter_data ai_manager model_info completion1 total_processing_time fs lines
      output_file config).1 =
  (filter_data ai_manager model_info completion2 total_processing_time fs lines
      output_file config).1.
Proof.
  intros Hc1 Hc2. unfold filter_data.
  destruct (load_data lines (sample_size config)) as [data_entries|e]; [|reflexivity].
  destruct (apply_rule_filtering data_entries) as [[passed rr]|e] eqn:Hrule; [|reflexivity].
  case_bool_decide; [reflexivity|].
  destruct (apply_rule_filtering_passed _ _ _ Hrule) as [Hnd _].
  unfold apply_ai_evaluation. rewrite bool_decide_eq_false_2 by done.
  destruct (make_batches passed (batch_size config)) as [batches|e] eqn:Hb;
    simpl; [|reflexivity].
  destruct (thread_pool (max_workers config)) as [[]|e]; simpl; [|reflexivity].
  pose proof (collect_in_any_order (default_evaluator ai_manager) _ _ _
                (completion1 _) Hnd (default_evaluator_indices ai_manager) Hb (Hc1 _)) as E1.
  pose proof (collect_in_any_order (default_evaluator ai_manager) _ _ _
                (completion2 _) Hnd (default_evaluator_indices ai_manager) Hb (Hc2 _)) as E2.
  destruct (foldl _ _ (completion1 _)) as [m1 s1].
  destruct (foldl _ _ (completion2 _)) as [m2 s2].
  simpl in E1, E2. rewrite E1, E2.
  destruct (merge_results _ _ _ _) as [[high low]|e]; [|reflexivity].
  destruct (save_results _ _ _ _) as [fs1 [saved|e]]; [|reflexivity].
  destruct (generate_report _ _ _ _ _ _) as [report|e]; [|reflexivity].
  destruct (save_report _ _ _) as [fs2 [[]|e]]; reflexivity.
Qed.

End Pipeline.

Lemma filter_data_empty_input_witness :
  @load_data Reference.runtime [py "not a record"; newline] None = Ok [] /\
  sample_run scoring_service id [py "not a record"; newline] default_config =
    (Aborted (Exn ZeroDivisionError (py "division by zero")), []).
Proof.
  split; [vm_compute; reflexivity|].
  apply (@filter_data_empty_input Reference.runtime (list pystr) sample_files
           scoring_service sample_model_info id 2.5%float run_disk
           [py "not a record"; newline] sample_output default_config).
  vm_compute. reflexivity.
Defined.

(** A run over four lines: the malformed one is skipped, the weather record
    fails the rule stage, and one batch goes to the service, which keeps the
    first record of the batch (score 8) and rejects the second (score 3). *)
Example filter_data_sample_run :
  exists r0 low prompt,
    sample_run scoring_service id sample_lines default_config =
      (Completed [r0] low [breakfast_record], [prompt]) /\
    index r0 = 0 /\ score r0 = VInt 8 /\
    reason r0 = VStr (py "AI评估-批次0(分数:8)") /\
    index <$> low = [1; 2] /\ score <$> low = [VInt 0; VInt 3].
Proof. vm_compute. eexists _, _, _. repeat split. Qed.

(** The same run with a clock reading of zero: the output file is written,
    then the report raises ZeroDivisionError.  And a document holding a lone
    surrogate, which [json.loads] accepts in escaped form, cannot be saved. *)
Example filter_data_sample_endings :
  (exists prompt,
     @filter_data Reference.runtime (list pystr) sample_files scoring_service
       sample_model_info id 0%float run_disk sample_lines sample_output
       default_config =
       (Aborted (Exn ZeroDivisionError (py "float division by zero")), [prompt])) /\
  (exists fs1,
     save_results run_disk [VStr [55357%N]]
       [mkFilterResult 0 (VBool true) (VInt 8) (VStr []) (py "ai_evaluation") zero_stats]
       sample_output =
       (fs1, Raise (Exn UnicodeEncodeError
                      (py "'utf-8' codec can't encode character: surrogates not allowed")))).
Proof. split; vm_compute; eexists; reflexivity. Qed.

(** * Further properties of the code *)

(** ** The bracket pattern of the response parser *)

Lemma until_close_Some s m :
  until_close s = Some m <->
  exists body rest, s = body ++ 93%N :: rest /\ ~ (93%N ∈ body) /\ m = body ++ [93%N].
Proof.
  revert m. induction s as [|c r IH]; intros m; simpl.
  - split; [discriminate|]. intros (body & rest & E & _). by destruct body.
  - destruct (N.eqb_spec c 93) as [->|Hc].
    + split.
      * intros [= <-]. exists [], r. split; [reflexivity|]. split; [|reflexivity].
        apply not_elem_of_nil.
      * intros (body & rest & E & Hn & ->). destruct body as [|b body].
        -- reflexivity.
        -- injection E as <- _. exfalso. apply Hn. left.
    + split.
      * destruct (until_close r) as [m'|]; simpl; [|discriminate].
        intros [= <-]. destruct (proj1 (IH m') eq_refl) as (body & rest & -> & Hn & ->).
        exists (c :: body), rest. split; [reflexivity|]. split; [|reflexivity].
        intros [E|E]%elem_of_cons; [by apply Hc|by apply Hn].
      * intros (body & rest & E & Hn & ->). destruct body as [|b body].
        { injection E as -> _. done. }
        injection E as <- ->.
        rewrite (proj2 (IH (body ++ [93%N]))); [reflexivity|].
        exists body, rest. split; [reflexivity|].
        split; [|reflexivity]. intros E. apply Hn. by right.
Qed.

Lemma until_close_None s : until_close s = None <-> ~ (93%N ∈ s).
Proof.
  induction s as [|c r IH]; simpl.
  - split; [intros _; apply not_elem_of_nil|reflexivity].
  - destruct (N.eqb_spec c 93) as [->|Hc].
    + split; [discriminate|]. intros Hn. exfalso. apply Hn. left.
    + split.
      * destruct (until_close r) as [m|]; simpl; [discriminate|].
        intros _ [E|E]%elem_of_cons; [by apply Hc|]. by apply (proj1 IH).
      * intros Hn. rewrite (proj2 IH); [reflexivity|]. intros E. apply Hn. by right.
Qed.

Lemma re_search_array_None text :
  re_search_array text = None <->
  forall pre mid post, text <> pre ++ 91%N :: mid ++ 93%N :: post.
Proof.
  induction text as [|c r IH]; simpl.
  - split; [|reflexivity]. intros _ pre mid post E. by destruct pre.
  - assert (Hshift : (forall pre mid post, r <> pre ++ 91%N :: mid ++ 93%N :: post) <->
                     (forall pre mid post, c :: r <> (c :: pre) ++ 91%N :: mid ++ 93%N :: post)).
    { split; intros Hn pre mid post E.
      - injection E as E. by apply (Hn pre mid post).
      - apply (Hn pre mid post). simpl. by f_equal. }
    destruct (N.eqb_spec c 91) as [->|Hc].
    + destruct (until_close r) as [m|] eqn:Er.
      * split; [discriminate|]. intros Hn. exfalso.
        apply until_close_Some in Er as (body & rest & -> & _).
        by apply (Hn [] body rest).
      * rewrite IH. apply until_close_None in Er. split.
        -- intros Hn pre mid post E. destruct pre as [|p pre].
           ++ injection E as ->. apply Er. apply elem_of_app. right. left.
           ++ injection E as <- ->. by apply (Hn pre mid post).
        -- intros Hn pre mid post ->. by apply (Hn (91%N :: pre) mid post).
    + rewrite IH. split.
      * intros Hn pre mid post E. destruct pre as [|p pre].
        -- injection E as -> _. done.
        -- injection E as <- ->. by apply (Hn pre mid post).
      * intros Hn pre mid post ->. by apply (Hn (c :: pre) mid post).
Qed.

Lemma re_search_array_Some text m :
  re_search_array text = Some m <->
  exists pre body post,
    text = pre ++ 91%N :: body ++ 93%N :: post /\
    ~ (91%N ∈ pre) /\ ~ (93%N ∈ body) /\ m = 91%N :: body ++ [93%N].
Proof.
  split.
  - revert m. induction text as [|c r IH]; intros m; simpl; [discriminate|].
    destruct (N.eqb_spec c 91) as [->|Hc].
    + destruct (until_close r) as [m'|] eqn:Er.
      * intros [= <-]. apply until_close_Some in Er as (body & rest & -> & Hn & ->).
        exists [], body, rest. split; [reflexivity|].
        split; [apply not_elem_of_nil|]. split; [exact Hn|reflexivity].
      * intros Hr. exfalso. apply until_close_None in Er. apply Er.
        destruct (IH _ Hr) as (pre & body & post & -> & _).
        apply elem_of_app. right. right. apply elem_of_app. right. left.
    + intros Hr. destruct (IH _ Hr) as (pre & body & post & -> & Hp & Hb & ->).
      exists (c :: pre), body, post. split; [reflexivity|].
      split; [|split; [exact Hb|reflexivity]].
      intros [E|E]%elem_of_cons; [by apply Hc|by apply Hp].
  - intros (pre & body & post & -> & Hp & Hb & ->).
    induction pre as [|p pre IH]; simpl.
    + rewrite (proj2 (until_close_Some (body ++ 93%N :: post) (body ++ [93%N])));
        [reflexivity|].
      exists body, post. split; [reflexivity|]. split; [exact Hb|reflexivity].
    + destruct (N.eqb_spec p 91) as [->|Hc].
      { exfalso. apply Hp. left. }
      apply IH. intros E. apply Hp. by right.
Qed.

(** X1: what the bracket pattern of the response parser matches.  The match
    is the leftmost-shortest bracketed span: it starts at the first opening
    bracket of the text, ends at the first closing bracket after it, and the
    search fails exactly when no opening bracket is followed by a closing
    one.  A nested array is therefore cut at its first inner closing bracket. *)
Theorem re_search_array_leftmost_shortest (text : pystr) :
  (forall m, re_search_array text = Some m <->
     exists pre body post,
       text = pre ++ 91%N :: body ++ 93%N :: post /\
       ~ (91%N ∈ pre) /\ ~ (93%N ∈ body) /\ m = 91%N :: body ++ [93%N]) /\
  (re_search_array text = None <->
     forall pre mid post, text <> pre ++ 91%N :: mid ++ 93%N :: post).
Proof. split; [apply re_search_array_Some|apply re_search_array_None]. Qed.

(** ** RuleValidator: reasons and statistics *)

Lemma check_texts_Ok_str question answer r :
  check_texts question answer = Ok r -> exists q a, question = VStr q /\ answer = VStr a.
Proof.
  unfold check_texts. intros Hc.
  destruct answer; try (destruct question; simpl in Hc; try discriminate;
     repeat match type of Hc with
       | context [if ?b then _ else _] => destruct b; simpl in Hc
       end; discriminate).
  destruct question; simpl in Hc; try discriminate; eauto.
  - destruct (existsb _ l); simpl in Hc; discriminate.
  - destruct (existsb _ d); simpl in Hc; discriminate.
Qed.

Lemma check_texts_value q a :
  check_texts (VStr q) (VStr a) =
    Ok (domain_relevant q a && (failed_checks q a <=? 1),
        if bool_decide (diagnostics q a = []) then py "通过规则检查"
        else join (py "; ") (diagnostics q a),
        mkFilterStats (length q) (length a) (has_marker q) (domain_relevant q a)
          (filter (fun kw => str_contains kw (q ++ a) = true) HOTEL_KEYWORDS)).
Proof.
  unfold check_texts. simpl.
  assert (Hm : (if str_contains (py "？") q then Ok true
                else Ok (str_contains (py "?") q)) = Ok (has_marker q)).
  { unfold has_marker. destruct (str_contains (py "？") q); reflexivity. }
  rewrite Hm. simpl.
  rewrite existsb_filter_length. fold (domain_relevant q a).
  unfold diagnostics.
  assert (E : (if negb (domain_relevant q a) then [py "与酒店服务不相关"] else []) =
              (if domain_relevant q a then [] else [py "与酒店服务不相关"])).
  { by destruct (domain_relevant q a). }
  rewrite E, length_app, length_issues_count.
  destruct (domain_relevant q a); simpl.
  - rewrite Nat.add_0_r, andb_true_r. reflexivity.
  - rewrite andb_false_r. reflexivity.
Qed.

Lemma validate_entry_no_texts entry :
  record_texts entry = None ->
  exists reason, validate_entry entry = (false, reason, zero_stats) /\
    (reason = py "数据格式错误：缺少问答内容" \/
     exists e, reason = py "处理错误: " ++ exn_str e).
Proof.
  unfold record_texts, extract_texts, validate_entry, validate_body.
  destruct (py_get entry "contents" (VList [])) as [contents|e]; simpl; [|by eauto].
  destruct (py_len contents) as [n|e]; simpl; [|by eauto].
  destruct (n <? 2); [by eauto|].
  destruct (turn_text contents 0) as [question|e]; simpl; [|by eauto].
  destruct (turn_text contents 1) as [answer|e]; simpl; [|by eauto].
  intros Hn. destruct (check_texts question answer) as [r|e] eqn:Hc; [|by eauto].
  apply check_texts_Ok_str in Hc as (q & a & -> & ->). discriminate.
Qed.

Lemma validate_entry_texts entry q a :
  record_texts entry = Some (q, a) ->
  validate_entry entry =
    (domain_relevant q a && (failed_checks q a <=? 1),
     if bool_decide (diagnostics q a = []) then py "通过规则检查"
     else join (py "; ") (diagnostics q a),
     mkFilterStats (length q) (length a) (has_marker q) (domain_relevant q a)
       (filter (fun kw => str_contains kw (q ++ a) = true) HOTEL_KEYWORDS)).
Proof.
  intros Ht. unfold record_texts in Ht. unfold validate_entry.
  pose proof (validate_body_texts entry) as Hb.
  destruct (extract_texts entry) as [[question answer]|]; [|discriminate].
  destruct question; try discriminate. destruct answer; try discriminate.
  injection Ht as -> ->. rewrite Hb, check_texts_value. reflexivity.
Qed.

(** X2: the statistics [validate_entry] returns with its verdict.  For a
    record with a question and an answer they are the two lengths, the
    question-marker flag, the relevance flag and the keywords found, in the
    order of the keyword list; for any other record (too few turns, or an
    exception while reading or checking it) they are all zero.  The relevance
    flag is set exactly when a keyword was found, every keyword found is a
    domain keyword, and an accepted record is flagged relevant. *)
Theorem validate_entry_stats (entry : pyval) :
  (validate_entry entry).2 =
    match record_texts entry with
    | Some (q, a) =>
        mkFilterStats (length q) (length a) (has_marker q) (domain_relevant q a)
          (filter (fun kw => str_contains kw (q ++ a) = true) HOTEL_KEYWORDS)
    | None => zero_stats
    end /\
  (is_hotel_related (validate_entry entry).2 = true <->
   hotel_keywords_found (validate_entry entry).2 <> []) /\
  hotel_keywords_found (validate_entry entry).2 ⊆ HOTEL_KEYWORDS /\
  (accepted entry = true -> is_hotel_related (validate_entry entry).2 = true).
Proof.
  unfold accepted.
  destruct (record_texts entry) as [[q a]|] eqn:Ht.
  - rewrite (validate_entry_texts _ _ _ Ht). simpl.
    split; [reflexivity|]. split; [|split].
    + unfold domain_relevant. rewrite <- existsb_filter_length.
      destruct (filter _ HOTEL_KEYWORDS); simpl; split; done.
    + intros kw Hkw%list_elem_of_filter. tauto.
    + intros [? _]%andb_true_iff. done.
  - destruct (validate_entry_no_texts _ Ht) as (reason & -> & _). simpl.
    split; [reflexivity|]. split; [split; done|]. split; [|done].
    apply list_subseteq_nil.
Qed.

Ltac eval_py :=
  repeat match goal with
         | |- context [py ?s] =>
             let v := eval vm_compute in (py s) in change (py s) with v
         end.

Lemma join_head sep (d : pystr) ds :
  d <> [] -> head (join sep (d :: ds)) = head d.
Proof. destruct d as [|c d]; [done|]. intros _. destruct ds; reflexivity. Qed.

(** Every diagnostic starts with a character other than the first one of the
    pass message. *)
Lemma diagnostics_head q a d :
  d ∈ diagnostics q a -> d <> [] /\ head d <> head (py "通过规则检查").
Proof.
  unfold diagnostics, length_issues. rewrite !elem_of_app.
  intros Hd.
  repeat match type of Hd with
         | _ \/ _ => destruct Hd as [Hd|Hd]
         end;
    match type of Hd with
    | _ ∈ (if ?b then _ else _) => destruct b
    end;
    try (by apply elem_of_nil in Hd);
    apply list_elem_of_singleton in Hd as ->; eval_py; simpl; split; discriminate.
Qed.

Lemma diagnostics_length q a :
  length (diagnostics q a) =
    failed_checks q a + (if domain_relevant q a then 0 else 1).
Proof.
  unfold diagnostics. rewrite length_app, length_issues_count.
  by destruct (domain_relevant q a).
Qed.

(** X3: the reason of a verdict is the pass message '通过规则检查' exactly
    when the record has a question and an answer, is domain-relevant and
    fails none of the four other checks.  A domain-relevant record with
    exactly one failed check is accepted and carries that check's diagnostic
    as its reason: the question length, the answer length, the missing
    question marker or the too short answer content. *)
Theorem validate_entry_pass_reason (entry : pyval) :
  ((validate_entry entry).1.2 = py "通过规则检查" <->
   exists q a, record_texts entry = Some (q, a) /\
               domain_relevant q a = true /\ failed_checks q a = 0) /\
  (forall q a, record_texts entry = Some (q, a) ->
     domain_relevant q a = true -> failed_checks q a = 1 ->
     accepted entry = true /\
     (validate_entry entry).1.2 =
       if negb ((8 <=? length q) && (length q <=? 120))
       then py "问题长度异常(" ++ str_of_nat (length q) ++ py "字符)"
       else if negb ((30 <=? length a) && (length a <=? 1200))
       then py "回答长度异常(" ++ str_of_nat (length a) ++ py "字符)"
       else if negb (has_marker q) then py "问题缺少疑问标记"
       else py "回答内容过短").
Proof.
  split.
  - destruct (record_texts entry) as [[q a]|] eqn:Ht.
    + rewrite (validate_entry_texts _ _ _ Ht). simpl.
      pose proof (diagnostics_length q a) as Hl.
      case_bool_decide as Hd.
      * rewrite Hd in Hl. simpl in Hl. split; [intros _|done].
        exists q, a. split; [reflexivity|].
        destruct (domain_relevant q a); [split; [done|lia]|lia].
      * split.
        -- intros E. exfalso. destruct (diagnostics q a) as [|d ds] eqn:Ed; [done|].
           destruct (diagnostics_head q a d) as [Hne Hh]; [rewrite Ed; left|].
           apply Hh. rewrite <- E. symmetry. by apply join_head.
        -- intros (q' & a' & [= <- <-] & Hrel & Hf). exfalso. apply Hd.
           rewrite Hrel, Hf in Hl. by destruct (diagnostics q a).
    + split; [|by intros (q & a & ? & _)].
      destruct (validate_entry_no_texts _ Ht) as (reason & -> & [->|[e ->]]); simpl.
      * eval_py. discriminate.
      * eval_py. discriminate.
  - intros q a Ht Hrel Hf. unfold accepted.
    rewrite (validate_entry_texts _ _ _ Ht). cbn [fst snd].
    rewrite Hrel, Hf. split; [reflexivity|].
    unfold diagnostics. rewrite Hrel, app_nil_r.
    unfold failed_checks in Hf.
    unfold length_issues, MIN_QUESTION_LENGTH, MAX_QUESTION_LENGTH, MIN_ANSWER_LENGTH,
      MAX_ANSWER_LENGTH, MIN_ANSWER_CONTENT_LENGTH.
    destruct ((8 <=? length q) && (length q <=? 120));
      destruct ((30 <=? length a) && (length a <=? 1200));
      destruct (has_marker q);
      destruct (Nat.leb_spec 20 (length (strip a))) as [H4|H4];
      cbn [negb Nat.add] in Hf |- *; try lia;
      (rewrite (proj2 (Nat.ltb_lt _ _) H4) || rewrite (proj2 (Nat.ltb_ge _ _) H4));
      cbn [app]; (rewrite bool_decide_eq_false_2 by discriminate);
      cbn [join]; reflexivity.
Qed.

(** A relevant record whose question has 7 characters. *)
Lemma validate_entry_pass_reason_witness :
  accepted short_question_record = true /\
  (validate_entry short_question_record).1.2 = py "问题长度异常(7字符)".
Proof.
  destruct (proj2 (validate_entry_pass_reason short_question_record)
              (py "早餐几点开始？")
              (py "我们酒店的早餐供应时间是每天早上6:30到10:00，周末延长到10:30。早餐在一楼餐厅提供，包含中西式各种选择。"))
    as [Hacc Hreason].
  - vm_compute. reflexivity.
  - vm_compute. reflexivity.
  - vm_compute. reflexivity.
  - split; [exact Hacc|]. rewrite Hreason. vm_compute. reflexivity.
Defined.

(** ** Loading the input file *)

Section Loader.
Context `{PythonRuntime}.

Lemma load_loop_unlimited sample_size lines acc :
  (forall line e, line ∈ lines -> json_loads (strip line) = Raise e ->
                  exn_cls e = JSONDecodeError) ->
  match sample_size with
  | Some k => (k = 0)%Z
  | None => True
  end ->
  load_loop sample_size lines acc = Ok (acc ++ decoded_lines lines).
Proof.
  intros Hjson Hk. revert acc. induction lines as [|line rest IH]; intros acc; simpl.
  - by rewrite app_nil_r.
  - unfold decoded_lines. simpl. fold (decoded_lines rest).
    assert (Hrest : forall l e, l ∈ rest -> json_loads (strip l) = Raise e ->
                                exn_cls e = JSONDecodeError).
    { intros l e Hl. apply Hjson. by right. }
    specialize (IH Hrest).
    destruct (json_loads (strip line)) as [entry|e] eqn:El.
    + assert (Hstop : match sample_size with
                      | Some k => negb (k =? 0)%Z &&
                                  (k <=? Z.of_nat (length (acc ++ [entry])))%Z
                      | None => false
                      end = false).
      { destruct sample_size as [k|]; [|reflexivity]. subst k. reflexivity. }
      rewrite Hstop, IH, <- app_assoc. reflexivity.
    + rewrite (Hjson line e); [apply IH|left|done].
Qed.

Lemma load_loop_limited k n lines acc :
  (forall line e, line ∈ lines -> json_loads (strip line) = Raise e ->
                  exn_cls e = JSONDecodeError) ->
  (k <> 0)%Z -> (Z.of_nat (length acc) < k \/ acc = [])%Z ->
  n = Z.to_nat (Z.max k 1) - length acc ->
  load_loop (Some k) lines acc = Ok (acc ++ take n (decoded_lines lines)).
Proof.
  intros Hjson Hk. revert acc n. induction lines as [|line rest IH]; intros acc n Hacc ->; simpl.
  - by rewrite take_nil, app_nil_r.
  - unfold decoded_lines. simpl. fold (decoded_lines rest).
    assert (Hrest : forall l e, l ∈ rest -> json_loads (strip l) = Raise e ->
                                exn_cls e = JSONDecodeError).
    { intros l e Hl. apply Hjson. by right. }
    specialize (IH Hrest).
    destruct (json_loads (strip line)) as [entry|e] eqn:El.
    + rewrite length_app. simpl.
      destruct (k =? 0)%Z eqn:E0; [apply Z.eqb_eq in E0; done|]. simpl.
      destruct (k <=? Z.of_nat (length acc + 1))%Z eqn:Ele.
      * apply Z.leb_le in Ele.
        assert (Z.to_nat (Z.max k 1) - length acc = 1) as ->.
        { destruct Hacc as [Hacc| ->]; simpl in *; lia. }
        simpl. by rewrite take_0.
      * apply Z.leb_gt in Ele.
        rewrite (IH (acc ++ [entry]) (Z.to_nat (Z.max k 1) - length (acc ++ [entry]))).
        -- rewrite <- app_assoc. simpl. f_equal.
           rewrite length_app. simpl.
           replace (Z.to_nat (Z.max k 1) - length acc)
             with (S (Z.to_nat (Z.max k 1) - (length acc + 1))) by lia.
           reflexivity.
        -- left. rewrite length_app. simpl. lia.
        -- reflexivity.
    + rewrite (Hjson line e); [by apply IH|left|done].
Qed.

(** X4: when decoding a line can only fail with a JSON decode error,
    [load_data] returns the documents of the lines that decode, in file
    order, cut by the sample size: a positive size [k] keeps the first [k]
    documents, size 0 counts as no limit, and a negative size stops the
    loading after the first document. *)
Theorem load_data_sample (lines : list pystr) (sample_size : option Z) :
  (forall line e, line ∈ lines -> json_loads (strip line) = Raise e ->
                  exn_cls e = JSONDecodeError) ->
  load_data lines sample_size = Ok (sample_of sample_size (decoded_lines lines)).
Proof.
  intros Hjson. unfold load_data, sample_of.
  destruct sample_size as [k|].
  - destruct (Z.eqb_spec k 0) as [->|Hk].
    + by rewrite load_loop_unlimited.
    + rewrite (load_loop_limited k (Z.to_nat (Z.max k 1))); [|done|done|by right|simpl; lia].
      simpl. destruct (Z.ltb_spec k 0).
      * by replace (Z.to_nat (Z.max k 1)) with 1 by lia.
      * by replace (Z.to_nat (Z.max k 1)) with (Z.to_nat k) by lia.
  - by rewrite load_loop_unlimited.
Qed.

End Loader.

Lemma load_data_sample_witness :
  @load_data Reference.runtime sample_lines (Some 2%Z) =
    Ok [breakfast_record; weather_record].
Proof.
  apply (@load_data_sample Reference.runtime sample_lines (Some 2%Z)).
  intros line e Hline.
  repeat (apply elem_of_cons in Hline as [->|Hline]);
    try (by apply elem_of_nil in Hline);
    vm_compute; intros [= <-]; reflexivity.
Defined.

(** ** Batching *)

Lemma chunks_concat {A} (l : list A) bs c :
  concat (map (fun i => take bs (drop i l)) (map (fun k => k * bs) (seq 0 c))) =
  take (c * bs) l.
Proof.
  induction c as [|c IH]; [reflexivity|].
  rewrite seq_S, !map_app, concat_app, IH. simpl. rewrite app_nil_r.
  rewrite take_take_drop. f_equal. lia.
Qed.

Lemma ceil_div_bounds n bs :
  0 < bs ->
  n <= (n + bs - 1) / bs * bs /\
  forall k, k < (n + bs - 1) / bs -> k * bs < n.
Proof.
  intros Hbs. pose proof (Nat.div_mod_eq (n + bs - 1) bs) as E.
  pose proof (Nat.mod_upper_bound (n + bs - 1) bs ltac:(lia)) as Hr.
  split; [nia|]. intros k Hk. nia.
Qed.

(** With a positive batch size the batches are consecutive slices of the
    accepted records. *)
Lemma make_batches_slices (passed_entries : batch) (batch_size : Z) :
  (0 < batch_size)%Z ->
  exists batches,
    make_batches passed_entries batch_size = Ok batches /\
    concat batches = passed_entries /\
    Forall (fun b => 0 < length b <= Z.to_nat batch_size) batches /\
    (forall k b, batches !! k = Some b -> S k < length batches ->
                 length b = Z.to_nat batch_size).
Proof.
  intros Hbs. unfold make_batches, range_step.
  destruct (Z.eqb_spec batch_size 0) as [|_]; [lia|].
  destruct (Z.ltb_spec batch_size 0) as [|_]; [lia|].
  set (bs := Z.to_nat batch_size). assert (Hpos : 0 < bs) by (unfold bs; lia).
  set (n := length passed_entries).
  destruct (ceil_div_bounds n bs Hpos) as [Hcover Hstart].
  eexists. split; [reflexivity|]. split; [|split].
  - rewrite chunks_concat. by apply take_ge.
  - apply Forall_forall. intros b Hb.
    apply list_elem_of_fmap in Hb as (i & -> & Hi).
    apply list_elem_of_fmap in Hi as (k & -> & Hk).
    apply elem_of_seq in Hk. rewrite length_take, length_drop.
    specialize (Hstart k ltac:(lia)). fold n. lia.
  - intros k b Hb Hlast. rewrite !length_map, length_seq in Hlast.
    rewrite !list_lookup_fmap in Hb.
    destruct (seq 0 _ !! k) as [k'|] eqn:Ek; [|discriminate].
    apply lookup_seq in Ek as [-> _]. simpl in Hb. injection Hb as <-.
    rewrite length_take, length_drop. specialize (Hstart (S k) Hlast).
    fold n. lia.
Qed.

(** X5: with a positive batch size, the batches of the coordinator are
    consecutive slices of the accepted records: concatenated in order they
    give the accepted records back, none is empty or larger than the batch
    size, and every batch but the last has exactly the batch size. *)
Theorem make_batches_partition (passed_entries : batch) (batch_size : Z) :
  (0 < batch_size)%Z ->
  exists batches,
    make_batches passed_entries batch_size = Ok batches /\
    concat batches = passed_entries /\
    Forall (fun b => 0 < length b <= Z.to_nat batch_size) batches /\
    (forall k b, batches !! k = Some b -> S k < length batches ->
                 length b = Z.to_nat batch_size).
Proof. apply make_batches_slices. Qed.

Lemma make_batches_partition_witness :
  exists batches,
    make_batches sample_passed 2 = Ok batches /\
    concat batches = sample_passed /\
    Forall (fun b => 0 < length b <= Z.to_nat 2) batches /\
    (forall k b, batches !! k = Some b -> S k < length batches ->
                 length b = Z.to_nat 2).
Proof. apply (make_batches_partition sample_passed 2). lia. Defined.

(** ** BatchEvaluator: answered batches *)

Section Answered.
Context `{PythonRuntime}.

(** The score of a parsed item went through the comparison with 7, so it is
    a number. *)
Lemma standardize_item_number evaluations i item :
  standardize_item evaluations i = Ok item ->
  exists s k, item = mk_evaluation s k (ai_reason s) /\ is_number s = true.
Proof.
  unfold standardize_item.
  destruct (py_len evaluations) as [n|e]; simpl; [|discriminate].
  destruct (i <? n).
  - destruct (py_index evaluations i) as [v|e]; simpl; [|discriminate].
    destruct (py_get v "score" (VInt 7)) as [s|e]; simpl; [|discriminate].
    destruct (py_ge_int s 7) as [b|e] eqn:Hge; simpl; [|discriminate].
    destruct (py_get v "keep" (VBool b)) as [k|e]; simpl; [|discriminate].
    intros [= <-]. exists s, k. split; [reflexivity|].
    destruct s; simpl in Hge; try discriminate; reflexivity.
  - simpl. intros [= <-]. eauto.
Qed.

Lemma parse_items_number text n item :
  item ∈ parse_ai_response text n ->
  exists s k r, item = mk_evaluation s k r /\ is_number s = true.
Proof.
  unfold parse_ai_response. intros Hin.
  destruct (parse_body text n) as [out|e] eqn:Hb.
  - apply list_elem_of_lookup in Hin as [i Hi].
    destruct (parse_body_item _ _ _ _ _ Hb Hi) as (evaluations & _ & _ & Hs).
    destruct (standardize_item_number _ _ _ Hs) as (s & k & -> & Hn). eauto.
  - apply elem_of_replicate in Hin as [-> _]. unfold parse_failure. eauto.
Qed.

(** The results of a batch the service answered. *)
Lemma evaluate_batch_results ai_manager entries batch_id prompt text :
  valid_entries entries <> [] ->
  create_evaluation_prompt (valid_entries entries).*2 = Ok prompt ->
  ai_manager prompt = Ok text ->
  exists results,
    evaluate_batch ai_manager entries batch_id = (results, [prompt]) /\
    results.*1 = (valid_entries entries).*1.*1 /\
    forall i original_index evaluation,
      results !! i = Some (original_index, evaluation) ->
      exists s k r,
        parse_ai_response text (length (valid_entries entries)) !! i =
          Some (mk_evaluation s k r) /\
        is_number s = true /\
        evaluation = mk_evaluation s k (batch_reason batch_id s).
Proof.
  intros Hne Hp Ha.
  destruct (evaluate_batch_answered ai_manager entries batch_id prompt text Hne Hp Ha)
    as (results & Hr & He).
  exists results. split; [exact He|].
  destruct (build_results_ok batch_id (valid_entries entries).*1
              (parse_ai_response text (length (valid_entries entries))))
    as (results' & Hr' & Hfst).
  { by rewrite parse_ai_response_length, !length_fmap. }
  { apply parse_items_have_score. }
  rewrite Hr in Hr'. injection Hr' as <-. split; [exact Hfst|].
  intros i idx ev Hi. unfold build_results in Hr.
  destruct (result_mapM_lookup _ _ _ _ _ Hr Hi) as ([j ie] & Hx & Hf).
  rewrite list_lookup_imap in Hx.
  destruct ((valid_entries entries).*1 !! i) as [ie'|]; [|discriminate].
  injection Hx as <- <-. simpl in Hf.
  destruct (parse_ai_response text _ !! i) as [item|] eqn:Hitem; [|discriminate].
  destruct (parse_items_number text (length (valid_entries entries)) item)
    as (s & k & r & -> & Hn).
  { eapply list_elem_of_lookup_2. exact Hitem. }
  simpl in Hf. injection Hf as <- <-. exists s, k, r. done.
Qed.

(** X6: when some record of a batch is readable and the service answers
    the prompt, [evaluate_batch] returns one evaluation per readable record,
    in batch order, under the record's original index.  Score and keep flag
    are those of the parser's item at the same position, the score is a
    number, and the reason is always the batch template 'AI评估-批次<id>(分数:
    <score>)': a reason written by the parser, the parse-failure one
    included, never reaches the caller. *)
Theorem evaluate_batch_success (ai_manager : content_generator)
    (entries : list (nat * pyval)) (batch_id : nat) (prompt text : pystr) :
  valid_entries entries <> [] ->
  create_evaluation_prompt (valid_entries entries).*2 = Ok prompt ->
  ai_manager prompt = Ok text ->
  exists results,
    evaluate_batch ai_manager entries batch_id = (results, [prompt]) /\
    results.*1 = (valid_entries entries).*1.*1 /\
    forall i original_index evaluation,
      results !! i = Some (original_index, evaluation) ->
      exists s k r,
        parse_ai_response text (length (valid_entries entries)) !! i =
          Some (mk_evaluation s k r) /\
        is_number s = true /\
        evaluation =
          mk_evaluation s k
            (py "AI评估-批次" ++ str_of_nat batch_id ++ py "(分数:" ++
             py_format s ++ py ")").
Proof. apply evaluate_batch_results. Qed.

(** With every record readable, a batch is answered for each of its
    records, in batch order, whatever the service does. *)
Lemma evaluate_batch_all_readable ai_manager entries batch_id :
  Forall (fun ie => is_Some (extract_texts ie.2)) entries ->
  (evaluate_batch ai_manager entries batch_id).1.*1 = entries.*1.
Proof.
  intros Hall. pose proof (valid_entries_all entries Hall) as Hv.
  unfold evaluate_batch.
  case_bool_decide as Hnil; [by subst|].
  case_bool_decide.
  { cbn [fst]. by rewrite (fst_map_pair (fun _ => format_error)). }
  assert (Hfailed : forall e,
    (map (fun ie : nat * pyval => (ie.1, batch_failure batch_id e))
       (valid_entries entries).*1).*1 = entries.*1).
  { intros e. rewrite (fst_map_pair (fun _ => batch_failure batch_id e)), Hv. done. }
  destruct (create_evaluation_prompt _) as [prompt|e]; [|apply Hfailed].
  destruct (ai_manager prompt) as [text|e]; [|apply Hfailed].
  destruct (build_results_ok batch_id (valid_entries entries).*1
              (parse_ai_response text (length (valid_entries entries))))
    as (results & -> & Hfst).
  - by rewrite parse_ai_response_length, !length_fmap.
  - apply parse_items_have_score.
  - simpl. rewrite Hfst, Hv. reflexivity.
Qed.

(** The service is called at most once for a batch. *)
Lemma evaluate_batch_one_call ai_manager entries batch_id :
  length (evaluate_batch ai_manager entries batch_id).2 <= 1.
Proof.
  unfold evaluate_batch.
  repeat case_bool_decide; simpl; try lia.
  destruct (create_evaluation_prompt _) as [prompt|e]; simpl; [|lia].
  destruct (ai_manager prompt) as [text|e]; simpl; [|lia].
  destruct (build_results _ _ _); simpl; lia.
Qed.

(** Every evaluation a batch returns has the three keys and a numeric score. *)
Lemma evaluate_batch_evaluation ai_manager entries batch_id i ev :
  (i, ev) ∈ (evaluate_batch ai_manager entries batch_id).1 ->
  exists s k r, ev = mk_evaluation s k r /\ is_number s = true.
Proof.
  assert (Hfailed : forall e (l : list (nat * pyval)),
    (i, ev) ∈ map (fun ie : nat * pyval => (ie.1, batch_failure batch_id e)) l ->
    exists s k r, ev = mk_evaluation s k r /\ is_number s = true).
  { intros e l (ie & [= _ ->] & _)%list_elem_of_fmap. unfold batch_failure. eauto. }
  unfold evaluate_batch.
  case_bool_decide as Hnil; [by intros ?%elem_of_nil|].
  case_bool_decide as Hv.
  { cbn [fst]. intros (ie & [= _ ->] & _)%list_elem_of_fmap. unfold format_error. eauto. }
  destruct (create_evaluation_prompt _) as [prompt|e] eqn:Hp; [|apply Hfailed].
  destruct (ai_manager prompt) as [text|e] eqn:Ha; [|apply Hfailed].
  assert (Hne : valid_entries entries <> []) by (intros E; apply Hv; by rewrite E).
  destruct (evaluate_batch_results ai_manager entries batch_id prompt text Hne Hp Ha)
    as (results & He & _ & Hshape).
  unfold evaluate_batch in He.
  rewrite !bool_decide_eq_false_2, Hp, Ha in He by done.
  rewrite He. cbn [fst]. intros Hin.
  apply list_elem_of_lookup in Hin as [j Hj].
  destruct (Hshape j i ev Hj) as (s & k & r & _ & Hn & ->). eauto.
Qed.

End Answered.

Lemma evaluate_batch_success_witness :
  exists prompt results,
    @evaluate_batch Reference.runtime scoring_service
      [(4, breakfast_record); (7, one_turn_record); (9, towel_record)] 3 =
      (results, [prompt]) /\
    results =
      [(4, mk_evaluation (VInt 8) (VBool true) (py "AI评估-批次3(分数:8)"));
       (9, mk_evaluation (VInt 3) (VBool false) (py "AI评估-批次3(分数:3)"))].
Proof.
  destruct (@create_evaluation_prompt Reference.runtime
              (valid_entries [(4, breakfast_record); (7, one_turn_record);
                              (9, towel_record)]).*2) as [prompt|e] eqn:Hp;
    [|vm_compute in Hp; discriminate].
  destruct (@evaluate_batch_success Reference.runtime scoring_service
              [(4, breakfast_record); (7, one_turn_record); (9, towel_record)] 3
              prompt example_response) as (results & He & _ & _).
  - vm_compute. discriminate.
  - exact Hp.
  - reflexivity.
  - exists prompt, results. split; [exact He|].
    vm_compute in He. injection He as <- _. reflexivity.
Defined.

(** ** ConcurrencyCoordinator: coverage *)

Lemma store_all_dom (m : gmap nat pydict) l i :
  is_Some (store_all m l !! i) <-> is_Some (m !! i) \/ i ∈ l.*1.
Proof.
  unfold store_all. revert m. induction l as [|[j ev] l IH]; intros m; simpl.
  - rewrite elem_of_nil. tauto.
  - rewrite IH, elem_of_cons. destruct (decide (i = j)) as [->|Hne].
    + rewrite lookup_insert_eq. split; [|intros _; left; eauto]. intros _. right. by left.
    + rewrite lookup_insert_ne by done. split; [tauto|]. intros [?|[?|?]]; tauto.
Qed.

Lemma store_all_lookup (m : gmap nat pydict) l i ev :
  store_all m l !! i = Some ev -> m !! i = Some ev \/ (i, ev) ∈ l.
Proof.
  unfold store_all. revert m. induction l as [|[j ev'] l IH]; intros m; simpl.
  - by left.
  - intros Hl. destruct (IH _ Hl) as [Hm|Hin]; [|right; by right].
    destruct (decide (i = j)) as [->|Hne].
    + rewrite lookup_insert_eq in Hm. injection Hm as ->. right. left.
    + rewrite lookup_insert_ne in Hm by done. by left.
Qed.

Lemma collect_dom evaluator st futs i :
  is_Some ((foldl (collect_one evaluator) st futs).1 !! i) <->
  is_Some (st.1 !! i) \/ exists fut, fut ∈ futs /\ i ∈ (writes evaluator fut).*1.
Proof.
  rewrite collect_writes. generalize st.1. clear st.
  induction futs as [|fut futs IH]; intros m; simpl.
  - split; [by left|]. intros [?|(fut & Hin & _)]; [done|]. by apply elem_of_nil in Hin.
  - rewrite IH, store_all_dom. split.
    + intros [[?|?]|(f & Hf & Hi)]; [by left|right..].
      * exists fut. split; [left|done].
      * exists f. split; [by right|done].
    + intros [?|(f & Hf & Hi)]; [by left; left|].
      apply elem_of_cons in Hf as [->|Hf]; [left; by right|right; eauto].
Qed.

Lemma collect_lookup evaluator st futs i ev :
  (foldl (collect_one evaluator) st futs).1 !! i = Some ev ->
  st.1 !! i = Some ev \/ exists fut, fut ∈ futs /\ (i, ev) ∈ writes evaluator fut.
Proof.
  rewrite collect_writes. generalize st.1. clear st.
  induction futs as [|fut futs IH]; intros m; simpl.
  - by left.
  - intros Hl. destruct (IH _ Hl) as [Hm|(f & Hf & Hi)].
    + apply store_all_lookup in Hm as [?|?]; [by left|right].
      exists fut. split; [left|done].
    + right. exists f. split; [by right|done].
Qed.

Lemma collect_sent evaluator st futs :
  (forall b batch_id, length (evaluator b batch_id).2 <= 1) ->
  length (foldl (collect_one evaluator) st futs).2 <= length st.2 + length futs.
Proof.
  intros Hone. revert st. induction futs as [|[batch_id b] futs IH]; intros st; simpl.
  - lia.
  - etrans; [apply IH|]. unfold collect_one.
    specialize (Hone b batch_id).
    destruct (evaluator b batch_id) as [[results|e] sent]; simpl in *;
      rewrite length_app; lia.
Qed.

Lemma elem_of_concat {A} (x : A) (ls : list (list A)) :
  x ∈ concat ls <-> exists l, x ∈ l /\ l ∈ ls.
Proof.
  induction ls as [|l ls IH]; simpl.
  - split; [by intros ?%elem_of_nil|]. by intros (l & _ & ?%elem_of_nil).
  - rewrite elem_of_app, IH. split.
    + intros [Hx|(l' & Hx & Hl)]; [exists l; split; [done|left]|].
      exists l'. split; [done|by right].
    + intros (l' & Hx & [->|Hl]%elem_of_cons); [by left|right; eauto].
Qed.

Lemma concat_batches_elem (batches : list batch) i :
  i ∈ (concat batches).*1 <->
  exists fut, fut ∈ submit_all batches /\ i ∈ fut.2.*1.
Proof.
  split.
  - intros (ie & -> & Hin)%list_elem_of_fmap.
    apply elem_of_concat in Hin as (b & Hie & Hb).
    apply list_elem_of_lookup in Hb as [k Hk].
    exists (k, b). split; [by apply submit_all_elem|].
    apply list_elem_of_fmap. eauto.
  - intros ([k b] & Hf & Hi). apply submit_all_elem in Hf. simpl in Hi.
    apply list_elem_of_fmap in Hi as (ie & -> & Hin).
    apply list_elem_of_fmap. exists ie. split; [done|].
    apply elem_of_concat. exists b. split; [done|].
    by eapply list_elem_of_lookup_2.
Qed.

Section Coverage.
Context `{PythonRuntime}.

(** With a positive batch size and worker count and every accepted record
    readable, the coordinator returns a dictionary that holds, for exactly
    the accepted indices, an evaluation with the three keys and a numeric
    score. *)
Lemma apply_ai_evaluation_total ai_manager
    (as_completed : list (nat * batch) -> list (nat * batch))
    (passed_entries : batch) (config : ProcessingConfig) :
  Forall (fun ie => is_Some (extract_texts ie.2)) passed_entries ->
  (forall futures, as_completed futures ≡ₚ futures) ->
  (0 < batch_size config)%Z -> (0 < max_workers config)%Z ->
  exists ai_evaluations sent batches,
    apply_ai_evaluation (default_evaluator ai_manager) as_completed
      passed_entries config = Ok (ai_evaluations, sent) /\
    make_batches passed_entries (batch_size config) = Ok batches /\
    (forall i, is_Some (ai_evaluations !! i) <-> i ∈ passed_entries.*1) /\
    (forall i ev, ai_evaluations !! i = Some ev ->
       exists s k r, ev = mk_evaluation s k r /\ is_number s = true) /\
    length sent <= length batches.
Proof.
  intros Hall Hperm Hbs Hw.
  destruct (make_batches_slices passed_entries (batch_size config) Hbs)
    as (batches & Hb & Hcat & Hlen & _).
  unfold apply_ai_evaluation. case_bool_decide as Hnil.
  { clear Hcat. subst passed_entries. exists ∅, [], batches.
    split; [reflexivity|]. split; [exact Hb|].
    split; [|split; [|simpl; lia]].
    - intros i. rewrite lookup_empty. split; [by intros ?%is_Some_None|].
      by intros ?%elem_of_nil.
    - intros i ev. by rewrite lookup_empty. }
  rewrite Hb. simpl. unfold thread_pool.
  destruct (Z.leb_spec (max_workers config) 0); [lia|]. simpl.
  destruct (foldl _ _ _) as [m sent] eqn:Hf.
  exists m, sent, batches. split; [reflexivity|]. split; [reflexivity|].
  assert (Hreadable : forall fut, fut ∈ submit_all batches ->
            Forall (fun ie => is_Some (extract_texts ie.2)) fut.2).
  { intros [k b] Hk%submit_all_elem. simpl. apply Forall_forall. intros ie Hie.
    apply (proj1 (Forall_forall _ _) Hall). rewrite <- Hcat.
    apply elem_of_concat. exists b. split; [done|]. by eapply list_elem_of_lookup_2. }
  assert (Hwrites : forall fut, fut ∈ submit_all batches ->
            (writes (default_evaluator ai_manager) fut).*1 = fut.2.*1).
  { intros fut Hfut. unfold writes, default_evaluator. simpl.
    apply evaluate_batch_all_readable. by apply Hreadable. }
  split; [|split].
  - intros i.
    pose proof (collect_dom (default_evaluator ai_manager) (∅, [])
                  (as_completed (submit_all batches)) i) as Hd.
    rewrite Hf in Hd. simpl in Hd. rewrite Hd, lookup_empty, <- Hcat, concat_batches_elem.
    split.
    + intros [[]%is_Some_None|(fut & Hfut & Hi)].
      rewrite Hperm in Hfut. exists fut. split; [done|]. by rewrite <- Hwrites.
    + intros (fut & Hfut & Hi). right. exists fut. rewrite Hperm.
      split; [done|]. by rewrite Hwrites.
  - intros i ev Hi.
    pose proof (collect_lookup (default_evaluator ai_manager) (∅, [])
                  (as_completed (submit_all batches)) i ev) as Hd.
    rewrite Hf in Hd. simpl in Hd. destruct (Hd Hi) as [Hm|(fut & _ & Hin)].
    { by rewrite lookup_empty in Hm. }
    unfold writes, default_evaluator in Hin. simpl in Hin.
    by eapply evaluate_batch_evaluation.
  - pose proof (collect_sent (default_evaluator ai_manager) (∅, [])
                  (as_completed (submit_all batches))) as Hs.
    rewrite Hf in Hs. simpl in Hs. etrans; [apply Hs|].
    + intros b batch_id. apply evaluate_batch_one_call.
    + rewrite (Permutation_length (Hperm _)). unfold submit_all.
      by rewrite length_imap.
Qed.

(** X7: with a positive batch size and worker count and every accepted
    record readable, [apply_ai_evaluation] over the repository's batch
    evaluator returns, in whatever order the batches complete and whatever
    the service answers or raises, a dictionary whose keys are exactly the
    indices of the accepted records; each evaluation has the keys score,
    keep and reason and a numeric score, and the service received at most
    one prompt per batch. *)
Theorem apply_ai_evaluation_covers (ai_manager : content_generator)
    (as_completed : list (nat * batch) -> list (nat * batch))
    (passed_entries : batch) (config : ProcessingConfig) :
  Forall (fun ie => is_Some (extract_texts ie.2)) passed_entries ->
  (forall futures, as_completed futures ≡ₚ futures) ->
  (0 < batch_size config)%Z -> (0 < max_workers config)%Z ->
  exists ai_evaluations sent batches,
    apply_ai_evaluation (default_evaluator ai_manager) as_completed
      passed_entries config = Ok (ai_evaluations, sent) /\
    make_batches passed_entries (batch_size config) = Ok batches /\
    (forall i, is_Some (ai_evaluations !! i) <-> i ∈ passed_entries.*1) /\
    (forall i ev, ai_evaluations !! i = Some ev ->
       exists s k r, ev = mk_evaluation s k r /\ is_number s = true) /\
    length sent <= length batches.
Proof. apply apply_ai_evaluation_total. Qed.

End Coverage.

Lemma sample_passed_readable :
  Forall (fun ie : nat * pyval => is_Some (extract_texts ie.2)) sample_passed.
Proof. repeat constructor; vm_compute; eauto. Qed.

Lemma apply_ai_evaluation_covers_witness :
  exists ai_evaluations sent,
    apply_ai_evaluation (@default_evaluator Reference.runtime failing_service)
      reverse sample_passed (mkProcessingConfig 7 2 3 None) =
      Ok (ai_evaluations, sent) /\
    (forall i, is_Some (ai_evaluations !! i) <-> i ∈ [0; 2; 5]) /\
    length sent <= 2.
Proof.
  destruct (@apply_ai_evaluation_covers Reference.runtime failing_service reverse
              sample_passed (mkProcessingConfig 7 2 3 None))
    as (evals & sent & batches & He & Hb & Hdom & _ & Hsent).
  - exact sample_passed_readable.
  - intros futures. apply reverse_Permutation.
  - simpl. lia.
  - simpl. lia.
  - exists evals, sent. split; [exact He|]. split; [exact Hdom|].
    vm_compute in Hb. injection Hb as <-. exact Hsent.
Defined.

(** ** The pipeline: outcomes and output *)

Lemma result_mapM_Forall2 {A B} (f : A -> result B) l ys :
  result_mapM f l = Ok ys -> Forall2 (fun x y => f x = Ok y) l ys.
Proof.
  revert ys. induction l as [|x l IH]; intros ys; simpl.
  - intros [= <-]. constructor.
  - destruct (f x) as [y|e] eqn:Hx; simpl; [|discriminate].
    destruct (result_mapM f l) as [ys'|e]; simpl; [|discriminate].
    intros [= <-]. constructor; [exact Hx|]. by apply IH.
Qed.

Lemma apply_rule_filtering_nonempty entries :
  entries <> [] ->
  apply_rule_filtering entries =
    Ok (filter (fun ie => accepted ie.2 = true) (imap (fun j e => (j, e)) entries),
        imap rule_result_of entries).
Proof.
  intros Hne. unfold apply_rule_filtering.
  pose proof (rule_loop_results 0 entries) as Hr.
  pose proof (rule_loop_passed 0 entries) as Hp.
  destruct (rule_loop 0 entries) as [p a]. simpl in *. subst p a.
  unfold percent. destruct entries as [|e entries]; [done|]. reflexivity.
Qed.

Lemma accepted_passed entries :
  Exists (fun e => accepted e = true) entries ->
  filter (fun ie : nat * pyval => accepted ie.2 = true)
    (imap (fun j e => (j, e)) entries) <> [].
Proof.
  intros (e & He & Hacc)%Exists_exists Hnil.
  apply list_elem_of_lookup in He as [i Hi].
  assert (Hin : (i, e) ∈ filter (fun ie : nat * pyval => accepted ie.2 = true)
                         (imap (fun j e => (j, e)) entries)).
  { apply list_elem_of_filter. split; [exact Hacc|].
    apply list_elem_of_lookup. exists i. by rewrite list_lookup_imap, Hi. }
  rewrite Hnil in Hin. by apply elem_of_nil in Hin.
Qed.

Lemma number_numeric_score s k r :
  is_number s = true -> numeric_score (mk_evaluation s k r).
Proof. unfold numeric_score. by destruct s. Qed.

Lemma merge_decisions_tail k rr evals cfg d ds :
  merge_decisions k rr evals cfg (d :: ds) ->
  (exists r, rr !! k = Some r /\ merge_one k r evals cfg = Ok d) /\
  merge_decisions (S k) rr evals cfg ds.
Proof.
  intros Hds. split.
  - destruct (Hds 0 d eq_refl) as (r & Hr & Hm). rewrite Nat.add_0_r in Hr, Hm. eauto.
  - intros j d' Hj. destruct (Hds (S j) d' Hj) as (r & Hr & Hm).
    exists r. by rewrite Nat.add_succ_comm.
Qed.

Section Saving.
Context {disk : Type} `{!TextFiles disk}.

(** The documents written are those at the indices of the results. *)
Lemma save_loop_documents (fs : disk) output_file entries high fs1 saved :
  save_loop fs output_file entries high = (fs1, Ok saved) ->
  Forall2 (fun r e => entries !! index r = Some e) high saved.
Proof.
  revert fs saved. induction high as [|r high IH]; intros fs saved; cbn [save_loop].
  - intros [= _ <-]. constructor.
  - destruct (entries !! index r) as [entry_data|] eqn:He; [|discriminate].
    destruct (json_dump fs output_file entry_data) as [fs2 [[]|e]]; [|discriminate].
    destruct (file_write fs2 output_file newline) as [fs3 [[]|e]]; [|discriminate].
    destruct (save_loop fs3 output_file entries high) as [fs4 [saved'|e]] eqn:Hs;
      [|discriminate].
    intros [= <- <-]. constructor; [exact He|]. by eapply IH.
Qed.

Lemma save_results_documents (fs : disk) entries high output_file fs1 saved :
  save_results fs entries high output_file = (fs1, Ok saved) ->
  Forall2 (fun r e => entries !! index r = Some e) high saved.
Proof.
  unfold save_results, with_open.
  destruct (open_write fs output_file) as [fs2 [[]|e]]; [|discriminate].
  destruct (save_loop fs2 output_file entries high) as [fs3 r] eqn:Hs.
  destruct (file_close fs3 output_file) as [fs4 [[]|e]]; [|discriminate].
  intros [= _ ->]. by eapply save_loop_documents.
Qed.

End Saving.

(** The documents saved for the high-quality results of the merge are a
    subsequence of the loaded documents. *)
Lemma saved_sublist ds k (entries : list pyval) rr evals cfg saved :
  (forall i r, rr !! i = Some r -> index r = i) ->
  merge_decisions k rr evals cfg ds ->
  Forall2 (fun r e => entries !! index r = Some e) (high_of ds) saved ->
  saved `sublist_of` drop k entries.
Proof.
  intros Hidx. revert k saved. induction ds as [|d ds IH]; intros k saved Hds.
  - intros ->%Forall2_nil_inv_l. apply sublist_nil_l.
  - apply merge_decisions_tail in Hds as [(r & Hr & Hm) Hds].
    assert (Hk : index d.2 = k).
    { eapply merge_one_index; [|exact Hm]. intros _. by apply Hidx. }
    assert (Hdrop : drop (S k) entries `sublist_of` drop k entries).
    { replace (S k) with (k + 1) by lia. rewrite <- drop_drop. apply sublist_drop. }
    rewrite high_of_cons. destruct d.1; simpl.
    + intros (e & saved' & He & Hs & ->)%Forall2_cons_inv_l.
      rewrite Hk in He. rewrite (drop_S _ _ _ He). apply sublist_skip.
      by apply (IH (S k)).
    + intros Hs. etrans; [|exact Hdrop]. by apply (IH (S k)).
Qed.

(** A high-quality result belongs to a record the rule stage accepted. *)
Lemma high_accepted ds entries evals cfg r :
  merge_decisions 0 (imap rule_result_of entries) evals cfg ds ->
  r ∈ high_of ds ->
  exists e, entries !! index r = Some e /\ accepted e = true.
Proof.
  intros Hds Hr. unfold high_of in Hr.
  apply list_elem_of_fmap in Hr as (d & -> & Hd).
  apply list_elem_of_filter in Hd as [Hhigh Hd].
  apply list_elem_of_lookup in Hd as [j Hj].
  destruct (Hds j d Hj) as (r0 & Hr0 & Hm). simpl in Hr0, Hm.
  rewrite list_lookup_imap in Hr0.
  destruct (entries !! j) as [e|] eqn:He; [|discriminate]. injection Hr0 as <-.
  unfold merge_one in Hm. simpl in Hm.
  destruct (accepted e) eqn:Hacc; simpl in Hm.
  - destruct (keep_and_score _ _) as [kept|e']; simpl in Hm; [|discriminate].
    injection Hm as <-. simpl. eauto.
  - injection Hm as <-. simpl in Hhigh. discriminate.
Qed.

Section Pipeline2.
Context `{PythonRuntime} {disk : Type} `{!TextFiles disk}.

(** What a completed run went through: the steps of [filter_data] all
    returned. *)
Lemma filter_data_completed ai_manager model_info as_completed total_processing_time
    (fs : disk) lines output_file config high low saved sent :
  filter_data ai_manager model_info as_completed total_processing_time fs lines
      output_file config = (Completed high low saved, sent) ->
  exists data_entries passed rr evals fs1 report fs2,
    load_data lines (sample_size config) = Ok data_entries /\
    apply_rule_filtering data_entries = Ok (passed, rr) /\
    passed <> [] /\
    apply_ai_evaluation (default_evaluator ai_manager) as_completed passed config =
      Ok (evals, sent) /\
    merge_results data_entries rr evals config = Ok (high, low) /\
    save_results fs data_entries high output_file = (fs1, Ok saved) /\
    generate_report total_processing_time model_info data_entries high low config =
      Ok report /\
    save_report fs1 report output_file = (fs2, Ok ()).
Proof.
  unfold filter_data.
  destruct (load_data lines (sample_size config)) as [data_entries|e]; [|discriminate].
  destruct (apply_rule_filtering data_entries) as [[passed rr]|e] eqn:Hrule;
    [|discriminate].
  case_bool_decide as Hp; [discriminate|].
  destruct (apply_ai_evaluation _ _ _ _) as [[evals sent']|e] eqn:Hai; [|discriminate].
  destruct (merge_results _ _ _ _) as [[high' low']|e] eqn:Hm; [|discriminate].
  destruct (save_results _ _ _ _) as [fs1 [saved'|e]] eqn:Hs; [|discriminate].
  destruct (generate_report _ _ _ _ _ _) as [report|e] eqn:Hr; [|discriminate].
  destruct (save_report _ _ _) as [fs2 [[]|e]] eqn:Hw; [|discriminate].
  intros [= -> -> -> ->].
  exists data_entries, passed, rr, evals, fs1, report, fs2.
  repeat split; assumption || reflexivity.
Qed.

(** X9: the output of a completed run.  Every loaded record has exactly one
    result; the documents written to the output file are the loaded
    documents at the indices of the high-quality results, they appear in
    their original relative order (a subsequence of the input, never
    reordered or repeated), and each of them was accepted by the rule
    stage. *)
Theorem filter_data_output (ai_manager : content_generator) (model_info : pyval)
    (as_completed : list (nat * batch) -> list (nat * batch))
    (total_processing_time : float) (fs : disk)
    (lines : list pystr) (output_file : pystr) (config : ProcessingConfig)
    (data_entries : list pyval) (high low : list FilterResult)
    (saved : list pyval) (sent : list pystr) :
  load_data lines (sample_size config) = Ok data_entries ->
  filter_data ai_manager model_info as_completed total_processing_time fs lines
      output_file config = (Completed high low saved, sent) ->
  length high + length low = length data_entries /\
  Forall2 (fun r e => data_entries !! index r = Some e) high saved /\
  saved `sublist_of` data_entries /\
  Forall (fun e => accepted e = true) saved.
Proof.
  intros Hload Hrun.
  apply filter_data_completed in Hrun
    as (entries' & passed & rr & evals & fs1 & report & fs2 &
        Hload' & Hrule & _ & _ & Hm & Hs & _ & _).
  rewrite Hload in Hload'. injection Hload' as <-.
  destruct (rule_results_indexed _ _ _ Hrule) as [Hlen Hidx].
  apply apply_rule_filtering_Ok in Hrule as (_ & _ & ->).
  apply merge_results_decisions in Hm as (ds & Hdl & Hds & -> & -> & Hperm);
    [|exact Hidx].
  pose proof (save_results_documents _ _ _ _ _ _ Hs) as Hsaved.
  split; [|split; [exact Hsaved|split]].
  - apply Permutation_length in Hperm.
    by rewrite length_app, !length_fmap, length_seq in Hperm.
  - apply (saved_sublist ds 0 data_entries _ evals config saved Hidx Hds Hsaved).
  - apply Forall_forall. intros e He.
    apply list_elem_of_lookup in He as [i Hi].
    destruct (Forall2_lookup_r _ _ _ _ _ Hsaved Hi) as (r & Hr & Hre).
    destruct (high_accepted ds data_entries evals config r Hds) as (e' & He' & Hacc).
    { by eapply list_elem_of_lookup_2. }
    rewrite Hre in He'. by injection He' as <-.
Qed.

End Pipeline2.

Section Reasons.
Context `{PythonRuntime} {disk : Type} `{!TextFiles disk}.

(** In a batch of readable records an evaluation is the answer of the
    service or the failure fallback, never the format-error one. *)
Lemma evaluate_batch_readable_evaluation ai_manager entries batch_id i ev :
  Forall (fun ie => is_Some (extract_texts ie.2)) entries ->
  (i, ev) ∈ (evaluate_batch ai_manager entries batch_id).1 ->
  (exists s k, ev = mk_evaluation s k (batch_reason batch_id s) /\ is_number s = true) \/
  (exists e, ev = batch_failure batch_id e).
Proof.
  intros Hall.
  assert (Hfailed : forall e (l : list (nat * pyval)),
    (i, ev) ∈ map (fun ie : nat * pyval => (ie.1, batch_failure batch_id e)) l ->
    (exists s k, ev = mk_evaluation s k (batch_reason batch_id s) /\ is_number s = true) \/
    (exists e, ev = batch_failure batch_id e)).
  { intros e l (ie & [= _ ->] & _)%list_elem_of_fmap. eauto. }
  pose proof (valid_entries_all entries Hall) as Hv.
  unfold evaluate_batch.
  case_bool_decide as Hnil; [by intros ?%elem_of_nil|].
  case_bool_decide as Hd.
  { exfalso. apply Hnil. apply fmap_nil_inv in Hd. rewrite Hd in Hv. done. }
  destruct (create_evaluation_prompt _) as [prompt|e] eqn:Hp; [|apply Hfailed].
  destruct (ai_manager prompt) as [text|e] eqn:Ha; [|apply Hfailed].
  assert (Hne : valid_entries entries <> []) by (intros E; apply Hd; by rewrite E).
  destruct (evaluate_batch_results ai_manager entries batch_id prompt text Hne Hp Ha)
    as (results & He & _ & Hshape).
  unfold evaluate_batch in He.
  rewrite !bool_decide_eq_false_2, Hp, Ha in He by done.
  rewrite He. cbn [fst]. intros Hin.
  apply list_elem_of_lookup in Hin as [j Hj].
  destruct (Hshape j i ev Hj) as (s & k & r & _ & Hn & ->). left. eauto.
Qed.

Lemma apply_ai_evaluation_reasons ai_manager
    (as_completed : list (nat * batch) -> list (nat * batch))
    (passed_entries : batch) (config : ProcessingConfig) ai_evaluations sent i ev :
  Forall (fun ie => is_Some (extract_texts ie.2)) passed_entries ->
  (forall futures, as_completed futures ≡ₚ futures) ->
  apply_ai_evaluation (default_evaluator ai_manager) as_completed
    passed_entries config = Ok (ai_evaluations, sent) ->
  ai_evaluations !! i = Some ev ->
  exists batch_id,
    (exists s k, ev = mk_evaluation s k (batch_reason batch_id s) /\ is_number s = true) \/
    (exists e, ev = batch_failure batch_id e).
Proof.
  intros Hall Hperm. unfold apply_ai_evaluation.
  case_bool_decide; [intros [= <- <-]; by rewrite lookup_empty|].
  destruct (make_batches _ _) as [batches|e] eqn:Hb; simpl; [|discriminate].
  destruct (thread_pool _) as [[]|e]; simpl; [|discriminate].
  intros [= Hf] Hi.
  pose proof (collect_lookup (default_evaluator ai_manager) (∅, [])
                (as_completed (submit_all batches)) i ev) as Hd.
  rewrite Hf in Hd. simpl in Hd. destruct (Hd Hi) as [Hm|([k b] & Hfut & Hin)].
  { by rewrite lookup_empty in Hm. }
  rewrite Hperm in Hfut. apply submit_all_elem in Hfut.
  destruct (make_batches_lookup _ _ _ _ _ Hb Hfut) as [-> _].
  unfold writes, default_evaluator in Hin. simpl in Hin.
  exists k. eapply evaluate_batch_readable_evaluation; [|exact Hin].
  by apply Forall_take, Forall_drop.
Qed.

(** X11: the results of a completed run.  With a positive batch size and
    worker count, every result of a completed run is of one of two kinds.
    A record the rule stage rejected keeps its rule-stage result: stage
    'rule_filter', not kept, score 0.  A record it accepted has stage
    'ai_evaluation', a numeric score, and as reason either the batch
    template 'AI评估-批次<id>(分数:<score>)' or, with score 6, the failure text
    '评估失败-批次<id>: <error>'.  The reasons '未进行AI评估', '数据格式错误',
    'AI评估(分数:...)' and '解析失败: ...' the code can produce never reach
    the results of a run. *)
Theorem filter_data_results (ai_manager : content_generator) (model_info : pyval)
    (as_completed : list (nat * batch) -> list (nat * batch))
    (total_processing_time : float) (fs : disk)
    (lines : list pystr) (output_file : pystr) (config : ProcessingConfig)
    (high low : list FilterResult) (saved : list pyval) (sent : list pystr) :
  (forall futures, as_completed futures ≡ₚ futures) ->
  (0 < batch_size config)%Z -> (0 < max_workers config)%Z ->
  filter_data ai_manager model_info as_completed total_processing_time fs lines
      output_file config = (Completed high low saved, sent) ->
  forall r, r ∈ high ++ low ->
    (stage r = py "rule_filter" /\ is_kept r = VBool false /\ score r = VInt 0) \/
    (stage r = py "ai_evaluation" /\ is_number (score r) = true /\
     exists batch_id,
       reason r = VStr (py "AI评估-批次" ++ str_of_nat batch_id ++ py "(分数:" ++
                        py_format (score r) ++ py ")") \/
       (score r = VInt 6 /\
        exists e, reason r = VStr (py "评估失败-批次" ++ str_of_nat batch_id ++ py ": " ++
                                   exn_str e))).
Proof.
  intros Hperm Hbs Hw Hrun r Hr.
  apply filter_data_completed in Hrun
    as (data_entries & passed & rr & evals & fs1 & report & fs2 &
        _ & Hrule & _ & Hai & Hm & _).
  destruct (rule_results_indexed _ _ _ Hrule) as [Hlen Hidx].
  destruct (apply_rule_filtering_passed _ _ _ Hrule) as [_ Hreadable].
  destruct (apply_ai_evaluation_total ai_manager as_completed passed config
              Hreadable Hperm Hbs Hw)
    as (evals' & sent'' & batches & Hai' & _ & Hdom & _ & _).
  rewrite Hai in Hai'. injection Hai' as <- <-.
  apply apply_rule_filtering_Ok in Hrule as (_ & -> & ->).
  apply merge_results_decisions in Hm as (ds & Hdl & Hds & -> & -> & _);
    [|exact Hidx].
  assert (Hin : r ∈ ds.*2).
  { rewrite <- high_low_permutation. exact Hr. }
  apply list_elem_of_fmap in Hin as (d & -> & Hd).
  apply list_elem_of_lookup in Hd as [j Hj].
  destruct (Hds j d Hj) as (r0 & Hr0 & Hone). simpl in Hr0, Hone.
  rewrite list_lookup_imap in Hr0.
  destruct (data_entries !! j) as [entry|] eqn:He; [|discriminate].
  injection Hr0 as <-. unfold merge_one in Hone. simpl in Hone.
  destruct (accepted entry) eqn:Hacc; simpl in Hone.
  - right.
    assert (Hj' : j ∈ (filter (fun ie : nat * pyval => accepted ie.2 = true)
                         (imap (fun j e => (j, e)) data_entries)).*1).
    { apply list_elem_of_fmap. exists (j, entry). split; [reflexivity|].
      apply list_elem_of_filter. split; [exact Hacc|].
      apply list_elem_of_lookup. exists j. by rewrite list_lookup_imap, He. }
    apply Hdom in Hj' as [ev Hev]. rewrite Hev in Hone. simpl in Hone.
    destruct (apply_ai_evaluation_reasons _ _ _ _ _ _ j ev Hreadable Hperm Hai Hev)
      as (b & [(s & k & -> & Hn)|(e & ->)]).
    + destruct (keep_and_score _ _) as [kept|e']; simpl in Hone; [|discriminate].
      injection Hone as <-. simpl. split; [reflexivity|]. split; [exact Hn|].
      exists b. left. reflexivity.
    + destruct (keep_and_score _ _) as [kept|e']; simpl in Hone; [|discriminate].
      injection Hone as <-. simpl. split; [reflexivity|]. split; [reflexivity|].
      exists b. right. split; [reflexivity|]. exists e. reflexivity.
  - injection Hone as <-. left. unfold rule_result_of. rewrite Hacc. done.
Qed.

End Reasons.

Lemma sample_lines_loaded :
  @load_data Reference.runtime sample_lines None = Ok sample_entries.
Proof. vm_compute. reflexivity. Qed.

Lemma filter_data_output_witness :
  exists high low sent,
    sample_run scoring_service id sample_lines default_config =
      (Completed high low [breakfast_record], sent) /\
    length high + length low = 3 /\
    [breakfast_record] `sublist_of` sample_entries.
Proof.
  destruct (sample_run scoring_service id sample_lines default_config)
    as [outcome sent] eqn:E.
  assert (Hdone : exists high low, outcome = Completed high low [breakfast_record]).
  { vm_compute in E. injection E as <- _. eauto. }
  destruct Hdone as (high & low & ->).
  exists high, low, sent. split; [reflexivity|].
  destruct (@filter_data_output Reference.runtime (list pystr) sample_files
              scoring_service sample_model_info id 2.5%float run_disk sample_lines
              sample_output default_config sample_entries high low [breakfast_record]
              sent sample_lines_loaded E) as (Hlen & _ & Hsub & _).
  split; [exact Hlen|exact Hsub].
Defined.

Lemma filter_data_results_witness :
  exists high low saved sent,
    sample_run failing_service id sample_lines default_config =
      (Completed high low saved, sent) /\
    forall r, r ∈ high ++ low ->
      (stage r = py "rule_filter" /\ is_kept r = VBool false /\ score r = VInt 0) \/
      (stage r = py "ai_evaluation" /\ is_number (score r) = true /\
       exists batch_id,
         reason r = VStr (py "AI评估-批次" ++ str_of_nat batch_id ++ py "(分数:" ++
                          @py_format Reference.runtime (score r) ++ py ")") \/
         (score r = VInt 6 /\
          exists e, reason r = VStr (py "评估失败-批次" ++ str_of_nat batch_id ++
                                     py ": " ++ exn_str e))).
Proof.
  destruct (sample_run failing_service id sample_lines default_config)
    as [outcome sent] eqn:E.
  assert (Hdone : exists high low saved, outcome = Completed high low saved).
  { vm_compute in E. injection E as <- _. eauto. }
  destruct Hdone as (high & low & saved & ->).
  exists high, low, saved, sent. split; [reflexivity|].
  apply (@filter_data_results Reference.runtime (list pystr) sample_files
           failing_service sample_model_info id 2.5%float run_disk sample_lines
           sample_output default_config high low saved sent).
  - intros futures. reflexivity.
  - cbn [batch_size default_config]. lia.
  - cbn [max_workers default_config]. lia.
  - exact E.
Defined.

Lemma filter_data_order_independent_witness :
  (sample_run scoring_service id sample_lines (mkProcessingConfig 7 1 2 None)).1 =
  (sample_run scoring_service reverse sample_lines (mkProcessingConfig 7 1 2 None)).1.
Proof.
  apply (@filter_data_order_independent Reference.runtime (list pystr) sample_files
           scoring_service sample_model_info id reverse 2.5%float run_disk
           sample_lines sample_output (mkProcessingConfig 7 1 2 None)).
  - intros futures. reflexivity.
  - intros futures. apply reverse_Permutation.
Defined.

(** ** QualitySummary *)

(** *** Dictionaries of counts *)

Lemma count_key_sum {K} (same : K -> K -> bool) d k :
  sum_list (count_key same d k).*2 = S (sum_list d.*2).
Proof.
  induction d as [|[k' n] d IH]; csimpl; [reflexivity|].
  destruct (same k' k); csimpl; [reflexivity|]. rewrite IH. lia.
Qed.

Lemma count_key_keys {K} (same : K -> K -> bool) d k :
  (exists k', k' ∈ d.*1 /\ same k' k = true /\ (count_key same d k).*1 = d.*1) \/
  ((forall k', k' ∈ d.*1 -> same k' k = false) /\ (count_key same d k).*1 = d.*1 ++ [k]).
Proof.
  induction d as [|[k' n] d IH]; csimpl.
  - right. split; [by intros k' ?%elem_of_nil|reflexivity].
  - destruct (same k' k) eqn:Hs; csimpl.
    + left. exists k'. split; [left|]. done.
    + destruct IH as [(k'' & Hin & Hk & ->)|[Hall ->]].
      * left. exists k''. split; [by right|]. done.
      * right. split; [|reflexivity].
        intros k'' [->|Hin]%elem_of_cons; [exact Hs|by apply Hall].
Qed.

Lemma count_key_positive {K} (same : K -> K -> bool) d k :
  Forall (fun kn => 0 < kn.2) d -> Forall (fun kn => 0 < kn.2) (count_key same d k).
Proof.
  induction 1 as [|[k' n] d Hn Hd IH]; simpl.
  - repeat constructor.
  - destruct (same k' k); constructor; simpl in *; try done; lia.
Qed.

Lemma pystr_eqb_eq (s t : pystr) : pystr_eqb s t = true <-> s = t.
Proof. unfold pystr_eqb. apply bool_decide_eq_true. Qed.

Lemma count_get_count_key d k k' :
  count_get (count_key pystr_eqb d k) k' =
    count_get d k' + (if bool_decide (k = k') then 1 else 0).
Proof.
  induction d as [|[k0 n] d IH]; simpl.
  - unfold pystr_eqb. case_bool_decide; reflexivity.
  - destruct (decide (k0 = k)) as [->|E0].
    + rewrite (proj2 (pystr_eqb_eq k k)) by done. simpl.
      destruct (decide (k = k')) as [->|E1].
      * rewrite (proj2 (pystr_eqb_eq k' k')), bool_decide_eq_true_2 by done. lia.
      * rewrite bool_decide_eq_false_2 by done.
        destruct (pystr_eqb k k') eqn:E; [by apply pystr_eqb_eq in E|lia].
    + destruct (pystr_eqb k0 k) eqn:E; [by apply pystr_eqb_eq in E|]. simpl.
      destruct (pystr_eqb k0 k') eqn:E1; [|exact IH].
      apply pystr_eqb_eq in E1 as <-. rewrite bool_decide_eq_false_2 by done. lia.
Qed.

Lemma count_get_elem d k n :
  NoDup d.*1 -> (k, n) ∈ d -> count_get d k = n.
Proof.
  induction d as [|[k0 n0] d IH]; simpl; [by intros _ ?%elem_of_nil|].
  intros [Hnotin Hnd]%NoDup_cons [[= -> ->]|Hin]%elem_of_cons.
  - unfold pystr_eqb. by rewrite bool_decide_eq_true_2.
  - unfold pystr_eqb. rewrite bool_decide_eq_false_2; [by apply IH|].
    intros ->. apply Hnotin. apply list_elem_of_fmap. by exists (k, n).
Qed.

Lemma occurrences_snoc kw l k :
  occurrences kw (l ++ [k]) = occurrences kw l + (if bool_decide (k = kw) then 1 else 0).
Proof.
  unfold occurrences. rewrite filter_app, length_app. f_equal.
  rewrite filter_cons, filter_nil. case_decide; case_bool_decide; done.
Qed.

Lemma occurrences_positive kw l : kw ∈ l <-> 0 < occurrences kw l.
Proof.
  unfold occurrences. split.
  - intros Hin. assert (Hf : kw ∈ filter (fun x => x = kw) l).
    { by apply list_elem_of_filter. }
    destruct (filter _ l); [by apply elem_of_nil in Hf|simpl; lia].
  - intros Hpos. destruct (filter (fun x => x = kw) l) as [|x f] eqn:Ef; [simpl in Hpos; lia|].
    assert (Hx : x ∈ filter (fun x => x = kw) l) by (rewrite Ef; left).
    apply list_elem_of_filter in Hx as [-> ?]. done.
Qed.

(** The dictionary built from a list of keywords: one item per distinct
    keyword, in order of first occurrence, with its number of occurrences. *)
Lemma keyword_counts_spec (l : list pystr) :
  let d := foldl (count_key pystr_eqb) [] l in
  NoDup d.*1 /\ (forall k, k ∈ d.*1 <-> k ∈ l) /\
  (forall k, count_get d k = occurrences k l).
Proof.
  induction l as [|k l IH] using rev_ind; simpl.
  - split; [constructor|]. split; [done|reflexivity].
  - rewrite foldl_app. simpl. destruct IH as (Hnd & Hkeys & Hcount).
    set (d := foldl (count_key pystr_eqb) [] l) in *.
    split; [|split].
    + destruct (count_key_keys pystr_eqb d k) as [(k' & _ & _ & ->)|[Hall ->]];
        [exact Hnd|].
      apply NoDup_app. split; [exact Hnd|]. split; [|apply NoDup_singleton].
      intros x Hx ->%list_elem_of_singleton.
      specialize (Hall _ Hx). unfold pystr_eqb in Hall.
      by rewrite bool_decide_eq_true_2 in Hall.
    + intros x. rewrite elem_of_app, list_elem_of_singleton, <- Hkeys.
      destruct (count_key_keys pystr_eqb d k) as [(k' & Hin & Hk & ->)|[Hall ->]].
      * apply pystr_eqb_eq in Hk as ->. split; [by left|]. by intros [?| ->].
      * by rewrite elem_of_app, list_elem_of_singleton.
    + intros x. by rewrite count_get_count_key, occurrences_snoc, Hcount.
Qed.

(** *** Sorting by count *)

Lemma insert_by_count_perm {K} (x : K * nat) l : insert_by_count x l ≡ₚ x :: l.
Proof.
  induction l as [|y l IH]; simpl; [reflexivity|].
  destruct (y.2 <=? x.2); [reflexivity|]. rewrite IH. apply Permutation_swap.
Qed.

Lemma sorted_by_count_perm {K} (l : list (K * nat)) : sorted_by_count l ≡ₚ l.
Proof.
  induction l as [|x l IH]; simpl; [reflexivity|].
  unfold sorted_by_count in *. simpl. by rewrite insert_by_count_perm, IH.
Qed.

Lemma insert_by_count_sorted {K} (x : K * nat) l :
  StronglySorted by_count l -> StronglySorted by_count (insert_by_count x l).
Proof.
  induction 1 as [|y l Hs IH Hall]; simpl.
  - repeat constructor.
  - destruct (Nat.leb_spec y.2 x.2) as [Hle|Hlt].
    + constructor; [by constructor|]. constructor; [exact Hle|].
      eapply Forall_impl; [exact Hall|]. intros z Hz. unfold by_count in *. lia.
    + constructor; [exact IH|].
      rewrite insert_by_count_perm. constructor; [unfold by_count; lia|exact Hall].
Qed.

Lemma sorted_by_count_sorted {K} (l : list (K * nat)) :
  StronglySorted by_count (sorted_by_count l).
Proof.
  induction l as [|x l IH]; simpl; [constructor|].
  by apply insert_by_count_sorted.
Qed.

Lemma StronglySorted_take {A} (R : A -> A -> Prop) n l :
  StronglySorted R l -> StronglySorted R (take n l).
Proof.
  intros Hs. revert n. induction Hs as [|x l Hs IH Hall]; intros [|n]; simpl;
    try constructor; [apply IH|by apply Forall_take].
Qed.

Lemma StronglySorted_take_drop {A} (R : A -> A -> Prop) n l x y :
  StronglySorted R l -> x ∈ take n l -> y ∈ drop n l -> R x y.
Proof.
  intros Hs. revert n. induction Hs as [|z l Hs IH Hall]; intros [|n]; simpl;
    try (by intros ?%elem_of_nil).
  intros [->|Hx]%elem_of_cons Hy.
  - apply (proj1 (Forall_forall _ _) Hall). by apply (subseteq_drop n l).
  - by apply (IH n).
Qed.

(** *** Score buckets *)

Lemma py_key_eqb_refl k : py_hashable k = true -> py_key_eqb k k = true.
Proof.
  destruct k as [|b|z|f|s|l|d]; simpl; try done; intros _.
  - apply Z.eqb_refl.
  - apply Z.eqb_refl.
  - unfold PrimFloat.is_nan. by destruct (PrimFloat.eqb f f).
  - by apply pystr_eqb_eq.
Qed.

Lemma count_scores_spec d results :
  distinct_keys d.*1 -> Forall (fun kn => 0 < kn.2) d ->
  match count_scores d results with
  | Ok d' =>
      Forall (fun r => py_hashable (score r) = true) results /\
      sum_list d'.*2 = sum_list d.*2 + length results /\
      distinct_keys d'.*1 /\ Forall (fun kn => 0 < kn.2) d' /\
      d.*1 `prefix_of` d'.*1 /\
      forall r, r ∈ results ->
        exists k, k ∈ d'.*1 /\ py_key_eqb k (score r) = true
  | Raise e =>
      exn_cls e = TypeError /\
      Exists (fun r => py_hashable (score r) = false) results
  end.
Proof.
  revert d. induction results as [|r results IH]; intros d Hdist Hpos; simpl.
  - split; [constructor|]. split; [lia|]. split; [exact Hdist|]. split; [exact Hpos|].
    split; [done|]. by intros r ?%elem_of_nil.
  - destruct (py_hashable (score r)) eqn:Hh.
    2: { split; [reflexivity|]. by left. }
    assert (Hdist' : distinct_keys (count_key py_key_eqb d (score r)).*1).
    { destruct (count_key_keys py_key_eqb d (score r)) as [(k' & _ & _ & ->)|[Hall ->]];
        [exact Hdist|].
      intros i j ki kj Hij Hi Hj.
      destruct (decide (j < length d.*1)) as [Hlt|Hge].
      - rewrite lookup_app_l in Hi, Hj by lia. by apply (Hdist i j).
      - rewrite lookup_app_r in Hj by lia.
        destruct (j - length d.*1) as [|n] eqn:En; [|by destruct n].
        injection Hj as <-. rewrite lookup_app_l in Hi by lia.
        apply Hall. by eapply list_elem_of_lookup_2. }
    specialize (IH _ Hdist' (count_key_positive py_key_eqb d (score r) Hpos)).
    destruct (count_scores _ results) as [d'|e].
    + destruct IH as (Hall & Hsum & Hd' & Hpos' & Hpre & Hbucket).
      split; [by constructor|]. split; [rewrite Hsum, count_key_sum; lia|].
      split; [exact Hd'|]. split; [exact Hpos'|].
      assert (Hpre0 : d.*1 `prefix_of` (count_key py_key_eqb d (score r)).*1).
      { destruct (count_key_keys py_key_eqb d (score r)) as [(k' & _ & _ & ->)|[_ ->]];
          [done|]. by apply prefix_app_r. }
      split; [by etrans|].
      intros r' [->|Hr']%elem_of_cons; [|by apply Hbucket].
      assert (Hk : exists k, k ∈ (count_key py_key_eqb d (score r)).*1 /\
                             py_key_eqb k (score r) = true).
      { destruct (count_key_keys py_key_eqb d (score r))
          as [(k' & Hin & Hk & ->)|[_ ->]]; [eauto|].
        exists (score r). split; [|by apply py_key_eqb_refl].
        apply elem_of_app. right. left. }
      destruct Hk as (k & Hin & Hk). exists k. split; [|exact Hk].
      destruct Hpre as [rest ->]. apply elem_of_app. by left.
    + destruct IH as [Hcls Hex]. split; [exact Hcls|]. by right.
Qed.

(** *** Minimum and maximum *)

Lemma foldl_min_spec x l :
  foldl Nat.min x l ∈ x :: l /\ forall y, y ∈ x :: l -> foldl Nat.min x l <= y.
Proof.
  revert x. induction l as [|z l IH]; intros x; simpl.
  - split; [left|]. by intros y ->%list_elem_of_singleton.
  - destruct (IH (Nat.min x z)) as [Hin Hle]. split.
    + apply elem_of_cons in Hin as [->|Hin]; [|by right; right].
      destruct (Nat.min_spec x z) as [[_ ->]|[_ ->]]; [left|right; left].
    + intros y [->|[->|Hy]%elem_of_cons]%elem_of_cons.
      * etrans; [apply Hle; left|]. lia.
      * etrans; [apply Hle; left|]. lia.
      * apply Hle. by right.
Qed.

Lemma foldl_max_spec x l :
  foldl Nat.max x l ∈ x :: l /\ forall y, y ∈ x :: l -> y <= foldl Nat.max x l.
Proof.
  revert x. induction l as [|z l IH]; intros x; simpl.
  - split; [left|]. by intros y ->%list_elem_of_singleton.
  - destruct (IH (Nat.max x z)) as [Hin Hle]. split.
    + apply elem_of_cons in Hin as [->|Hin]; [|by right; right].
      destruct (Nat.max_spec x z) as [[_ ->]|[_ ->]]; [right; left|left].
    + intros y [->|[->|Hy]%elem_of_cons]%elem_of_cons.
      * etrans; [|apply Hle; left]. lia.
      * etrans; [|apply Hle; left]. lia.
      * apply Hle. by right.
Qed.

Lemma min_max_bounds (l : list nat) x :
  x ∈ l -> min_or_zero l <= x <= max_or_zero l.
Proof.
  destruct l as [|y l]; [by intros ?%elem_of_nil|]. simpl. intros Hx.
  split; [by apply foldl_min_spec|by apply foldl_max_spec].
Qed.

(** The cases of [get_quality_summary]. *)
Lemma get_quality_summary_cases (results : list FilterResult) :
  match get_quality_summary results with
  | Ok None => results = []
  | Ok (Some s) =>
      results <> [] /\
      total_entries s = length results /\
      kept_entries s <= total_entries s /\
      sum_list (score_distribution s).*2 = length results /\
      distinct_keys (score_distribution s).*1 /\
      (forall r, r ∈ results ->
         exists k n, (k, n) ∈ score_distribution s /\ 0 < n /\
                     py_key_eqb k (score r) = true) /\
      (forall r, r ∈ results ->
         len_min (question_length_summary s) <= question_length (stats r)
           <= len_max (question_length_summary s) /\
         len_min (answer_length_summary s) <= answer_length (stats r)
           <= len_max (answer_length_summary s))
  | Raise e =>
      exn_cls e = TypeError /\
      Exists (fun r => py_hashable (score r) = false) results
  end.
Proof.
  unfold get_quality_summary. case_bool_decide as Hnil; [exact Hnil|].
  pose proof (count_scores_spec [] results) as Hcs.
  destruct (count_scores [] results) as [d|e]; simpl.
  2: { apply Hcs; [by intros i j ki kj _ ?|constructor]. }
  destruct Hcs as (Hall & Hsum & Hdist & Hpos & _ & Hbucket);
    [by intros i j ki kj _ ?|constructor|].
  split; [exact Hnil|]. split; [reflexivity|].
  split; [apply length_filter|]. split; [exact Hsum|]. split; [exact Hdist|].
  split.
  - intros r Hr. destruct (Hbucket r Hr) as (k & Hk & Hsame).
    apply list_elem_of_fmap in Hk as ([k' n] & -> & Hin). exists k', n.
    split; [exact Hin|]. split; [|exact Hsame].
    apply (proj1 (Forall_forall _ _) Hpos _ Hin).
  - intros r Hr. split; apply min_max_bounds; apply list_elem_of_fmap; eauto.
Qed.

(** X12: what [get_quality_summary] returns.  For an empty list it is the
    empty dictionary.  If the score of some result is a list or a dictionary
    the call raises TypeError (the score cannot be a dictionary key).
    Otherwise the summary counts every result: the total is the length of the
    list, the kept count never exceeds it, the counts of the score
    distribution add up to the total, every score falls in one bucket
    (equal scores such as 1, 1.0 and True share one), and the minimum and
    maximum lengths bound the lengths of every result. *)
Theorem get_quality_summary_counts (results : list FilterResult) :
  match get_quality_summary results with
  | Ok None => results = []
  | Ok (Some s) =>
      results <> [] /\
      total_entries s = length results /\
      kept_entries s <= total_entries s /\
      sum_list (score_distribution s).*2 = length results /\
      distinct_keys (score_distribution s).*1 /\
      (forall r, r ∈ results ->
         exists k n, (k, n) ∈ score_distribution s /\ 0 < n /\
                     py_key_eqb k (score r) = true) /\
      (forall r, r ∈ results ->
         len_min (question_length_summary s) <= question_length (stats r)
           <= len_max (question_length_summary s) /\
         len_min (answer_length_summary s) <= answer_length (stats r)
           <= len_max (answer_length_summary s))
  | Raise e =>
      exn_cls e = TypeError /\
      Exists (fun r => py_hashable (score r) = false) results
  end.
Proof. apply get_quality_summary_cases. Qed.

(** X13: the keyword ranking of the summary.  [top_keywords] lists at most
    ten distinct keywords, each with the number of times it was found over
    all results, by non-increasing count; a keyword that was found but is
    not listed was displaced by ten keywords found at least as often. *)
Theorem get_quality_summary_top_keywords (results : list FilterResult)
    (s : QualitySummary) :
  get_quality_summary results = Ok (Some s) ->
  NoDup (top_keywords s).*1 /\
  length (top_keywords s) <= 10 /\
  (forall kw n, (kw, n) ∈ top_keywords s ->
     0 < n /\ n = occurrences kw (found_keywords results)) /\
  StronglySorted (fun x y => y.2 <= x.2) (top_keywords s) /\
  (forall kw, kw ∈ found_keywords results -> ~ (kw ∈ (top_keywords s).*1) ->
     length (top_keywords s) = 10 /\
     forall x, x ∈ top_keywords s -> occurrences kw (found_keywords results) <= x.2).
Proof.
  unfold get_quality_summary. case_bool_decide as Hnil; [discriminate|].
  destruct (count_scores [] results) as [d|e]; simpl; [|discriminate].
  intros [= <-]. simpl. fold (found_keywords results).
  destruct (keyword_counts_spec (found_keywords results)) as (Hnd & Hkeys & Hcount).
  set (counts := foldl (count_key pystr_eqb) [] (found_keywords results)) in *.
  pose proof (sorted_by_count_perm counts) as Hperm.
  pose proof (sorted_by_count_sorted counts) as Hsorted.
  assert (Hnd' : NoDup (sorted_by_count counts).*1) by (by rewrite Hperm).
  assert (Hget : forall kw n, (kw, n) ∈ sorted_by_count counts ->
                   n = occurrences kw (found_keywords results) /\ kw ∈ found_keywords results).
  { intros kw n Hin. rewrite Hperm in Hin. split.
    - rewrite <- Hcount. symmetry. by apply count_get_elem.
    - apply Hkeys. apply list_elem_of_fmap. by exists (kw, n). }
  split; [|split; [|split; [|split]]].
  - rewrite fmap_take. apply (sublist_NoDup _ _ Hnd'), sublist_take.
  - rewrite length_take. lia.
  - intros kw n Hin%subseteq_take. destruct (Hget kw n Hin) as [-> Hkw].
    split; [by apply occurrences_positive|reflexivity].
  - by apply StronglySorted_take.
  - intros kw Hkw Hnot.
    assert (Hin : (kw, occurrences kw (found_keywords results)) ∈ sorted_by_count counts).
    { apply Hkeys in Hkw. apply list_elem_of_fmap in Hkw as ([kw' n] & -> & Hin).
      simpl. rewrite <- Hperm in Hin. destruct (Hget _ _ Hin) as [E _].
      by rewrite <- E. }
    rewrite <- (take_drop 10 (sorted_by_count counts)) in Hin.
    apply elem_of_app in Hin as [Hin|Hin].
    { exfalso. apply Hnot. apply list_elem_of_fmap. by eexists (_, _). }
    split.
    + rewrite length_take. apply list_elem_of_lookup in Hin as [i Hi].
      apply lookup_lt_Some in Hi. rewrite length_drop in Hi. lia.
    + intros x Hx.
      apply (StronglySorted_take_drop by_count 10 _ x _ Hsorted Hx Hin).
Qed.

Lemma get_quality_summary_top_keywords_witness :
  exists s,
    get_quality_summary (imap rule_result_of sample_entries) = Ok (Some s) /\
    top_keywords s = [(py "毛巾", 2); (py "酒店", 1); (py "餐厅", 1); (py "早餐", 1)] /\
    NoDup (top_keywords s).*1 /\
    forall kw n, (kw, n) ∈ top_keywords s ->
      0 < n /\ n = occurrences kw (found_keywords (imap rule_result_of sample_entries)).
Proof.
  destruct (get_quality_summary (imap rule_result_of sample_entries))
    as [[s|]|e] eqn:E; try (vm_compute in E; discriminate).
  exists s. split; [reflexivity|].
  destruct (get_quality_summary_top_keywords _ s E) as (Hnd & _ & Hocc & _).
  split; [|split; [exact Hnd|exact Hocc]].
  vm_compute in E. injection E as <-. reflexivity.
Defined.

(** ** The report *)

Lemma decisions_decided entries evals cfg ds :
  length ds = length entries ->
  merge_decisions 0 (imap rule_result_of entries) evals cfg ds ->
  Forall2 (decided evals) entries ds.
Proof.
  intros Hlen Hds. apply Forall2_same_length_lookup. split; [done|].
  intros j entry d He Hd.
  destruct (Hds j d Hd) as (r0 & Hr0 & Hone). simpl in Hr0, Hone.
  rewrite list_lookup_imap, He in Hr0. injection Hr0 as <-.
  unfold merge_one in Hone. simpl in Hone. unfold decided.
  destruct (accepted entry) eqn:Hacc; simpl in Hone.
  - destruct (keep_and_score _ _) as [kept|e']; simpl in Hone; [|discriminate].
    injection Hone as <-. simpl. split; [reflexivity|]. split; [reflexivity|]. eauto.
  - injection Hone as <-. unfold rule_result_of. rewrite Hacc. done.
Qed.

Lemma stage_tags_differ : py "rule_filter" <> py "ai_evaluation".
Proof. vm_compute. discriminate. Qed.

Lemma decided_counts evals entries ds :
  Forall2 (decided evals) entries ds ->
  length (filter (fun r => stage r = py "rule_filter") (low_of ds)) =
    length (filter (fun e => accepted e = false) entries) /\
  length (filter (fun r => stage r = py "ai_evaluation") (low_of ds)) +
    length (high_of ds) = length (filter (fun e => accepted e = true) entries) /\
  filter (fun r => py_truthy (is_kept r) = true) (high_of ds) = high_of ds /\
  filter (fun r => py_truthy (is_kept r) = true) (low_of ds) = [].
Proof.
  induction 1 as [|entry d entries ds Hd _ IH]; [done|].
  destruct IH as (IH1 & IH2 & IH3 & IH4).
  rewrite high_of_cons, low_of_cons, !filter_app, !length_app, !(filter_cons _ entry).
  unfold decided in Hd. pose proof stage_tags_differ as Htags.
  destruct (accepted entry) eqn:Hacc.
  - destruct Hd as (Hstage & Hkept & _).
    rewrite (decide_True (P := true = true)), (decide_False (P := true = false)) by done.
    destruct d.1 eqn:Hd1; simpl.
    + rewrite filter_cons, decide_True by done. rewrite IH3, IH4.
      repeat split; simpl; lia || done.
    + rewrite !filter_cons, Hstage, filter_nil.
      rewrite (decide_False (P := py "ai_evaluation" = py "rule_filter")) by done.
      rewrite decide_True by done. rewrite decide_False by (by rewrite <- Hkept).
      rewrite IH3, IH4. repeat split; simpl; lia || done.
  - destruct Hd as (Hd1 & Hstage & Hkept & _). rewrite Hd1.
    rewrite (decide_False (P := false = true)), (decide_True (P := false = false)) by done.
    rewrite !filter_cons, !filter_nil, Hstage, Hkept.
    rewrite decide_True by done.
    rewrite (decide_False (P := py "rule_filter" = py "ai_evaluation")) by done.
    rewrite decide_False by done.
    rewrite IH3, IH4. repeat split; simpl; lia || done.
Qed.

Lemma accepted_split (entries : list pyval) :
  length (filter (fun e => accepted e = false) entries) +
  length (filter (fun e => accepted e = true) entries) = length entries.
Proof.
  induction entries as [|e entries IH]; [reflexivity|].
  rewrite !filter_cons. destruct (accepted e).
  - rewrite (decide_False (P := true = false)), (decide_True (P := true = true)) by done.
    simpl. lia.
  - rewrite (decide_True (P := false = false)), (decide_False (P := false = true)) by done.
    simpl. lia.
Qed.

Section Report.
Context `{PythonRuntime} {disk : Type} `{!TextFiles disk}.

(** The scores the repository's batch evaluator stores are numbers. *)
Lemma apply_ai_evaluation_number ai_manager
    (as_completed : list (nat * batch) -> list (nat * batch))
    (passed_entries : batch) (config : ProcessingConfig) ai_evaluations sent i ev :
  apply_ai_evaluation (default_evaluator ai_manager) as_completed
    passed_entries config = Ok (ai_evaluations, sent) ->
  ai_evaluations !! i = Some ev ->
  exists s k r, ev = mk_evaluation s k r /\ is_number s = true.
Proof.
  unfold apply_ai_evaluation.
  case_bool_decide; [intros [= <- <-]; by rewrite lookup_empty|].
  destruct (make_batches _ _) as [batches|e] eqn:Hb; simpl; [|discriminate].
  destruct (thread_pool _) as [[]|e]; simpl; [|discriminate].
  intros [= Hf] Hi.
  pose proof (collect_lookup (default_evaluator ai_manager) (∅, [])
                (as_completed (submit_all batches)) i ev) as Hd.
  rewrite Hf in Hd. simpl in Hd. destruct (Hd Hi) as [Hm|([k b] & Hfut & Hin)].
  { by rewrite lookup_empty in Hm. }
  unfold writes, default_evaluator in Hin. simpl in Hin.
  by eapply evaluate_batch_evaluation.
Qed.

(** What the merge of a run yields: the decisions taken for the records. *)
Lemma merged_run ai_manager
    (as_completed : list (nat * batch) -> list (nat * batch))
    (config : ProcessingConfig) data_entries passed rr evals sent high low :
  apply_rule_filtering data_entries = Ok (passed, rr) ->
  apply_ai_evaluation (default_evaluator ai_manager) as_completed passed config =
    Ok (evals, sent) ->
  merge_results data_entries rr evals config = Ok (high, low) ->
  exists ds,
    high = high_of ds /\ low = low_of ds /\ data_entries <> [] /\
    length (high_of ds) + length (low_of ds) = length data_entries /\
    merge_decisions 0 (imap rule_result_of data_entries) evals config ds /\
    Forall2 (decided evals) data_entries ds /\
    (forall j ev, evals !! j = Some ev ->
       exists s k r, ev = mk_evaluation s k r /\ is_number s = true).
Proof.
  intros Hrule Hai Hm.
  destruct (rule_results_indexed _ _ _ Hrule) as [Hlen Hidx].
  apply apply_rule_filtering_Ok in Hrule as (Hne & -> & ->).
  apply merge_results_decisions in Hm as (ds & Hdl & Hds & -> & -> & Hperm);
    [|exact Hidx].
  exists ds. split; [reflexivity|]. split; [reflexivity|]. split; [exact Hne|].
  split.
  { apply Permutation_length in Hperm.
    by rewrite length_app, !length_fmap, length_seq in Hperm. }
  split; [exact Hds|]. split; [exact (decisions_decided _ _ _ _ Hdl Hds)|].
  intros j ev Hev. by eapply apply_ai_evaluation_number.
Qed.

(** The report of the decisions of a run: it is built unless the clock
    reads zero, and its figures are those of the decisions. *)
Lemma generate_report_figures (total_processing_time : float) (model_info : pyval)
    (data_entries : list pyval) (evals : gmap nat pydict) (config : ProcessingConfig)
    (ds : list (bool * FilterResult)) :
  data_entries <> [] ->
  length (high_of ds) + length (low_of ds) = length data_entries ->
  Forall2 (decided evals) data_entries ds ->
  (forall j ev, evals !! j = Some ev ->
     exists s k r, ev = mk_evaluation s k r /\ is_number s = true) ->
  (PrimFloat.eqb total_processing_time PrimFloat.zero = true ->
   generate_report total_processing_time model_info data_entries (high_of ds)
     (low_of ds) config =
     Raise (Exn ZeroDivisionError (py "float division by zero"))) /\
  (PrimFloat.eqb total_processing_time PrimFloat.zero = false ->
   exists report analysis,
     generate_report total_processing_time model_info data_entries (high_of ds)
       (low_of ds) config = Ok report /\
     summary_total_entries (summary report) = length data_entries /\
     high_quality_entries (summary report) + low_quality_entries (summary report) =
       length data_entries /\
     rule_filter_failed (stage_statistics report) =
       length (filter (fun e => accepted e = false) data_entries) /\
     rule_filter_passed (stage_statistics report) =
       Z.of_nat (length (filter (fun e => accepted e = true) data_entries)) /\
     ai_evaluation_failed (stage_statistics report) +
       ai_evaluation_passed (stage_statistics report) =
       length (filter (fun e => accepted e = true) data_entries) /\
     ai_evaluation_passed (stage_statistics report) = length (high_of ds) /\
     quality_analysis report = Some analysis /\
     total_entries analysis = length data_entries /\
     kept_entries analysis = length (high_of ds)).
Proof.
  intros Hne Htotal Hdec Hnum.
  destruct (decided_counts evals data_entries ds Hdec) as (Hrf & Haf & Hkh & Hkl).
  unfold generate_report, py_truediv.
  destruct (Nat.eqb_spec (length data_entries) 0) as [E0|_].
  { by destruct data_entries. }
  simpl. split.
  { intros ->. reflexivity. }
  intros ->. simpl.
  pose proof (get_quality_summary_cases (high_of ds ++ low_of ds)) as Hsum.
  destruct (get_quality_summary (high_of ds ++ low_of ds)) as [[analysis|]|e] eqn:Hq.
  - simpl. eexists _, analysis. split; [reflexivity|]. simpl.
    destruct Hsum as (_ & Ht & _).
    split; [reflexivity|]. split; [exact Htotal|]. split; [exact Hrf|].
    split; [rewrite Hrf; pose proof (accepted_split data_entries); lia|].
    split; [exact Haf|]. split; [reflexivity|].
    split; [reflexivity|]. split; [by rewrite Ht, length_app|].
    unfold get_quality_summary in Hq. case_bool_decide; [discriminate|].
    destruct (count_scores _ _); simpl in Hq; [|discriminate].
    injection Hq as <-. simpl. by rewrite filter_app, Hkh, Hkl, app_nil_r.
  - exfalso. apply (f_equal length) in Hsum. rewrite length_app in Hsum.
    simpl in Hsum. destruct data_entries; [done|simpl in *; lia].
  - exfalso. destruct Hsum as [_ Hex]. apply Exists_exists in Hex as (r & Hr & Hh).
    assert (Hin : r ∈ ds.*2) by (by rewrite <- high_low_permutation).
    apply list_elem_of_fmap in Hin as (d & -> & Hd).
    apply list_elem_of_lookup in Hd as [j Hj].
    destruct (Forall2_lookup_r _ _ _ _ _ Hdec Hj) as (entry & _ & Hde).
    unfold decided in Hde. destruct (accepted entry).
    + destruct Hde as (_ & _ & j' & Hscore). rewrite Hscore in Hh.
      destruct (evals !! j') as [ev|] eqn:Hev; simpl in Hh; [|discriminate].
      destruct (Hnum _ _ Hev) as (s & k & r0 & -> & Hn).
      change (dict_get (mk_evaluation s k r0) (py "score") (VInt 5)) with s in Hh.
      by destruct s.
    + destruct Hde as (_ & _ & _ & Hscore). by rewrite Hscore in Hh.
Qed.

(** X14: the report of a completed run.  When the clock reading is not zero,
    [generate_report] returns a report whose figures agree with the run: the
    high- and low-quality counts add up to the number of loaded records; the
    rule stage failed the records it did not accept and passed the others;
    the records it passed are those the judgment stage passed (the
    high-quality ones) or failed; and the quality analysis covers every
    record and counts as kept exactly the high-quality ones.  With a clock
    reading of zero the report raises ZeroDivisionError, after the output
    file was written. *)
Theorem generate_report_of_run (ai_manager : content_generator)
    (run_model_info : pyval)
    (as_completed : list (nat * batch) -> list (nat * batch))
    (run_processing_time : float) (fs : disk)
    (lines : list pystr) (output_file : pystr) (config : ProcessingConfig)
    (data_entries : list pyval) (high low : list FilterResult)
    (saved : list pyval) (sent : list pystr)
    (total_processing_time : float) (model_info : pyval) :
  load_data lines (sample_size config) = Ok data_entries ->
  filter_data ai_manager run_model_info as_completed run_processing_time fs lines
      output_file config = (Completed high low saved, sent) ->
  (PrimFloat.eqb total_processing_time PrimFloat.zero = true ->
   generate_report total_processing_time model_info data_entries high low config =
     Raise (Exn ZeroDivisionError (py "float division by zero"))) /\
  (PrimFloat.eqb total_processing_time PrimFloat.zero = false ->
   exists report analysis,
     generate_report total_processing_time model_info data_entries high low config =
       Ok report /\
     summary_total_entries (summary report) = length data_entries /\
     high_quality_entries (summary report) + low_quality_entries (summary report) =
       length data_entries /\
     rule_filter_failed (stage_statistics report) =
       length (filter (fun e => accepted e = false) data_entries) /\
     rule_filter_passed (stage_statistics report) =
       Z.of_nat (length (filter (fun e => accepted e = true) data_entries)) /\
     ai_evaluation_failed (stage_statistics report) +
       ai_evaluation_passed (stage_statistics report) =
       length (filter (fun e => accepted e = true) data_entries) /\
     ai_evaluation_passed (stage_statistics report) = length saved /\
     quality_analysis report = Some analysis /\
     total_entries analysis = length data_entries /\
     kept_entries analysis = length high).
Proof.
  intros Hload Hrun.
  apply filter_data_completed in Hrun
    as (entries' & passed & rr & evals & fs1 & report & fs2 &
        Hload' & Hrule & _ & Hai & Hm & Hs & _ & _).
  rewrite Hload in Hload'. injection Hload' as <-.
  apply save_results_documents, Forall2_length in Hs.
  destruct (merged_run _ _ _ _ _ _ _ _ _ _ Hrule Hai Hm)
    as (ds & -> & -> & Hne & Htotal & _ & Hdec & Hnum).
  rewrite <- Hs.
  exact (generate_report_figures total_processing_time model_info data_entries evals
           config ds Hne Htotal Hdec Hnum).
Qed.

(** How a run whose results are merged ends. *)
Lemma filter_data_after_merge ai_manager model_info
    (as_completed : list (nat * batch) -> list (nat * batch))
    total_processing_time (fs : disk) lines output_file config
    data_entries passed rr evals sent high low :
  load_data lines (sample_size config) = Ok data_entries ->
  apply_rule_filtering data_entries = Ok (passed, rr) ->
  passed <> [] ->
  apply_ai_evaluation (default_evaluator ai_manager) as_completed passed config =
    Ok (evals, sent) ->
  merge_results data_entries rr evals config = Ok (high, low) ->
  exists outcome,
    filter_data ai_manager model_info as_completed total_processing_time fs lines
      output_file config = (outcome, sent) /\
    ends_after_merge fs total_processing_time model_info data_entries high low
      config output_file outcome.
Proof.
  intros Hload Hrule Hpassed Hai Hm.
  destruct (merged_run _ _ _ _ _ _ _ _ _ _ Hrule Hai Hm)
    as (ds & Eh & El & Hne & Htotal & _ & Hdec & Hnum).
  destruct (generate_report_figures total_processing_time model_info data_entries
              evals config ds Hne Htotal Hdec Hnum) as [Hzero Hreport].
  rewrite <- Eh, <- El in Hzero, Hreport.
  unfold filter_data. rewrite Hload, Hrule.
  rewrite (bool_decide_eq_false_2 _ Hpassed), Hai, Hm.
  destruct (save_results fs data_entries high output_file) as [fs1 [saved|e]] eqn:Hs.
  2: { eexists. split; [reflexivity|]. by eapply output_file_fails. }
  destruct (PrimFloat.eqb total_processing_time PrimFloat.zero) eqn:Et.
  { rewrite (Hzero eq_refl). eexists. split; [reflexivity|].
    by eapply clock_reads_zero. }
  destruct (Hreport eq_refl) as (report & analysis & Hr & _). rewrite Hr.
  destruct (save_report fs1 report output_file) as [fs2 [[]|e]] eqn:Hw.
  - eexists. split; [reflexivity|]. by eapply run_completes.
  - eexists. split; [reflexivity|]. by eapply report_file_fails.
Qed.

(** Once the input is loaded, a run with a positive batch size and worker
    count aborts on empty input, halts when no record is accepted, and
    otherwise merges its results and goes on to write its files. *)
Lemma filter_data_ends (ai_manager : content_generator) (model_info : pyval)
    (as_completed : list (nat * batch) -> list (nat * batch))
    (total_processing_time : float) (fs : disk)
    (lines : list pystr) (output_file : pystr) (config : ProcessingConfig)
    (data_entries : list pyval) :
  load_data lines (sample_size config) = Ok data_entries ->
  (forall futures, as_completed futures ≡ₚ futures) ->
  (0 < batch_size config)%Z -> (0 < max_workers config)%Z ->
  (data_entries = [] /\
   filter_data ai_manager model_info as_completed total_processing_time fs lines
      output_file config =
     (Aborted (Exn ZeroDivisionError (py "division by zero")), [])) \/
  (data_entries <> [] /\ Forall (fun e => accepted e = false) data_entries /\
   filter_data ai_manager model_info as_completed total_processing_time fs lines
      output_file config = (NoRulePass, [])) \/
  (Exists (fun e => accepted e = true) data_entries /\
   exists high low outcome sent,
     filter_data ai_manager model_info as_completed total_processing_time fs lines
       output_file config = (outcome, sent) /\
     length high + length low = length data_entries /\
     ends_after_merge fs total_processing_time model_info data_entries high low
       config output_file outcome).
Proof.
  intros Hload Hperm Hbs Hw.
  destruct data_entries as [|entry rest] eqn:Hentries.
  { left. split; [reflexivity|]. unfold filter_data. rewrite Hload. reflexivity. }
  rewrite <- Hentries in *. assert (Hne : data_entries <> []) by (by subst).
  clear Hentries entry rest.
  destruct (decide (Exists (fun e => accepted e = true) data_entries)) as [Hex|Hnone].
  2: { right. left. split; [exact Hne|].
       assert (Hall : Forall (fun e => accepted e = false) data_entries).
       { apply Forall_forall. intros e He. apply not_true_is_false. intros Hacc.
         apply Hnone. apply Exists_exists. eauto. }
       split; [exact Hall|]. by eapply filter_data_none_passed. }
  right. right. split; [exact Hex|].
  pose proof (apply_rule_filtering_nonempty data_entries Hne) as Hrule.
  pose proof (accepted_passed data_entries Hex) as Hpassed.
  destruct (apply_rule_filtering_passed _ _ _ Hrule) as [_ Hreadable].
  destruct (apply_ai_evaluation_total ai_manager as_completed _ config
              Hreadable Hperm Hbs Hw)
    as (evals & sent & batches & Hai & _ & _ & Hshape & _).
  destruct (merge_loop_total 0 data_entries (imap rule_result_of data_entries)
              evals config [] []) as (high & low & Hm).
  { by rewrite length_imap. }
  { intros i ev Hi. destruct (Hshape i ev Hi) as (s & k & r & -> & Hn).
    by apply number_numeric_score. }
  destruct (filter_data_after_merge ai_manager model_info as_completed
              total_processing_time fs lines output_file config
              data_entries _ _ evals sent high low Hload Hrule Hpassed Hai Hm)
    as (outcome & Hrun & Hend).
  exists high, low, outcome, sent. split; [exact Hrun|]. split; [|exact Hend].
  destruct (merged_run _ _ _ _ _ _ _ _ _ _ Hrule Hai Hm)
    as (ds & -> & -> & _ & Htotal & _). exact Htotal.
Qed.

(** X8: the ways a run ends.  Once the input is loaded, with a positive
    batch size and worker count, [filter_data] ends as follows, whatever the
    judgment service answers or raises and in whatever order the batches
    complete.  With no record loaded it re-raises ZeroDivisionError.  With
    records but none accepted by the rule stage it reports that and returns
    without calling the service.  Otherwise no step up to the merge raises:
    every record gets a result, and the run ends as the writing of its files
    ends: by the exception of writing the output file, by ZeroDivisionError
    when the clock reading is zero, by the exception of writing the report
    file, or by completing with the documents written.  So a response of the
    service cannot abort a run. *)
Theorem filter_data_outcome (ai_manager : content_generator) (model_info : pyval)
    (as_completed : list (nat * batch) -> list (nat * batch))
    (total_processing_time : float) (fs : disk)
    (lines : list pystr) (output_file : pystr) (config : ProcessingConfig)
    (data_entries : list pyval) :
  load_data lines (sample_size config) = Ok data_entries ->
  (forall futures, as_completed futures ≡ₚ futures) ->
  (0 < batch_size config)%Z -> (0 < max_workers config)%Z ->
  (data_entries = [] /\
   filter_data ai_manager model_info as_completed total_processing_time fs lines
      output_file config =
     (Aborted (Exn ZeroDivisionError (py "division by zero")), [])) \/
  (data_entries <> [] /\ Forall (fun e => accepted e = false) data_entries /\
   filter_data ai_manager model_info as_completed total_processing_time fs lines
      output_file config = (NoRulePass, [])) \/
  (Exists (fun e => accepted e = true) data_entries /\
   exists high low outcome sent,
     filter_data ai_manager model_info as_completed total_processing_time fs lines
       output_file config = (outcome, sent) /\
     length high + length low = length data_entries /\
     ends_after_merge fs total_processing_time model_info data_entries high low
       config output_file outcome).
Proof. apply filter_data_ends. Qed.

End Report.

Lemma generate_report_of_run_witness :
  exists high low saved sent report,
    sample_run scoring_service id sample_lines default_config =
      (Completed high low saved, sent) /\
    generate_report 2.5%float VNone sample_entries high low default_config = Ok report /\
    rule_filter_failed (stage_statistics report) = 1 /\
    rule_filter_passed (stage_statistics report) = 2%Z /\
    ai_evaluation_failed (stage_statistics report) +
      ai_evaluation_passed (stage_statistics report) = 2 /\
    ai_evaluation_passed (stage_statistics report) = length saved.
Proof.
  destruct (sample_run scoring_service id sample_lines default_config)
    as [outcome sent] eqn:E.
  assert (Hdone : exists high low saved, outcome = Completed high low saved).
  { vm_compute in E. injection E as <- _. eauto. }
  destruct Hdone as (high & low & saved & ->).
  destruct (@generate_report_of_run Reference.runtime (list pystr) sample_files
              scoring_service sample_model_info id 2.5%float run_disk sample_lines
              sample_output default_config sample_entries high low saved sent
              2.5%float VNone sample_lines_loaded E) as [_ Hreport].
  destruct (Hreport eq_refl)
    as (report & analysis & Hr & _ & _ & Hrf & Hrp & Hai & Hap & _).
  exists high, low, saved, sent, report.
  split; [reflexivity|]. split; [exact Hr|].
  split; [exact Hrf|]. split; [exact Hrp|]. split; [exact Hai|exact Hap].
Defined.

(** A run that the service cannot answer still completes on the sample file
    system; on one without the output directory it ends by the OSError of
    opening the output file, after the service was called. *)
Lemma filter_data_outcome_witness :
  (exists high low outcome sent,
     sample_run failing_service reverse sample_lines (mkProcessingConfig 7 1 2 None) =
       (outcome, sent) /\
     ends_after_merge run_disk 2.5%float sample_model_info sample_entries high low
       (mkProcessingConfig 7 1 2 None) sample_output outcome /\
     exists h l saved, outcome = Completed h l saved) /\
  (exists high low outcome sent,
     @filter_data Reference.runtime (list pystr) sample_files failing_service
       sample_model_info reverse 2.5%float sample_disk sample_lines sample_output
       (mkProcessingConfig 7 1 2 None) = (outcome, sent) /\
     ends_after_merge sample_disk 2.5%float sample_model_info sample_entries high low
       (mkProcessingConfig 7 1 2 None) sample_output outcome /\
     outcome = Aborted (Exn OSError (py "[Errno 2] No such file or directory: '" ++
                                     sample_output ++ py "'"))).
Proof.
  split.
  - destruct (@filter_data_outcome Reference.runtime (list pystr) sample_files
                failing_service sample_model_info reverse 2.5%float run_disk
                sample_lines sample_output (mkProcessingConfig 7 1 2 None)
                sample_entries)
      as [[E _]|[(_ & Hall & _)|[_ (high & low & outcome & sent & Hrun & _ & Hend)]]].
    + exact sample_lines_loaded.
    + intros futures. apply reverse_Permutation.
    + cbn [batch_size]. lia.
    + cbn [max_workers]. lia.
    + discriminate E.
    + exfalso. apply Forall_cons in Hall as [Hb _]. vm_compute in Hb. discriminate.
    + exists high, low, outcome, sent. split; [exact Hrun|]. split; [exact Hend|].
      vm_compute in Hrun. injection Hrun as <- _. eauto.
  - destruct (@filter_data_outcome Reference.runtime (list pystr) sample_files
                failing_service sample_model_info reverse 2.5%float sample_disk
                sample_lines sample_output (mkProcessingConfig 7 1 2 None)
                sample_entries)
      as [[E _]|[(_ & Hall & _)|[_ (high & low & outcome & sent & Hrun & _ & Hend)]]].
    + exact sample_lines_loaded.
    + intros futures. apply reverse_Permutation.
    + cbn [batch_size]. lia.
    + cbn [max_workers]. lia.
    + discriminate E.
    + exfalso. apply Forall_cons in Hall as [Hb _]. vm_compute in Hb. discriminate.
    + exists high, low, outcome, sent. split; [exact Hrun|]. split; [exact Hend|].
      vm_compute in Hrun. injection Hrun as <- _. vm_compute. reflexivity.
Defined.

(** ** The service client *)

Lemma lstrip_split s :
  exists ws, s = ws ++ lstrip s /\ Forall (fun c => is_space c = true) ws.
Proof.
  induction s as [|c s (ws & Hs & Hws)]; simpl.
  - exists []. by split.
  - destruct (is_space c) eqn:Hc.
    + exists (c :: ws). split; [simpl; by f_equal|by constructor].
    + exists []. by split.
Qed.

Lemma strip_split s :
  exists ws1 ws2, s = ws1 ++ strip s ++ ws2 /\
    Forall (fun c => is_space c = true) ws1 /\ Forall (fun c => is_space c = true) ws2.
Proof.
  unfold strip. destruct (lstrip_split s) as (ws1 & Hs & H1).
  destruct (lstrip_split (rev (lstrip s))) as (ws2 & Ht & H2).
  exists ws1, (rev ws2). split; [|split; [exact H1|]].
  - rewrite <- rev_app_distr, <- Ht, rev_involutive. exact Hs.
  - apply Forall_forall. intros c Hc. apply list_elem_of_In, in_rev in Hc.
    apply (proj1 (Forall_forall _ _) H2). by apply list_elem_of_In.
Qed.

Lemma space_not_bracket c : is_space c = true -> c <> 91%N /\ c <> 93%N.
Proof. intros Hc. split; intros ->; vm_compute in Hc; discriminate. Qed.

Lemma re_search_array_skip pre s :
  Forall (fun c => c <> 91%N) pre -> re_search_array (pre ++ s) = re_search_array s.
Proof.
  induction 1 as [|c pre Hc _ IH]; simpl; [reflexivity|].
  destruct (N.eqb_spec c 91); [done|exact IH].
Qed.

Lemma until_close_app r ws :
  Forall (fun c => c <> 93%N) ws -> until_close (r ++ ws) = until_close r.
Proof.
  intros Hws. induction r as [|c r IH]; simpl.
  - induction Hws as [|w ws Hw _ IH]; simpl; [reflexivity|].
    destruct (N.eqb_spec w 93); [done|]. by rewrite IH.
  - destruct (c =? 93)%N; [reflexivity|]. by rewrite IH.
Qed.

Lemma re_search_array_app s ws :
  Forall (fun c => c <> 91%N /\ c <> 93%N) ws ->
  re_search_array (s ++ ws) = re_search_array s.
Proof.
  intros Hws. induction s as [|c s IH]; simpl.
  - induction Hws as [|w ws [Hw _] _ IH]; simpl; [reflexivity|].
    destruct (N.eqb_spec w 91); [done|exact IH].
  - rewrite until_close_app, IH; [reflexivity|].
    eapply Forall_impl; [exact Hws|]. by intros w [_ ?].
Qed.

Lemma re_search_array_strip s : re_search_array (strip s) = re_search_array s.
Proof.
  destruct (strip_split s) as (ws1 & ws2 & Hs & H1 & H2).
  rewrite Hs at 2. rewrite re_search_array_skip, re_search_array_app; [reflexivity|..].
  - eapply Forall_impl; [exact H2|]. intros c Hc. by apply space_not_bracket.
  - eapply Forall_impl; [exact H1|]. intros c Hc. by apply space_not_bracket.
Qed.

Section Client.
Context `{PythonRuntime}.

Lemma parse_ai_response_strip text n :
  parse_ai_response (strip text) n = parse_ai_response text n.
Proof. unfold parse_ai_response, parse_body. by rewrite re_search_array_strip. Qed.

(** X15: the batch evaluator over the repository's service client.  When
    the client library raises [e] on the batch's prompt, [generate_content]
    re-raises it as a RuntimeError and every readable record of the batch
    gets score 6, keep true and the reason '评估失败-批次<id>: 内容生成失败:
    <e>'.  When the library answers, the whitespace [generate_content] trims
    from the text changes nothing: the batch is evaluated as from the
    untrimmed text. *)
Theorem evaluate_batch_with_client (model_text : pystr -> result pystr)
    (entries : list (nat * pyval)) (batch_id : nat) (prompt : pystr) :
  valid_entries entries <> [] ->
  create_evaluation_prompt (valid_entries entries).*2 = Ok prompt ->
  match model_text prompt with
  | Raise e =>
      VertexAIManager.generate_content model_text prompt =
        Raise (Exn RuntimeError (py "内容生成失败: " ++ exn_str e)) /\
      evaluate_batch (VertexAIManager.generate_content model_text) entries batch_id =
        (map (fun ie => (ie.1, mk_evaluation (VInt 6) (VBool true)
                                 (py "评估失败-批次" ++ str_of_nat batch_id ++
                                  py ": 内容生成失败: " ++ exn_str e)))
           (valid_entries entries).*1, [prompt])
  | Ok text =>
      evaluate_batch (VertexAIManager.generate_content model_text) entries batch_id =
      evaluate_batch (fun _ => Ok text) entries batch_id
  end.
Proof.
  intros Hne Hp. unfold evaluate_batch.
  rewrite bool_decide_eq_false_2 by (intros ->; apply Hne; reflexivity).
  rewrite bool_decide_eq_false_2 by (intros E; apply fmap_nil_inv in E; done).
  rewrite Hp. unfold VertexAIManager.generate_content.
  destruct (model_text prompt) as [text|e].
  - by rewrite parse_ai_response_strip.
  - split; [reflexivity|]. unfold batch_failure. simpl exn_str.
    assert (E : py ": 内容生成失败: " = py ": " ++ py "内容生成失败: ")
      by (vm_compute; reflexivity).
    rewrite E, <- !app_assoc. reflexivity.
Qed.

End Client.

Lemma evaluate_batch_with_client_witness :
  @evaluate_batch Reference.runtime
    (VertexAIManager.generate_content (fun _ => Raise (Exn OtherError (py "429 quota"))))
    [(4, breakfast_record); (7, one_turn_record)] 1 =
    ([(4, mk_evaluation (VInt 6) (VBool true)
            (py "评估失败-批次1: 内容生成失败: 429 quota"))],
     [py "请评估以下1个酒店服务问答对的质量。
评分标准：1-10分，7分及以上为高质量数据。

评估要点：
1. 问题是否清晰具体且与酒店服务相关？
2. 回答是否专业准确且有实用价值？
3. 问答是否匹配且逻辑合理？

[1] Q: 酒店的早餐时间是什么时候？
A: 我们酒店的早餐供应时间是每天早上6:30到10:00，周末延长到10:30。早餐在一楼餐厅提供，包含中西式各种选择。

请严格按照JSON数组格式回复：
[{" ++ quoted "score" ++ py ":8," ++ quoted "keep" ++ py ":true},{" ++
      quoted "score" ++ py ":6," ++ quoted "keep" ++ py ":false}...]"]).
Proof.
  destruct (@create_evaluation_prompt Reference.runtime
              (valid_entries [(4, breakfast_record); (7, one_turn_record)]).*2)
    as [prompt|e] eqn:Hp; [|vm_compute in Hp; discriminate].
  pose proof (@evaluate_batch_with_client Reference.runtime
                (fun _ => Raise (Exn OtherError (py "429 quota")))
                [(4, breakfast_record); (7, one_turn_record)] 1 prompt) as Hw.
  simpl in Hw. destruct Hw as [_ ->].
  - vm_compute. discriminate.
  - exact Hp.
  - vm_compute in Hp. injection Hp as <-. vm_compute. reflexivity.
Defined.

(** ** The command-line script *)

Import FilterDataScript.

Section ScriptProperties.
Context `{PythonRuntime} {disk : Type} `{!OperatingSystem disk} `{!TextFiles disk}.

Lemma app_nil_inv {A} (l1 l2 : list A) : l1 ++ l2 = [] -> l1 = [] /\ l2 = [].
Proof. by destruct l1, l2. Qed.

(** Arguments without errors give a configuration in range. *)
Lemma validate_arguments_ranges (fs : disk) (args : Namespace) :
  (validate_arguments fs args).1 = [] ->
  path_exists fs (arg_input args) = true /\
  (1 <= arg_min_score args <= 10)%Z /\
  (0 < arg_batch_size args)%Z /\ (0 < arg_max_workers args)%Z /\
  match arg_sample_size args with
  | Some k => (0 < k)%Z
  | None => True
  end.
Proof.
  unfold validate_arguments.
  destruct (if negb (bool_decide (path_dirname (arg_output args) = [])) && _
            then _ else _) as [errors2 fs'].
  cbn [fst]. intros Herr.
  apply app_nil_inv in Herr as [H1 Herr].
  apply app_nil_inv in Herr as [_ Herr].
  apply app_nil_inv in Herr as [_ Herr].
  apply app_nil_inv in Herr as [H4 Herr].
  apply app_nil_inv in Herr as [H5 Herr].
  apply app_nil_inv in Herr as [H6 H7].
  split; [|split; [|split; [|split]]].
  - by destruct (path_exists fs (arg_input args)).
  - destruct (Z.leb_spec 1 (arg_min_score args)),
      (Z.leb_spec (arg_min_score args) 10); simpl in H4; try discriminate. lia.
  - destruct (Z.leb_spec (arg_batch_size args) 0); [discriminate|lia].
  - destruct (Z.leb_spec (arg_max_workers args) 0); [discriminate|lia].
  - destruct (arg_sample_size args) as [k|]; [|done].
    destruct (Z.leb_spec k 0); [discriminate|lia].
Qed.

(** Every non-positive batch size or worker count is reported. *)
Lemma validate_arguments_reports (fs : disk) (args : Namespace) :
  ((arg_batch_size args <= 0)%Z ->
   py "批处理大小必须大于0" ∈ (validate_arguments fs args).1) /\
  ((arg_max_workers args <= 0)%Z ->
   py "最大并发数必须大于0" ∈ (validate_arguments fs args).1).
Proof.
  unfold validate_arguments.
  destruct (if negb (bool_decide (path_dirname (arg_output args) = [])) && _
            then _ else _) as [errors2 fs'].
  cbn [fst]. split; intros Hle; rewrite !elem_of_app.
  - do 4 right. left. destruct (Z.leb_spec (arg_batch_size args) 0); [left|lia].
  - do 5 right. left. destruct (Z.leb_spec (arg_max_workers args) 0); [left|lia].
Qed.

(** X16: the script runs the filter only with arguments in range.  [main]
    ends with the validation errors whenever the batch size or the worker
    count is not positive; when it runs the filter, on the file system the
    validation leaves, the input file exists, the minimum score is between 1
    and 10 and batch size, worker count and sample size (when given) are
    positive.  Once the input is loaded, such a run aborts either by
    ZeroDivisionError on empty input or, with an accepted record and every
    record given a result, as the writing of its files ends (an exception of
    writing the output or the report file, or ZeroDivisionError at a clock
    reading of zero); it halts exactly when records were loaded and none was
    accepted; and it completes only with an accepted record and both files
    written.  So no step before the files are written raises: the
    ValueError of a zero batch size or a non-positive worker count cannot
    occur. *)
Theorem main_runs_validated (fs : disk) (args : Namespace)
    (ai_manager : content_generator) (model_info : pyval)
    (as_completed : list (nat * batch) -> list (nat * batch))
    (total_processing_time : float) (lines : list pystr) :
  (forall futures, as_completed futures ≡ₚ futures) ->
  match main fs args ai_manager model_info as_completed total_processing_time lines with
  | ArgumentErrors errors => errors = (validate_arguments fs args).1 /\ errors <> []
  | Ran outcome sent =>
      path_exists fs (arg_input args) = true /\
      (1 <= arg_min_score args <= 10)%Z /\
      (0 < arg_batch_size args)%Z /\ (0 < arg_max_workers args)%Z /\
      match arg_sample_size args with
      | Some k => (0 < k)%Z
      | None => True
      end /\
      (outcome, sent) =
        filter_data ai_manager model_info as_completed total_processing_time
          (validate_arguments fs args).2 lines (arg_output args)
          (processing_config args) /\
      forall data_entries,
        load_data lines (arg_sample_size args) = Ok data_entries ->
        match outcome with
        | Aborted e =>
            (data_entries = [] /\ e = Exn ZeroDivisionError (py "division by zero")) \/
            (Exists (fun e => accepted e = true) data_entries /\
             exists high low,
               length high + length low = length data_entries /\
               ends_after_merge (validate_arguments fs args).2 total_processing_time
                 model_info data_entries high low (processing_config args)
                 (arg_output args) (Aborted e))
        | NoRulePass =>
            data_entries <> [] /\ Forall (fun e => accepted e = false) data_entries
        | Completed high low saved =>
            Exists (fun e => accepted e = true) data_entries /\
            length high + length low = length data_entries /\
            ends_after_merge (validate_arguments fs args).2 total_processing_time
              model_info data_entries high low (processing_config args)
              (arg_output args) (Completed high low saved)
        end
  end /\
  ((arg_batch_size args <= 0)%Z \/ (arg_max_workers args <= 0)%Z ->
   exists errors,
     main fs args ai_manager model_info as_completed total_processing_time lines =
       ArgumentErrors errors).
Proof.
  intros Hperm. unfold main.
  pose proof (validate_arguments_ranges fs args) as Hranges.
  pose proof (validate_arguments_reports fs args) as [Hbs Hmw].
  destruct (validate_arguments fs args) as [errors fs'] eqn:Hv. cbn [fst snd] in *.
  case_bool_decide as Herr; simpl.
  - subst errors. split.
    2: { intros [Hle|Hle]; [apply Hbs in Hle|apply Hmw in Hle];
           by apply elem_of_nil in Hle. }
    destruct (Hranges eq_refl) as (Hin & Hmin & Hb & Hw & Hs).
    destruct (filter_data _ _ _ _ _ _ _ _) as [outcome sent] eqn:Hrun.
    repeat (split; [assumption || reflexivity|]).
    intros data_entries Hload.
    destruct (filter_data_ends ai_manager model_info as_completed
                total_processing_time fs' lines (arg_output args)
                (processing_config args) data_entries Hload Hperm Hb Hw)
      as [[-> E]|[(Hne & Hall & E)|(Hex & high & low & outcome' & sent' & E & Hlen & Hend)]];
      rewrite Hrun in E; injection E as -> ->.
    + left. split; reflexivity.
    + split; assumption.
    + destruct outcome' as [e| |high' low' saved].
      * right. split; [exact Hex|]. exists high, low. split; assumption.
      * inversion Hend.
      * split; [exact Hex|].
        assert (high' = high /\ low' = low) as [-> ->] by (inversion Hend; by subst).
        split; assumption.
  - split; [split; [reflexivity|assumption]|]. intros _. eexists. reflexivity.
Qed.

End ScriptProperties.

(** The script on the sample file system: the validation creates the output
    directory, and the run completes. *)
Lemma main_runs_validated_witness :
  exists high low saved sent,
    @main Reference.runtime (list pystr) sample_os sample_files sample_disk
      sample_arguments scoring_service sample_model_info reverse 2.5%float
      sample_lines = Ran (Completed high low saved) sent /\
    length high + length low = 3 /\
    ends_after_merge run_disk 2.5%float sample_model_info sample_entries high low
      (mkProcessingConfig 7 12 6 None) sample_output (Completed high low saved).
Proof.
  pose proof (@main_runs_validated Reference.runtime (list pystr) sample_os
                sample_files sample_disk sample_arguments scoring_service
                sample_model_info reverse 2.5%float sample_lines) as Hmain.
  destruct Hmain as [Hmain _].
  { intros futures. apply reverse_Permutation. }
  destruct (@main Reference.runtime (list pystr) sample_os sample_files sample_disk
              sample_arguments scoring_service sample_model_info reverse 2.5%float
              sample_lines) as [errors|outcome sent] eqn:E.
  { exfalso. vm_compute in E. discriminate E. }
  assert (Hdone : exists high low saved, outcome = Completed high low saved).
  { vm_compute in E. injection E as <- _. eauto. }
  destruct Hdone as (high & low & saved & ->).
  destruct Hmain as (_ & _ & _ & _ & _ & _ & Hends).
  destruct (Hends sample_entries sample_lines_loaded) as (_ & Hlen & Hend).
  exists high, low, saved, sent. split; [reflexivity|]. split; [exact Hlen|exact Hend].
Defined.

(** ** Calls of the judgment service *)

Lemma collect_sent_exact evaluator st futs :
  (forall fut, fut ∈ futs -> length (evaluator fut.2 fut.1).2 = 1) ->
  length (foldl (collect_one evaluator) st futs).2 = length st.2 + length futs.
Proof.
  revert st. induction futs as [|[batch_id b] futs IH]; intros st Hone; simpl.
  - lia.
  - rewrite IH by (intros fut Hfut; apply Hone; by right).
    unfold collect_one. specialize (Hone (batch_id, b) ltac:(left)). simpl in Hone.
    destruct (evaluator b batch_id) as [[results|e] sent]; simpl in *;
      rewrite length_app; lia.
Qed.

Lemma filter_imap_length {A} (P : A -> bool) (l : list A) k :
  length (filter (fun ie : nat * A => P ie.2 = true) (imap (fun j e => (k + j, e)) l)) =
  length (filter (fun e => P e = true) l).
Proof.
  revert k. induction l as [|x l IH]; intros k; [reflexivity|].
  rewrite imap_cons, !filter_cons.
  rewrite (imap_ext _ (fun j e => (S k + j, e)) l) by (intros; simpl; f_equal; lia).
  specialize (IH (S k)). cbn [snd].
  destruct (decide (P x = true)); cbn [length]; by rewrite IH.
Qed.

Section Calls.
Context `{PythonRuntime} {disk : Type} `{!TextFiles disk}.

(** The prompt of a batch of string texts is always built. *)
Lemma create_evaluation_prompt_strings (entries_data : list (pyval * pyval)) :
  Forall (fun qa => exists q a, qa = (VStr q, VStr a)) entries_data ->
  exists prompt, create_evaluation_prompt entries_data = Ok prompt.
Proof.
  intros Hall. unfold create_evaluation_prompt.
  destruct (result_mapM_total (fun iq : nat * (pyval * pyval) => prompt_item iq.1 iq.2)
              (imap (fun i qa => (i, qa)) entries_data)) as [items ->].
  - intros [i qa] Hin. apply list_elem_of_lookup in Hin as [j Hj].
    rewrite list_lookup_imap in Hj.
    destruct (entries_data !! j) as [qa'|] eqn:Hqa; [|discriminate].
    injection Hj as <- <-.
    destruct (proj1 (Forall_lookup _ _) Hall j qa' Hqa) as (q & a & ->).
    unfold prompt_item, py_truncate. simpl.
    destruct (100 <? length q), (300 <? length a); simpl; eauto.
  - simpl. eauto.
Qed.

(** A non-empty batch of records with string texts costs one call. *)
Lemma evaluate_batch_one_prompt ai_manager entries batch_id :
  entries <> [] ->
  Forall (fun ie => is_Some (record_texts ie.2)) entries ->
  length (evaluate_batch ai_manager entries batch_id).2 = 1.
Proof.
  intros Hne Hall.
  assert (Hreadable : Forall (fun ie : nat * pyval => is_Some (extract_texts ie.2)) entries).
  { eapply Forall_impl; [exact Hall|]. intros ie [[q a] Ht]. unfold record_texts in Ht.
    destruct (extract_texts ie.2); [eauto|discriminate]. }
  pose proof (valid_entries_all entries Hreadable) as Hv.
  assert (Hstr : Forall (fun qa => exists q a, qa = (VStr q, VStr a))
                   (valid_entries entries).*2).
  { apply Forall_forall. intros qa Hqa.
    apply list_elem_of_fmap in Hqa as ([ie qa'] & -> & Hin).
    apply valid_entries_readable in Hin as [Hie Hex]. simpl.
    destruct (proj1 (Forall_forall _ _) Hall ie Hie) as [[q a] Ht].
    unfold record_texts in Ht. rewrite Hex in Ht.
    destruct qa' as [[] []]; try discriminate. eauto. }
  destruct (create_evaluation_prompt_strings _ Hstr) as [prompt Hp].
  unfold evaluate_batch.
  rewrite bool_decide_eq_false_2 by done.
  rewrite bool_decide_eq_false_2.
  2: { intros E. apply fmap_nil_inv in E. rewrite E in Hv. by subst. }
  rewrite Hp. destruct (ai_manager prompt) as [text|e]; [|reflexivity].
  destruct (build_results _ _ _); reflexivity.
Qed.

(** X17: the number of service calls of a run.  Once the input is loaded,
    with a positive batch size and worker count, the number of prompts a
    run sends to the judgment service is the number of accepted records
    divided by the batch size, rounded up: exactly one call per batch,
    no retry, and none for rejected records or when nothing was accepted. *)
Theorem filter_data_service_calls (ai_manager : content_generator)
    (model_info : pyval)
    (as_completed : list (nat * batch) -> list (nat * batch))
    (total_processing_time : float) (fs : disk)
    (lines : list pystr) (output_file : pystr) (config : ProcessingConfig)
    (data_entries : list pyval) :
  load_data lines (sample_size config) = Ok data_entries ->
  (forall futures, as_completed futures ≡ₚ futures) ->
  (0 < batch_size config)%Z -> (0 < max_workers config)%Z ->
  length (filter_data ai_manager model_info as_completed total_processing_time fs lines
      output_file config).2 =
    (length (filter (fun e => accepted e = true) data_entries) +
     Z.to_nat (batch_size config) - 1) / Z.to_nat (batch_size config).
Proof.
  intros Hload Hperm Hbs Hw. unfold filter_data. rewrite Hload.
  set (bs := Z.to_nat (batch_size config)). assert (Hpos : 0 < bs) by (unfold bs; lia).
  assert (Hzero : (0 + bs - 1) / bs = 0) by (apply Nat.div_small; lia).
  destruct (apply_rule_filtering data_entries) as [[passed rr]|e] eqn:Hrule.
  2: { unfold apply_rule_filtering in Hrule.
       destruct (rule_loop 0 data_entries) as [p a].
       unfold percent in Hrule. destruct data_entries; [exact (eq_sym Hzero)|].
       discriminate. }
  pose proof Hrule as Hrule'.
  apply apply_rule_filtering_Ok in Hrule' as (_ & Hpassed & _).
  assert (Hlen : length passed = length (filter (fun e => accepted e = true) data_entries)).
  { subst passed. apply (filter_imap_length accepted data_entries 0). }
  rewrite <- Hlen.
  case_bool_decide as Hnil; [rewrite Hnil; cbn [length snd]; by rewrite Hzero|].
  assert (Htexts : Forall (fun ie : nat * pyval => is_Some (record_texts ie.2)) passed).
  { rewrite Hpassed. apply Forall_forall. intros ie [Hacc _]%list_elem_of_filter.
    destruct (accepted_has_texts _ Hacc) as (q & a & ->). eauto. }
  destruct (make_batches_slices passed (batch_size config) Hbs)
    as (batches & Hb & Hcat & Hsize & _).
  assert (Hcount : length batches = (length passed + bs - 1) / bs).
  { unfold make_batches in Hb.
    destruct (Z.eqb_spec (batch_size config) 0) as [|_]; [lia|].
    destruct (Z.ltb_spec (batch_size config) 0) as [|_]; [lia|].
    injection Hb as <-. unfold range_step. by rewrite !length_map, length_seq. }
  unfold apply_ai_evaluation. rewrite bool_decide_eq_false_2 by done.
  rewrite Hb. simpl. unfold thread_pool.
  destruct (Z.leb_spec (max_workers config) 0); [lia|]. simpl.
  pose proof (collect_sent_exact (default_evaluator ai_manager) (∅, [])
                (as_completed (submit_all batches))) as Hs.
  destruct (foldl _ _ _) as [m sent] eqn:Hf. simpl in Hs.
  assert (Hsent : length sent = length batches).
  { rewrite Hs.
    - rewrite (Permutation_length (Hperm _)). unfold submit_all. by rewrite length_imap.
    - intros [k b] Hfut. rewrite Hperm in Hfut. apply submit_all_elem in Hfut.
      unfold default_evaluator. simpl. apply evaluate_batch_one_prompt.
      + pose proof (proj1 (Forall_lookup _ _) Hsize k b Hfut) as Hk. simpl in Hk.
        intros ->. simpl in Hk. lia.
      + apply Forall_forall. intros ie Hie.
        apply (proj1 (Forall_forall _ _) Htexts). rewrite <- Hcat.
        apply elem_of_concat. exists b. split; [done|]. by eapply list_elem_of_lookup_2. }
  rewrite <- Hcount, <- Hsent.
  destruct (merge_results _ _ _ _) as [[high low]|e]; [|reflexivity].
  destruct (save_results _ _ _ _) as [fs1 [saved|e]]; [|reflexivity].
  destruct (generate_report _ _ _ _ _ _) as [report|e]; [|reflexivity].
  destruct (save_report _ _ _) as [fs2 [[]|e]]; reflexivity.
Qed.

End Calls.

Lemma filter_data_service_calls_witness :
  length (sample_run failing_service reverse sample_lines
            (mkProcessingConfig 7 1 2 None)).2 = 2.
Proof.
  apply (@filter_data_service_calls Reference.runtime (list pystr) sample_files
           failing_service sample_model_info reverse 2.5%float run_disk sample_lines
           sample_output (mkProcessingConfig 7 1 2 None) sample_entries).
  - exact sample_lines_loaded.
  - intros futures. apply reverse_Permutation.
  - cbn [batch_size]. lia.
  - cbn [max_workers]. lia.
Defined.

(** ** The rule stage *)

Lemma StronglySorted_sublist {A} (R : A -> A -> Prop) l1 l2 :
  l1 `sublist_of` l2 -> StronglySorted R l2 -> StronglySorted R l1.
Proof.
  intros Hsub Hs. revert l1 Hsub.
  induction Hs as [|x l2 Hs IH Hall]; intros l1 Hsub.
  - apply sublist_nil_r in Hsub as ->. constructor.
  - inversion Hsub as [|y l1' l2' Hsub'|y l1' l2' Hsub']; subst.
    + constructor; [by apply IH|].
      apply Forall_forall. intros i Hi.
      apply (proj1 (Forall_forall _ _) Hall).
      by eapply sublist_subseteq.
    + by apply IH.
Qed.

(** X18: what the rule stage returns.  On a non-empty list of records
    [apply_rule_filtering] returns one result per record, in input order:
    the result at position [i] has index [i], stage 'rule_filter', the
    verdict and the reason of [validate_entry], and score 5 when the record
    is accepted and 0 otherwise.  The entries passed on to the judgment
    stage are exactly the accepted records, each paired with its position
    in the input, in input order.  On an empty list it raises
    ZeroDivisionError. *)
Theorem apply_rule_filtering_results (data_entries : list pyval) :
  match apply_rule_filtering data_entries with
  | Raise e =>
      data_entries = [] /\ e = Exn ZeroDivisionError (py "division by zero")
  | Ok (passed_entries, all_results) =>
      data_entries <> [] /\
      length all_results = length data_entries /\
      (forall i entry, data_entries !! i = Some entry ->
         all_results !! i =
           Some (mkFilterResult i (VBool (accepted entry))
                   (VInt (if accepted entry then 5 else 0))
                   (VStr (validate_entry entry).1.2) (py "rule_filter")
                   (validate_entry entry).2)) /\
      (forall i entry, (i, entry) ∈ passed_entries <->
         data_entries !! i = Some entry /\ accepted entry = true) /\
      StronglySorted lt passed_entries.*1
  end.
Proof.
  destruct data_entries as [|e0 rest] eqn:Hd; [by split|]. rewrite <- Hd.
  assert (Hne : data_entries <> []) by (by subst). clear Hd e0 rest.
  rewrite (apply_rule_filtering_nonempty _ Hne).
  split; [exact Hne|]. split; [apply length_imap|]. split; [|split].
  - intros i entry Hi. rewrite list_lookup_imap, Hi. unfold rule_result_of. simpl.
    by destruct (accepted entry).
  - intros i entry. rewrite list_elem_of_filter. simpl. split.
    + intros [Hacc Hin]. apply list_elem_of_lookup in Hin as [j Hj].
      rewrite list_lookup_imap in Hj.
      destruct (data_entries !! j) as [e|] eqn:He; [|discriminate].
      by injection Hj as <- <-.
    + intros [Hi Hacc]. split; [exact Hacc|].
      apply list_elem_of_lookup. exists i. by rewrite list_lookup_imap, Hi.
  - assert (Hgen : forall k (l : list pyval),
      StronglySorted lt (imap (fun j e => (k + j, e)) l).*1 /\
      Forall (fun i => k <= i) (imap (fun j e => (k + j, e)) l).*1).
    { intros k l. revert k. induction l as [|x l IH]; intros k.
      - split; constructor.
      - rewrite imap_cons, fmap_cons.
        rewrite (imap_ext _ (fun j e => (S k + j, e)) l)
          by (intros; simpl; f_equal; lia).
        destruct (IH (S k)) as [Hs Hall]. split.
        + constructor; [exact Hs|]. eapply Forall_impl; [exact Hall|].
          intros i Hi. simpl in *. lia.
        + constructor; [simpl; lia|]. eapply Forall_impl; [exact Hall|].
          intros i Hi. simpl in *. lia. }
    destruct (Hgen 0 data_entries) as [Hs _].
    eapply StronglySorted_sublist; [|exact Hs].
    apply fmap_sublist, sublist_filter.
Qed.

(** ** ResponseParser: one bad item *)

Section OneBadItem.
Context `{PythonRuntime}.

(** X19: one bad item spoils the whole response.  When the matched text
    decodes to an array, [parse_ai_response] uses the scores of its items
    only if each of the first [n] items is an object whose score is a
    number; a single item among them that is not (a bare number, a string
    score, a null) sends all [n] records to the fallback score 7, keep
    true, with a parse-failure reason, whatever the other items say. *)
Theorem parse_ai_response_all_or_nothing (text matched : pystr)
    (items : list pyval) (n : nat) :
  re_search_array text = Some matched ->
  json_loads matched = Ok (VList items) ->
  if forallb scorable (take n items) then
    exists out, parse_body text n = Ok out /\ parse_ai_response text n = out
  else
    exists e, parse_ai_response text n =
                replicate n (mk_evaluation (VInt 7) (VBool true)
                               (py "解析失败: " ++ exn_str e)).
Proof.
  intros Hm Hj. unfold parse_ai_response, parse_body. rewrite Hm, Hj. simpl.
  destruct (forallb scorable (take n items)) eqn:Hall.
  - destruct (result_mapM_total (standardize_item (VList items)) (seq 0 n))
      as [out ->]; [|eauto].
    intros i Hi%elem_of_seq.
    destruct (items !! i) as [v|] eqn:Hv.
    + pose proof (standardize_item_scorable items i v Hv) as Hs.
      assert (Hsc : scorable v = true).
      { rewrite forallb_forall in Hall. apply Hall, list_elem_of_In.
        apply elem_of_take. exists i. split; [done|lia]. }
      by rewrite Hsc in Hs.
    + unfold standardize_item. simpl.
      apply lookup_ge_None in Hv.
      rewrite (proj2 (Nat.ltb_ge _ _) Hv). simpl. eauto.
  - assert (Hbad : exists i v, i < n /\ items !! i = Some v /\ scorable v = false).
    { apply not_true_iff_false in Hall.
      destruct (decide (Exists (fun v => scorable v = false) (take n items)))
        as [Hex|Hno].
      - apply Exists_exists in Hex as (v & Hv & Hs).
        apply elem_of_take in Hv as (i & Hi & Hlt). eauto.
      - exfalso. apply Hall. apply forallb_forall. intros v Hv%list_elem_of_In.
        destruct (scorable v) eqn:Hs; [done|]. exfalso. apply Hno.
        apply Exists_exists. eauto. }
    destruct Hbad as (i & v & Hlt & Hv & Hs).
    pose proof (standardize_item_scorable items i v Hv) as Hst.
    rewrite Hs in Hst. destruct Hst as [e He].
    destruct (result_mapM_Raise (standardize_item (VList items)) (seq 0 n) i e)
      as [e' ->]; [apply elem_of_seq; lia|exact He|].
    exists e'. reflexivity.
Qed.

End OneBadItem.

Lemma parse_ai_response_all_or_nothing_witness :
  exists e,
    @parse_ai_response Reference.runtime
      (py "[{" ++ quoted "score" ++ py ":9},5,{" ++ quoted "score" ++ py ":2}]") 3 =
      replicate 3 (mk_evaluation (VInt 7) (VBool true) (py "解析失败: " ++ exn_str e)).
Proof.
  apply (@parse_ai_response_all_or_nothing Reference.runtime
           (py "[{" ++ quoted "score" ++ py ":9},5,{" ++ quoted "score" ++ py ":2}]")
           (py "[{" ++ quoted "score" ++ py ":9},5,{" ++ quoted "score" ++ py ":2}]")
           [VDict [(py "score", VInt 9)]; VInt 5; VDict [(py "score", VInt 2)]] 3).
  - vm_compute. reflexivity.
  - vm_compute. reflexivity.
Defined.

(** ** Configurations out of range *)

Section OutOfRange.
Context `{PythonRuntime} {disk : Type} `{!TextFiles disk}.


End OutOfRange.

